(** * Stellark: on-chain transaction orchestration and off-chain reconciliation

    A shallow embedding of the TypeScript front end of Stellark:
    - [frontend/src/lib/stellar.ts]          (module [Stellar]),
    - [frontend/src/lib/contractService.ts]  (module [ContractService]),
    - [frontend/src/pages/HomePage.tsx]      (module [HomePage]),
    - [frontend/src/components/InvestModal]  (module [InvestModal]).

    JavaScript numbers are IEEE-754 binary64 values ([spec_float] of the
    standard library, precision 53, emax 1024).  Asynchronous code is
    sequential state passing: every [await] is one step of a state and
    exception monad whose state records the calls made to the external
    collaborators (ledger RPC, wallet extension) and holds the hosted
    relational store.  The collaborators themselves are a record of
    responses, [World]. *)

From Stdlib Require Import ZArith String Ascii List Lia Bool.
From Stdlib Require Import Floats.SpecFloat.
From stdpp Require Import base option list gmap strings sorting pretty.

Local Open Scope string_scope.
Local Open Scope Z_scope.

(* ===================================================================== *)
(** * JavaScript values and numbers *)
(* ===================================================================== *)

Module Js.

(** [number]: binary64. *)
Definition number : Type := spec_float.
Definition prec : Z := 53.
Definition emax : Z := 1024.

Definition mul : number -> number -> number := SFmul prec emax.
Definition sub : number -> number -> number := SFsub prec emax.
Definition div : number -> number -> number := SFdiv prec emax.

(** [Number(z)] for a bigint (and an integer literal): round to nearest,
    ties to even; an integer too large for binary64 becomes Infinity. *)
Definition Number (z : Z) : number := binary_normalize prec emax z 0 false.

Definition zero : number := S754_zero false.

(** The signed integer mantissa of a finite number. *)
Definition mantissa (s : bool) (m : positive) : Z := cond_Zopp s (Z.pos m).

(** [Math.floor]: NaN, the infinities, the zeros and integral values are
    returned as they are; otherwise the greatest integer below.  For
    [m * 2^e] with [e < 0] that integer is the arithmetic shift of [m]. *)
Definition Math_floor (x : number) : number :=
  match x with
  | S754_finite s m e =>
      if 0 <=? e then x
      else if Z.land (Z.pos m) (Z.ones (- e)) =? 0 then x
      else Number (Z.shiftr (mantissa s m) (- e))
  | _ => x
  end.

(** [BigInt(x)]: defined on integral finite numbers, a RangeError
    otherwise ([None]). *)
Definition BigInt (x : number) : option Z :=
  match x with
  | S754_zero _ => Some 0
  | S754_finite s m e =>
      if 0 <=? e then Some (Z.shiftl (mantissa s m) e)
      else if Z.land (Z.pos m) (Z.ones (- e)) =? 0
           then Some (Z.shiftr (mantissa s m) (- e))
           else None
  | _ => None
  end.

(** The mathematical floor of a finite number, as a relation on integers:
    [x = m * 2^e], so [floor x = z] iff [z * 2^-e <= m < (z+1) * 2^-e]
    when [e < 0], and [z = m * 2^e] otherwise. *)
Definition is_floor_of (x : number) (z : Z) : Prop :=
  match x with
  | S754_zero _ => z = 0
  | S754_finite s m e =>
      if 0 <=? e then z = mantissa s m * 2 ^ e
      else z * 2 ^ (- e) <= mantissa s m < (z + 1) * 2 ^ (- e)
  | _ => False
  end.

(** A number is an amount when it is a finite, non-negative, well-formed
    binary64 value. *)
Definition is_amount (x : number) : bool :=
  match x with
  | S754_zero _ => true
  | S754_finite s m e => negb s && bounded prec emax m e
  | _ => false
  end.

Definition is_finite (x : number) : bool :=
  match x with
  | S754_zero _ | S754_finite _ _ _ => true
  | _ => false
  end.

(** Values of type [any]. *)
#[warnings="-register-all"] Inductive value : Type :=
| JUndefined
| JNull
| JBool (b : bool)
| JNumber (n : number)
| JBigInt (z : Z)
| JString (s : string)
| JArray (items : list value)
| JObject (fields : list (string * value)).

Definition typeof (v : value) : string :=
  match v with
  | JUndefined => "undefined"
  | JNull => "object"
  | JBool _ => "boolean"
  | JNumber _ => "number"
  | JBigInt _ => "bigint"
  | JString _ => "string"
  | JArray _ => "object"
  | JObject _ => "object"
  end.

Definition is_nan (x : number) : bool :=
  match x with S754_nan => true | _ => false end.

Definition is_zero (x : number) : bool :=
  match x with S754_zero _ => true | _ => false end.

(** ToBoolean: [if (v)], [!v], [v || d], [v ? a : b]. *)
Definition truthy (v : value) : bool :=
  match v with
  | JUndefined | JNull => false
  | JBool b => b
  | JNumber n => negb (is_nan n || is_zero n)
  | JBigInt z => negb (z =? 0)
  | JString s => negb (String.eqb s EmptyString)
  | JArray _ | JObject _ => true
  end.

(** Property read [o.k]; [undefined] when the property is absent or the
    receiver is a primitive without it. *)
Fixpoint assoc (k : string) (fields : list (string * value)) : value :=
  match fields with
  | [] => JUndefined
  | (k', v) :: rest => if String.eqb k k' then v else assoc k rest
  end.

Definition get (o : value) (k : string) : value :=
  match o with
  | JObject fields => assoc k fields
  | _ => JUndefined
  end.

(** [a || b] on values. *)
Definition or_else (a b : value) : value := if truthy a then a else b.

(** [s || d] on strings. *)
Definition str_or (s d : string) : string :=
  if String.eqb s EmptyString then d else s.

End Js.

Import Js.

(* ===================================================================== *)
(** * The Stellar SDK, the ledger RPC endpoint and the wallet extension *)
(* ===================================================================== *)

Module Soroban.

(** Contract values ([xdr.ScVal]).  Contract structs are maps keyed by
    symbols. *)
#[warnings="-register-all"] Inductive ScVal : Type :=
| scvVoid
| scvBool (b : bool)
| scvU32 (n : Z)
| scvI32 (n : Z)
| scvU64 (n : Z)
| scvI64 (n : Z)
| scvU128 (n : Z)
| scvI128 (n : Z)
| scvString (s : string)
| scvSymbol (s : string)
| scvAddress (s : string)
| scvVec (items : list ScVal)
| scvMap (entries : list (string * ScVal)).

(** [scValToNative]: 32-bit integers become numbers, wider integers
    become bigints, vectors arrays, maps plain objects. *)
Fixpoint scValToNative (v : ScVal) : value :=
  match v with
  | scvVoid => JNull
  | scvBool b => JBool b
  | scvU32 n | scvI32 n => JNumber (Number n)
  | scvU64 n | scvI64 n | scvU128 n | scvI128 n => JBigInt n
  | scvString s | scvSymbol s | scvAddress s => JString s
  | scvVec items => JArray (List.map scValToNative items)
  | scvMap entries =>
      JObject (List.map (fun kv => (fst kv, scValToNative (snd kv))) entries)
  end.

(** What a rejected promise or a [throw] carries. *)
Inductive JsError : Type :=
| Error (message : string)          (* [new Error(message)] of this code *)
| SdkError (message : string)       (* thrown inside the Stellar SDK *)
| RpcError (message : string)       (* the RPC call itself failed *)
| WalletError (message : string)    (* the signer declined or is absent *)
| PostgrestError (code message : string).  (* the store's [error] object *)

(** [error.message]. *)
Definition err_message (e : JsError) : string :=
  match e with
  | Error m | SdkError m | RpcError m | WalletError m => m
  | PostgrestError _ m => m
  end.

Record Account : Type := { accountId : string; sequence : Z }.

(** One contract-invocation operation, [contract.call(method, ...params)]. *)
Record Operation : Type :=
  { op_contract : string; op_method : string; op_args : list ScVal }.

Record SimulationResult : Type := { auth : list string; retval : ScVal }.

Record Transaction : Type :=
  { tx_source : Account;
    tx_fee : Z;
    tx_networkPassphrase : string;
    tx_operation : Operation;
    tx_timeout : Z;
    tx_auth : option (list string);   (* set by [assembleTransaction] *)
    tx_signedBy : option string }.    (* set by the wallet *)

(** [Api.SimulateTransactionResponse]; [Api.isSimulationError] tests for
    the [error] member. *)
Inductive SimulateTransactionResponse : Type :=
| SimulationError (error : string)
| SimulationSuccess (result : option SimulationResult) (minResourceFee : Z).

Definition isSimulationError (sim : SimulateTransactionResponse) : bool :=
  match sim with SimulationError _ => true | SimulationSuccess _ _ => false end.

Inductive SendStatus : Type :=
| SEND_PENDING | SEND_DUPLICATE | SEND_TRY_AGAIN_LATER | SEND_ERROR.

Record SendTransactionResponse : Type :=
  { send_status : SendStatus; send_hash : string }.

(** [Api.GetTransactionStatus] with the return value a successful
    transaction may carry. *)
Inductive GetTransactionResponse : Type :=
| NOT_FOUND
| SUCCESS (returnValue : option ScVal)
| FAILED.

Definition status_name (r : GetTransactionResponse) : string :=
  match r with
  | NOT_FOUND => "NOT_FOUND"
  | SUCCESS _ => "SUCCESS"
  | FAILED => "FAILED"
  end.

(** The external collaborators of one session.  A call either answers or
    throws ([inl]).  [strkey_valid] is the SDK's check of account and
    contract identifiers.  The wallet answers a signing request with the
    signed envelope, already parsed back by [TransactionBuilder.fromXDR];
    a declined request or an unreadable answer is [inl].  The ledger
    answers the [n]-th status poll of the session with
    [rpc_getTransaction hash n]. *)
Record World : Type :=
  { strkey_valid : string -> bool;
    rpc_getAccount : string -> JsError + Account;
    rpc_simulateTransaction : Transaction -> JsError + SimulateTransactionResponse;
    freighter_signTransaction : Transaction -> string -> JsError + Transaction;
    rpc_sendTransaction : Transaction -> JsError + SendTransactionResponse;
    rpc_getTransaction : string -> nat -> JsError + GetTransactionResponse }.

(** The calls that leave the page, in the order they are made, and the
    [alert]s shown to the user. *)
Inductive Event : Type :=
| EvGetAccount (address : string)
| EvSimulate (tx : Transaction)
| EvSign (tx : Transaction) (address : string)
| EvSend (tx : Transaction)
| EvGetTransaction (hash : string)
| EvSleep (ms : Z)
| EvAlert (message : string).

Definition NETWORK_PASSPHRASE : string := "Test SDF Network ; September 2015".
Definition BASE_FEE : Z := 100.

(** [new TransactionBuilder(account, {fee, networkPassphrase})
      .addOperation(operation).setTimeout(30).build()]. *)
Definition build (account : Account) (operation : Operation) (timeout : Z)
  : Transaction :=
  {| tx_source := account;
     tx_fee := BASE_FEE;
     tx_networkPassphrase := NETWORK_PASSPHRASE;
     tx_operation := operation;
     tx_timeout := timeout;
     tx_auth := None;
     tx_signedBy := None |}.

(** [assembleTransaction(tx, simulated).build()]: the resource fee and the
    authorization entries of the simulation are merged into the envelope. *)
Definition assembleTransaction (tx : Transaction)
    (result : option SimulationResult) (minResourceFee : Z) : Transaction :=
  {| tx_source := tx_source tx;
     tx_fee := tx_fee tx + minResourceFee;
     tx_networkPassphrase := tx_networkPassphrase tx;
     tx_operation := tx_operation tx;
     tx_timeout := tx_timeout tx;
     tx_auth := Some (match result with Some r => auth r | None => [] end);
     tx_signedBy := None |}.

End Soroban.

Import Soroban.

(* ===================================================================== *)
(** * The hosted relational store (schema of the SQL migration) *)
(* ===================================================================== *)

Module Store.

(** [public.companies]; [contract_id] is nullable, timestamps are
    microseconds since the epoch. *)
Record CompanyRow : Type :=
  { c_id : string;
    c_name : string;
    c_description : string;
    c_logo_url : string;
    c_equity_percentage : Z;
    c_target_amount : number;
    c_token_price : number;
    c_total_tokens : Z;
    c_tokens_sold : Z;
    c_wallet_address : string;
    c_contract_id : option string;
    c_created_at : Z }.

(** [public.resale_listings], with
    [tokens_for_sale INTEGER NOT NULL CHECK (tokens_for_sale > 0)]. *)
Record ListingRow : Type :=
  { l_id : string;
    l_company_id : string;
    l_seller_wallet : string;
    l_tokens_for_sale : Z;
    l_price_per_token : number;
    l_is_active : bool;
    l_created_at : Z }.

(** Tables are keyed by their primary key [id].  [reachable] is false when
    the request to the store does not get through. *)
Record Database : Type :=
  { reachable : bool;
    companies : gmap string CompanyRow;
    resale_listings : gmap string ListingRow }.

(** What the query builder resolves to: [{ data, error }]. *)
Record Response (A : Type) : Type :=
  { data : option A; error : option JsError }.
Arguments data {A} _.
Arguments error {A} _.

Definition ok {A} (a : A) : Response A := {| data := Some a; error := None |}.
Definition failed {A} (e : JsError) : Response A :=
  {| data := None; error := Some e |}.

Definition fetch_failed : JsError := PostgrestError EmptyString "TypeError: Failed to fetch".
Definition not_single : JsError :=
  PostgrestError "PGRST116" "JSON object requested, multiple (or no) rows returned".
Definition check_violation : JsError :=
  PostgrestError "23514" "new row violates check constraint".

(** [.order('created_at', { ascending: false })]. *)
Definition company_newer_first (a b : CompanyRow) : Prop :=
  c_created_at b <= c_created_at a.
Definition listing_newer_first (a b : ListingRow) : Prop :=
  l_created_at b <= l_created_at a.

#[export] Instance company_newer_first_dec a b : Decision (company_newer_first a b) :=
  Z_le_dec (c_created_at b) (c_created_at a).
#[export] Instance listing_newer_first_dec a b : Decision (listing_newer_first a b) :=
  Z_le_dec (l_created_at b) (l_created_at a).

Definition rows {A} (t : gmap string A) : list A := (map_to_list t).*2.

(** [from('companies').select('*').order('created_at', desc)]. *)
Definition select_companies (d : Database) : Response (list CompanyRow) :=
  if reachable d
  then ok (merge_sort company_newer_first (rows (companies d)))
  else failed fetch_failed.

(** [.or(`contract_id.eq.${x},wallet_address.eq.${x}`)]. *)
Definition company_matches (x : string) (c : CompanyRow) : bool :=
  match c_contract_id c with
  | Some cid => String.eqb cid x || String.eqb (c_wallet_address c) x
  | None => String.eqb (c_wallet_address c) x
  end.

(** [.single()]: exactly one row, an error otherwise. *)
Definition single {A} (l : list A) : Response A :=
  match l with
  | [a] => ok a
  | _ => failed not_single
  end.

Definition select_company_single (d : Database) (x : string) : Response CompanyRow :=
  if reachable d
  then single (List.filter (company_matches x) (rows (companies d)))
  else failed fetch_failed.

(** [from('resale_listings').select('*').eq('is_active', true)
      .order('created_at', { ascending: false })]. *)
Definition select_active_listings (d : Database) : Response (list ListingRow) :=
  if reachable d
  then ok (merge_sort listing_newer_first
             (List.filter l_is_active (rows (resale_listings d))))
  else failed fetch_failed.

Definition set_tokens_for_sale (q : Z) (l : ListingRow) : ListingRow :=
  {| l_id := l_id l; l_company_id := l_company_id l;
     l_seller_wallet := l_seller_wallet l; l_tokens_for_sale := q;
     l_price_per_token := l_price_per_token l; l_is_active := l_is_active l;
     l_created_at := l_created_at l |}.

Definition set_is_active (b : bool) (l : ListingRow) : ListingRow :=
  {| l_id := l_id l; l_company_id := l_company_id l;
     l_seller_wallet := l_seller_wallet l;
     l_tokens_for_sale := l_tokens_for_sale l;
     l_price_per_token := l_price_per_token l; l_is_active := b;
     l_created_at := l_created_at l |}.

Definition with_listings (d : Database) (t : gmap string ListingRow) : Database :=
  {| reachable := reachable d; companies := companies d; resale_listings := t |}.

(** [update({ tokens_for_sale: q }).eq('id', id)]: rejected by the CHECK
    constraint when a row would get a quantity that is not positive; no
    matching row is not an error. *)
Definition update_tokens_for_sale (d : Database) (id : string) (q : Z)
  : Response unit * Database :=
  if negb (reachable d) then (failed fetch_failed, d)
  else match resale_listings d !! id with
       | Some _ =>
           if 0 <? q
           then (ok tt, with_listings d (alter (set_tokens_for_sale q) id (resale_listings d)))
           else (failed check_violation, d)
       | None => (ok tt, d)
       end.

(** [update({ is_active: false }).eq('id', id)]. *)
Definition update_is_active (d : Database) (id : string) (b : bool)
  : Response unit * Database :=
  if negb (reachable d) then (failed fetch_failed, d)
  else (ok tt, with_listings d (alter (set_is_active b) id (resale_listings d))).

End Store.

Import Store.

(* ===================================================================== *)
(** * Promises: a state and exception monad *)
(* ===================================================================== *)

Module Async.

(** The calls made so far, the number of status polls answered so far,
    and the store. *)
Record State : Type :=
  { trace : list Event; polls : nat; db : Database }.

(** How an awaited promise ends: fulfilled, rejected, or not settled
    within the loop budget. *)
Inductive outcome (A : Type) : Type :=
| Return (a : A)
| Throw (e : JsError)
| Unsettled.
Arguments Return {A} a.
Arguments Throw {A} e.
Arguments Unsettled {A}.

Definition M (A : Type) : Type := State -> outcome A * State.

Definition ret {A} (a : A) : M A := fun st => (Return a, st).
Definition throw {A} (e : JsError) : M A := fun st => (Throw e, st).
Definition unsettled {A} : M A := fun st => (Unsettled, st).

Definition bind {A B} (m : M A) (k : A -> M B) : M B :=
  fun st =>
    match m st with
    | (Return a, st') => k a st'
    | (Throw e, st') => (Throw e, st')
    | (Unsettled, st') => (Unsettled, st')
    end.

(** [try { m } catch (error) { handler error }]. *)
Definition try_catch {A} (m : M A) (handler : JsError -> M A) : M A :=
  fun st =>
    match m st with
    | (Throw e, st') => handler e st'
    | r => r
    end.

Definition of_sum {A} (r : JsError + A) : outcome A :=
  match r with inl e => Throw e | inr a => Return a end.

Definition lift {A} (r : JsError + A) : M A := fun st => (of_sum r, st).

Definition log (ev : Event) (st : State) : State :=
  {| trace := trace st ++ [ev]; polls := polls st; db := db st |}.

(** An awaited call to a collaborator: recorded, then answered. *)
Definition call {A} (ev : Event) (r : JsError + A) : M A :=
  fun st => (of_sum r, log ev st).

(** One request to the store. *)
Definition query {A} (q : Database -> Response A * Database) : M (Response A) :=
  fun st =>
    let '(r, d) := q (db st) in
    (Return r, {| trace := trace st; polls := polls st; db := d |}).

Definition read {A} (q : Database -> Response A) : M (Response A) :=
  query (fun d => (q d, d)).

Definition initial (d : Database) : State :=
  {| trace := []; polls := 0; db := d |}.

End Async.

Import Async.

Notation "x <- m ;; k" := (bind m (fun x => k))
  (at level 100, m at next level, right associativity).
Notation "m ;;; k" := (bind m (fun _ => k))
  (at level 100, right associativity).

(* ===================================================================== *)
(** * frontend/src/lib/stellar.ts *)
(* ===================================================================== *)

Module Stellar.

(** Native XLM token address on Stellar testnet (the default used when the
    environment does not override it). *)
Definition XLM_TOKEN_ADDRESS : string :=
  "CDLZFC3SYJYDZT7K67VZ75HPJVIEUVNIXF47ZG2FB2RMQQVU2HHGCYSC".

(** The dummy source account of read-only calls. *)
Definition DUMMY_ACCOUNT : string :=
  "GAAAAAAAAAAAAAAAAAAAAAAAAAAAAAAAAAAAAAAAAAAAAAAAAAAAAWHF".

Section WithWorld.
Variable w : World.

(** [new Contract(contractId)] rejects a malformed identifier. *)
Definition new_Contract (contractId : string) : M string :=
  if strkey_valid w contractId then ret contractId
  else throw (SdkError "Invalid contract ID").

Definition getAccount (address : string) : M Account :=
  call (EvGetAccount address) (rpc_getAccount w address).

Definition simulateTransaction (tx : Transaction) : M SimulateTransactionResponse :=
  call (EvSimulate tx) (rpc_simulateTransaction w tx).

Definition signTransaction (tx : Transaction) (address : string) : M Transaction :=
  call (EvSign tx address) (freighter_signTransaction w tx address).

Definition sendTransaction (tx : Transaction) : M SendTransactionResponse :=
  call (EvSend tx) (rpc_sendTransaction w tx).

Definition getTransaction (hash : string) : M GetTransactionResponse :=
  fun st =>
    (of_sum (rpc_getTransaction w hash (polls st)),
     {| trace := trace st ++ [EvGetTransaction hash];
        polls := S (polls st);
        db := db st |}).

(** [await new Promise(resolve => setTimeout(resolve, ms))]. *)
Definition sleep (ms : Z) : M unit :=
  fun st => (Return tt, log (EvSleep ms) st).

(** [while (getResponse.status === NOT_FOUND) { sleep 1000; poll }].
    The loop has no bound of its own; [fuel] is the number of rounds
    observed, and a loop still running after them is [Unsettled]. *)
Fixpoint pollWhileNotFound (fuel : nat) (hash : string)
    (getResponse : GetTransactionResponse) : M GetTransactionResponse :=
  match getResponse with
  | NOT_FOUND =>
      match fuel with
      | O => unsettled
      | S fuel' =>
          sleep 1000 ;;;
          getResponse' <- getTransaction hash ;;
          pollWhileNotFound fuel' hash getResponse'
      end
  | _ => ret getResponse
  end.

(** Build and submit a Soroban contract transaction. *)
Definition invokeContract (fuel : nat)
    (walletAddress contractId method : string) (params : list ScVal)
  : M value :=
  try_catch
    (contract <- new_Contract contractId ;;
     account <- getAccount walletAddress ;;
     let operation :=
       {| op_contract := contract; op_method := method; op_args := params |} in
     let transaction := build account operation 30 in
     simulated <- simulateTransaction transaction ;;
     match simulated with
     | SimulationError error =>
         throw (Error ("Simulation failed: " +:+ str_or error "Unknown error"))
     | SimulationSuccess result minResourceFee =>
         let assembled := assembleTransaction transaction result minResourceFee in
         signedTransaction <- signTransaction assembled walletAddress ;;
         sendResponse <- sendTransaction signedTransaction ;;
         match send_status sendResponse with
         | SEND_PENDING =>
             getResponse <- getTransaction (send_hash sendResponse) ;;
             getResponse <- pollWhileNotFound fuel (send_hash sendResponse) getResponse ;;
             match getResponse with
             | SUCCESS result =>
                 ret (match result with
                      | Some r => scValToNative r
                      | None => JNull
                      end)
             | other => throw (Error ("Transaction failed: " +:+ status_name other))
             end
         | _ => throw (Error "Transaction submission failed")
         end
     end)
    (fun error => throw error).

(** Read-only contract call (does not require signing). *)
Definition readContract (contractId method : string) (params : list ScVal)
  : M value :=
  try_catch
    (contract <- new_Contract contractId ;;
     account <- getAccount DUMMY_ACCOUNT ;;
     let operation :=
       {| op_contract := contract; op_method := method; op_args := params |} in
     let transaction := build account operation 30 in
     simulated <- simulateTransaction transaction ;;
     match simulated with
     | SimulationError _ => throw (Error "Simulation failed")
     | SimulationSuccess result _ =>
         ret (match result with
              | Some r => scValToNative (retval r)
              | None => JNull
              end)
     end)
    (fun error => throw error).

(** [nativeToScVal(address, { type: 'address' })]. *)
Definition addressToScVal (address : string) : JsError + ScVal :=
  if strkey_valid w address then inr (scvAddress address)
  else inl (SdkError "Unsupported address type").

End WithWorld.

(** [nativeToScVal(str, { type: 'string' })]. *)
Definition stringToScVal (str : string) : ScVal := scvString str.

(** [nativeToScVal(num, { type: 'i128' })]: the number goes through
    [BigInt] and has to fit 128 signed bits. *)
Definition numberToScVal (num : number) : JsError + ScVal :=
  match BigInt num with
  | Some z =>
      if (- 2 ^ 127 <=? z) && (z <? 2 ^ 127) then inr (scvI128 z)
      else inl (SdkError "bigint values out of range")
  | None => inl (SdkError "RangeError: cannot be converted to a BigInt")
  end.

(** Convert BigInt to Number. *)
Definition bigIntToNumber (v : value) : number :=
  match v with
  | JBigInt z => Number z        (* typeof value === 'bigint' *)
  | JNumber n => n               (* typeof value === 'number' *)
  | _ => zero
  end.

End Stellar.

Import Stellar.

(* ===================================================================== *)
(** * frontend/src/lib/contractService.ts *)
(* ===================================================================== *)

Module ContractService.

Record CompanyInfo : Type :=
  { name : value;
    symbol : value;
    total_supply : number;
    owner : value;
    equity_percent : number;
    description : value;
    token_price : number;
    target_amount : number }.

Record CompanyMetadata : Type :=
  { contractId : string;
    m_name : string;
    m_description : string;
    logo_url : string;
    owner_wallet : string;
    m_token_price : number;
    m_target_amount : number;
    m_created_at : Z }.

Record ResaleListing : Type :=
  { id : string;
    contract_id : string;
    seller_wallet : string;
    tokens_for_sale : Z;
    price_per_token : number;
    is_active : bool;
    created_at : Z }.

(** The literal [10_000_000]. *)
Definition TEN_MILLION : number := Eval vm_compute in Number 10000000.

(** [Math.floor(x * 10_000_000)]: 1 XLM = 10^7 stroops. *)
Definition stroops (x : number) : number := Math_floor (mul x TEN_MILLION).

Section WithWorld.
Variable w : World.

(** Initialize a new company token on-chain. *)
Definition initializeCompany (fuel : nat) (walletAddress contractId : string)
    (name symbol : string) (totalSupply equityPercent : number)
    (description : string) (tokenPrice targetAmount : number) : M unit :=
  let tokenPriceStroops := stroops tokenPrice in
  let targetAmountStroops := stroops targetAmount in
  p2 <- lift (numberToScVal totalSupply) ;;
  p3 <- lift (addressToScVal w walletAddress) ;;
  p4 <- lift (numberToScVal equityPercent) ;;
  p6 <- lift (numberToScVal tokenPriceStroops) ;;
  p7 <- lift (numberToScVal targetAmountStroops) ;;
  let params :=
    [stringToScVal name; stringToScVal symbol; p2; p3; p4;
     stringToScVal description; p6; p7] in
  invokeContract w fuel walletAddress contractId "init_company" params ;;;
  ret tt.

(** Get company information from contract. *)
Definition getCompanyInfo (contractId : string) : M (option CompanyInfo) :=
  try_catch
    (result <- readContract w contractId "get_company_info" [] ;;
     if negb (truthy result) then ret None
     else ret (Some
       {| name := get result "name";
          symbol := get result "symbol";
          total_supply := bigIntToNumber (get result "total_supply");
          owner := get result "owner";
          equity_percent := bigIntToNumber (get result "equity_percent");
          description := or_else (get result "description") (JString EmptyString);
          token_price := bigIntToNumber (get result "token_price");
          target_amount := bigIntToNumber (get result "target_amount") |}))
    (fun _ => ret None).

(** Transfer tokens with payment (resale market): the buyer signs. *)
Definition transferTokensWithPayment (fuel : nat)
    (buyerAddress sellerAddress contractId : string)
    (amount pricePerToken : number) (xlmTokenAddress : string) : M unit :=
  let pricePerTokenStroops := stroops pricePerToken in
  p0 <- lift (addressToScVal w sellerAddress) ;;
  p1 <- lift (addressToScVal w buyerAddress) ;;
  p2 <- lift (numberToScVal amount) ;;
  p3 <- lift (numberToScVal pricePerTokenStroops) ;;
  p4 <- lift (addressToScVal w xlmTokenAddress) ;;
  invokeContract w fuel buyerAddress contractId "transfer_with_payment"
    [p0; p1; p2; p3; p4] ;;;
  ret tt.

(** Get token balance for an address. *)
Definition getTokenBalance (contractId address : string) : M number :=
  try_catch
    (p0 <- lift (addressToScVal w address) ;;
     result <- readContract w contractId "balance_of" [p0] ;;
     ret (bigIntToNumber result))
    (fun _ => ret zero).

End WithWorld.

Definition company_of_row (c : CompanyRow) : CompanyMetadata :=
  {| contractId :=
       match c_contract_id c with
       | Some cid => str_or cid (c_wallet_address c)
       | None => c_wallet_address c
       end;
     m_name := c_name c;
     m_description := c_description c;
     logo_url := c_logo_url c;
     owner_wallet := c_wallet_address c;
     m_token_price := c_token_price c;
     m_target_amount := c_target_amount c;
     m_created_at := c_created_at c |}.

Definition listing_of_row (l : ListingRow) : ResaleListing :=
  {| id := l_id l;
     contract_id := l_company_id l;
     seller_wallet := l_seller_wallet l;
     tokens_for_sale := l_tokens_for_sale l;
     price_per_token := l_price_per_token l;
     is_active := l_is_active l;
     created_at := l_created_at l |}.

(** [(data || []).map(...)]. *)
Definition or_empty {A} (d : option (list A)) : list A :=
  match d with Some l => l | None => [] end.

Definition getCompaniesMetadata : M (list CompanyMetadata) :=
  r <- read select_companies ;;
  match error r with
  | Some _ => ret []
  | None => ret (List.map company_of_row (or_empty (data r)))
  end.

Definition getCompanyMetadata (contractId : string) : M (option CompanyMetadata) :=
  r <- read (fun d => select_company_single d contractId) ;;
  match error r, data r with
  | None, Some row => ret (Some (company_of_row row))
  | _, _ => ret None                      (* if (error || !data) *)
  end.

Definition getActiveResaleListings : M (list ResaleListing) :=
  r <- read select_active_listings ;;
  match error r with
  | Some _ => ret []
  | None => ret (List.map listing_of_row (or_empty (data r)))
  end.

Definition updateResaleListingQuantity (id : string) (newQuantity : Z) : M unit :=
  r <- query (fun d => update_tokens_for_sale d id newQuantity) ;;
  match error r with
  | Some e => throw e
  | None => ret tt
  end.

Definition deactivateResaleListing (id : string) : M unit :=
  r <- query (fun d => update_is_active d id false) ;;
  match error r with
  | Some e => throw e
  | None => ret tt
  end.

End ContractService.

Import ContractService.

(* ===================================================================== *)
(** * frontend/src/pages/HomePage.tsx *)
(* ===================================================================== *)

Module HomePage.

Record CompanyWithOnChainData : Type :=
  { metadata : CompanyMetadata;
    onChainInfo : option CompanyInfo;
    tokensSold : number }.

Definition alert (message : string) : M unit :=
  fun st => (Return tt, log (EvAlert message) st).

(** [!!walletAddress] for a [string | null]. *)
Definition connected (walletAddress : option string) : option string :=
  match walletAddress with
  | Some a => if String.eqb a EmptyString then None else Some a
  | None => None
  end.

Section WithWorld.
Variable w : World.

(** The body of [metadata.map(async (meta) => ...)] in [loadCompanies]:
    tokens sold is the total supply minus the owner's balance. *)
Definition loadCompany (meta : CompanyMetadata) : M CompanyWithOnChainData :=
  try_catch
    (onChainInfo <- getCompanyInfo w (contractId meta) ;;
     ownerBalance <- getTokenBalance w (contractId meta) (owner_wallet meta) ;;
     let tokensSold :=
       match onChainInfo with
       | Some info => sub (total_supply info) ownerBalance
       | None => zero
       end in
     ret {| metadata := meta; onChainInfo := onChainInfo; tokensSold := tokensSold |})
    (fun _ => ret {| metadata := meta; onChainInfo := None; tokensSold := zero |}).

(** [handleBuyResale(tokens, _totalAmount)]: pay and transfer on-chain,
    then settle the off-chain listing.  The page state ([loading],
    [selectedResale]) and the read-only reload that follows are left
    out. *)
Definition handleBuyResale (fuel : nat) (isConnected : bool)
    (walletAddress : option string) (selectedResale : option ResaleListing)
    (tokens : Z) : M unit :=
  match isConnected, connected walletAddress, selectedResale with
  | true, Some wallet, Some selected =>
      try_catch
        (transferTokensWithPayment w fuel
           wallet (seller_wallet selected) (contract_id selected)
           (Number tokens) (price_per_token selected) XLM_TOKEN_ADDRESS ;;;
         let remainingTokens := tokens_for_sale selected - tokens in
         if 0 <? remainingTokens then
           updateResaleListingQuantity (id selected) remainingTokens ;;;
           alert ("Purchase successful! " +:+ pretty tokens
                    +:+ " tokens transferred. " +:+ pretty remainingTokens
                    +:+ " tokens still available.")
         else
           deactivateResaleListing (id selected) ;;;
           alert "Purchase successful! All tokens from this listing have been sold.")
        (fun error =>
           alert ("Purchase failed: " +:+ str_or (err_message error) "Unknown error"))
  | _, _, _ => alert "Please connect your wallet first"
  end.

End WithWorld.

End HomePage.

Import HomePage.

(* ===================================================================== *)
(** * frontend/src/components/InvestModal.tsx *)
(* ===================================================================== *)

Module InvestModal.

(** [parseInt(value)]: leading white space, an optional sign, an optional
    [0x] prefix, then the longest run of digits; [None] is NaN. *)
Definition is_space (c : ascii) : bool :=
  let n := nat_of_ascii c in
  (n =? 32)%nat || ((9 <=? n)%nat && (n <=? 13)%nat).

Fixpoint skip_spaces (s : string) : string :=
  match s with
  | String c rest => if is_space c then skip_spaces rest else s
  | EmptyString => s
  end.

Definition digit_of (radix : Z) (c : ascii) : option Z :=
  let n := Z.of_nat (nat_of_ascii c) in
  let d :=
    if (48 <=? n) && (n <=? 57) then Some (n - 48)
    else if (97 <=? n) && (n <=? 122) then Some (n - 87)
    else if (65 <=? n) && (n <=? 90) then Some (n - 55)
    else None in
  match d with
  | Some k => if k <? radix then Some k else None
  | None => None
  end.

Fixpoint read_digits (radix : Z) (s : string) (acc : option Z) : option Z :=
  match s with
  | String c rest =>
      match digit_of radix c with
      | Some d => read_digits radix rest (Some (radix * default 0 acc + d))
      | None => acc
      end
  | EmptyString => acc
  end.

Definition read_unsigned (s : string) : option Z :=
  match s with
  | String "0" (String "x" rest) | String "0" (String "X" rest) =>
      read_digits 16 rest None
  | _ => read_digits 10 s None
  end.

Definition parseInt (value : string) : option Z :=
  match skip_spaces value with
  | String "-" rest => Z.opp <$> read_unsigned rest
  | String "+" rest => read_unsigned rest
  | s => read_unsigned s
  end.

Record Props : Type :=
  { companyName : string; tokenPrice : number; availableTokens : Z }.

(** [useState(1)], [useState(false)]. *)
Record ModalState : Type := { tokens : Z; isProcessing : bool }.

Definition opened : ModalState := {| tokens := 1; isProcessing := false |}.

Definition setTokens (n : Z) (s : ModalState) : ModalState :=
  {| tokens := n; isProcessing := isProcessing s |}.
Definition setIsProcessing (b : bool) (s : ModalState) : ModalState :=
  {| tokens := tokens s; isProcessing := b |}.

Definition handleTokenChange (p : Props) (value : string) (s : ModalState)
  : ModalState :=
  if String.eqb value EmptyString then setTokens 0 s
  else match parseInt value with
       | Some numValue =>
           setTokens (Z.max 0 (Z.min (availableTokens p) numValue)) s
       | None => s
       end.

(** [disabled={isProcessing || tokens < 1 || tokens > availableTokens}]. *)
Definition confirm_disabled (p : Props) (s : ModalState) : bool :=
  isProcessing s || (tokens s <? 1) || (availableTokens p <? tokens s).

(** [handleInvest]: the quantity handed to [onInvest], if any. *)
Definition handleInvest (s : ModalState) : option Z * ModalState :=
  if tokens s <? 1 then (None, s)
  else (Some (tokens s), setIsProcessing true s).

(** What can happen to an open modal: the quantity field changes, the
    confirm button is clicked, the pending [onInvest] promise settles. *)
Inductive UiEvent : Type :=
| Change (value : string)
| ClickConfirm
| Settled.

Definition step (p : Props) (s : ModalState) (ev : UiEvent)
  : option Z * ModalState :=
  match ev with
  | Change value => (None, handleTokenChange p value s)
  | ClickConfirm =>
      if confirm_disabled p s then (None, s) else handleInvest s
  | Settled => (None, setIsProcessing false s)
  end.

(** The quantities handed to [onInvest] during a session, oldest first. *)
Fixpoint submitted (p : Props) (s : ModalState) (evs : list UiEvent) : list Z :=
  match evs with
  | [] => []
  | ev :: rest =>
      let '(o, s') := step p s ev in
      match o with
      | Some n => n :: submitted p s' rest
      | None => submitted p s' rest
      end
  end.

(** The modal the home page opens for a resale listing. *)
Definition resale_props (companyName : string) (selectedResale : ResaleListing)
  : Props :=
  {| companyName := companyName;
     tokenPrice := price_per_token selectedResale;
     availableTokens := tokens_for_sale selectedResale |}.

End InvestModal.

Import InvestModal.

(* ===================================================================== *)
(** * Vocabulary of the statements *)
(* ===================================================================== *)

Module Spec.

Definition is_sign (ev : Event) : bool :=
  match ev with EvSign _ _ => true | _ => false end.

Definition is_send (ev : Event) : bool :=
  match ev with EvSend _ => true | _ => false end.

Definition is_poll (ev : Event) : bool :=
  match ev with EvGetTransaction _ | EvSleep _ => true | _ => false end.

Definition unsigned (evs : list Event) : bool :=
  forallb (fun ev => negb (is_sign ev)) evs.

Definition operation_of (contractId method : string) (params : list ScVal)
  : Operation :=
  {| op_contract := contractId; op_method := method; op_args := params |}.


(** The envelope [invokeContract] and [readContract] build. *)
Definition built (account : Account) (contractId method : string)
    (params : list ScVal) : Transaction :=
  build account (operation_of contractId method params) 30.

(** The calls of an orchestration that got as far as submitting. *)
Definition submission (walletAddress : string) (tx : Transaction)
    (result : option SimulationResult) (fee : Z) (signed : Transaction)
  : list Event :=
  [EvGetAccount walletAddress; EvSimulate tx;
   EvSign (assembleTransaction tx result fee) walletAddress; EvSend signed].

(** The state after further calls [evs], [n] of them status polls. *)
Definition advance (st : State) (evs : list Event) (n : nat) : State :=
  {| trace := trace st ++ evs; polls := polls st + n; db := db st |}.

(** [k] rounds of the confirmation loop: wait one second, poll again. *)
Definition rounds (hash : string) (k : nat) : list Event :=
  concat (repeat [EvSleep 1000; EvGetTransaction hash] k).

(** What the caller of [invokeContract] gets once the loop has ended. *)
Definition settle (r : outcome GetTransactionResponse * State)
  : outcome value * State :=
  match r with
  | (Return (SUCCESS rv), st') =>
      (Return (match rv with Some v => scValToNative v | None => JNull end), st')
  | (Return other, st') =>
      (Throw (Error ("Transaction failed: " +:+ status_name other)), st')
  | (Throw e, st') => (Throw e, st')
  | (Unsettled, st') => (Unsettled, st')
  end.

(** The calls a read-only query may make: the fetch of the dummy account
    and the simulation of an envelope built on it. *)
Definition read_only_event (w : World) (contractId method : string)
    (params : list ScVal) (ev : Event) : Prop :=
  ev = EvGetAccount DUMMY_ACCOUNT \/
  exists account,
    rpc_getAccount w DUMMY_ACCOUNT = inr account /\
    ev = EvSimulate (built account contractId method params).

(** The on-chain read behind [getTokenBalance] fails: the address is not
    encodable, or [readContract] throws. *)
Definition balance_read_fails (w : World) (contractId address : string)
    (st st' : State) : Prop :=
  (exists e, addressToScVal w address = inl e /\ st' = st) \/
  (exists p0 e,
      addressToScVal w address = inr p0 /\
      readContract w contractId "balance_of" [p0] st = (Throw e, st')).

(** Newest first, on what the store functions return. *)
Definition company_order (a b : CompanyMetadata) : Prop :=
  m_created_at b <= m_created_at a.
Definition listing_order (a b : ResaleListing) : Prop :=
  created_at b <= created_at a.

(** The company lookup as the specification words it: not-found is
    returned for a missing row, a store failure is thrown. *)
Definition lookup_tells_failure_apart : Prop :=
  forall (x : string) (st : State),
    (reachable (db st) = true ->
     List.filter (company_matches x) (rows (companies (db st))) = [] ->
     fst (getCompanyMetadata x st) = Return None) /\
    (reachable (db st) = false ->
     exists e, fst (getCompanyMetadata x st) = Throw e).

(** The decimal literal [num/den]: the binary64 value nearest to the
    quotient (division of two exactly represented integers is correctly
    rounded). *)
Definition literal (num den : Z) : number := div (Number num) (Number den).

End Spec.

Import Spec.

(* ===================================================================== *)
(** * Sample collaborators and stores *)
(* ===================================================================== *)

Module Demo.

Definition buyer : string := "GBUYER".
Definition seller : string := "GSELLER".
Definition token : string := "CTOKEN".

Definition sign_as (tx : Transaction) (address : string) : Transaction :=
  {| tx_source := tx_source tx; tx_fee := tx_fee tx;
     tx_networkPassphrase := tx_networkPassphrase tx;
     tx_operation := tx_operation tx; tx_timeout := tx_timeout tx;
     tx_auth := tx_auth tx; tx_signedBy := Some address |}.

Definition account_of (address : string) : Account :=
  {| accountId := address; sequence := 7 |}.

Definition accepted : SimulateTransactionResponse :=
  SimulationSuccess (Some {| auth := []; retval := scvVoid |}) 1000.

(** A ledger that accepts every call and reports [final] for the
    transaction after [k] polls that find nothing. *)
Definition settles_after (k : nat) (final : GetTransactionResponse) : World :=
  {| strkey_valid := fun _ => true;
     rpc_getAccount := fun a => inr (account_of a);
     rpc_simulateTransaction := fun _ => inr accepted;
     freighter_signTransaction := fun tx a => inr (sign_as tx a);
     rpc_sendTransaction :=
       fun _ => inr {| send_status := SEND_PENDING; send_hash := "a1b2" |};
     rpc_getTransaction :=
       fun _ n => inr (if (n <? k)%nat then NOT_FOUND else final) |}.

(** A ledger whose dry-run rejects every envelope. *)
Definition rejecting (diagnostic : string) : World :=
  {| strkey_valid := fun _ => true;
     rpc_getAccount := fun a => inr (account_of a);
     rpc_simulateTransaction := fun _ => inr (SimulationError diagnostic);
     freighter_signTransaction := fun tx a => inr (sign_as tx a);
     rpc_sendTransaction :=
       fun _ => inr {| send_status := SEND_PENDING; send_hash := "a1b2" |};
     rpc_getTransaction := fun _ _ => inr (SUCCESS None) |}.

(** A ledger that does not queue the submitted envelope. *)
Definition busy : World :=
  {| strkey_valid := fun _ => true;
     rpc_getAccount := fun a => inr (account_of a);
     rpc_simulateTransaction := fun _ => inr accepted;
     freighter_signTransaction := fun tx a => inr (sign_as tx a);
     rpc_sendTransaction :=
       fun _ => inr {| send_status := SEND_TRY_AGAIN_LATER; send_hash := "a1b2" |};
     rpc_getTransaction := fun _ _ => inr NOT_FOUND |}.

(** A ledger on which the transaction is never found. *)
Definition never_found : World :=
  {| strkey_valid := fun _ => true;
     rpc_getAccount := fun a => inr (account_of a);
     rpc_simulateTransaction := fun _ => inr accepted;
     freighter_signTransaction := fun tx a => inr (sign_as tx a);
     rpc_sendTransaction :=
       fun _ => inr {| send_status := SEND_PENDING; send_hash := "a1b2" |};
     rpc_getTransaction := fun _ _ => inr NOT_FOUND |}.

Definition company_struct : ScVal :=
  scvMap [("name", scvString "Acme"); ("symbol", scvString "ACM");
          ("total_supply", scvI128 1000); ("owner", scvAddress seller);
          ("equity_percent", scvI128 10); ("description", scvString "Rockets");
          ("token_price", scvI128 5000000); ("target_amount", scvI128 5000000000)].

(** A ledger that answers [get_company_info] and fails every other
    read. *)
Definition balance_unavailable : World :=
  {| strkey_valid := fun _ => true;
     rpc_getAccount := fun a => inr (account_of a);
     rpc_simulateTransaction :=
       fun tx =>
         if String.eqb (op_method (tx_operation tx)) "get_company_info"
         then inr (SimulationSuccess (Some {| auth := []; retval := company_struct |}) 0)
         else inr (SimulationError "HostError: Error(Storage, MissingValue)");
     freighter_signTransaction := fun tx a => inr (sign_as tx a);
     rpc_sendTransaction :=
       fun _ => inr {| send_status := SEND_ERROR; send_hash := EmptyString |};
     rpc_getTransaction := fun _ _ => inr NOT_FOUND |}.

Definition acme : CompanyRow :=
  {| c_id := "company-1"; c_name := "Acme"; c_description := "Rockets";
     c_logo_url := EmptyString; c_equity_percentage := 10;
     c_target_amount := Number 500; c_token_price := literal 1 2;
     c_total_tokens := 0; c_tokens_sold := 0;
     c_wallet_address := seller; c_contract_id := Some token;
     c_created_at := 1700 |}.

Definition first_listing : ListingRow :=
  {| l_id := "listing-1"; l_company_id := token; l_seller_wallet := seller;
     l_tokens_for_sale := 100; l_price_per_token := literal 1 2;
     l_is_active := true; l_created_at := 1800 |}.

Definition second_listing : ListingRow :=
  {| l_id := "listing-2"; l_company_id := token; l_seller_wallet := buyer;
     l_tokens_for_sale := 5; l_price_per_token := literal 3 4;
     l_is_active := true; l_created_at := 1900 |}.

Definition sold_listing : ListingRow :=
  {| l_id := "listing-0"; l_company_id := token; l_seller_wallet := seller;
     l_tokens_for_sale := 20; l_price_per_token := literal 1 2;
     l_is_active := false; l_created_at := 2000 |}.

Definition market : Database :=
  {| reachable := true;
     companies := {[ "company-1" := acme ]};
     resale_listings :=
       {[ "listing-1" := first_listing; "listing-2" := second_listing;
          "listing-0" := sold_listing ]} |}.

Definition offline : Database :=
  {| reachable := false; companies := ∅; resale_listings := ∅ |}.

Definition vacant : Database :=
  {| reachable := true; companies := ∅; resale_listings := ∅ |}.

End Demo.

Import Demo.


(* ===================================================================== *)
(** * The amount encoding as the specification words it *)
(* ===================================================================== *)

Module AmountSpec.





End AmountSpec.

Import AmountSpec.

(* ===================================================================== *)
(** * contractService.ts: the remaining contract calls *)
(* ===================================================================== *)

Module Service.

Section WithWorld.
Variable w : World.

(** Mint tokens to investor (buyer signs the transaction). *)
Definition mintTokens (fuel : nat) (buyerAddress contractId toAddress : string)
    (amount : number) (xlmTokenAddress : string) : M unit :=
  p0 <- lift (addressToScVal w toAddress) ;;
  p1 <- lift (numberToScVal amount) ;;
  p2 <- lift (addressToScVal w xlmTokenAddress) ;;
  invokeContract w fuel buyerAddress contractId "mint" [p0; p1; p2] ;;;
  ret tt.

(** Purchase tokens from company owner (primary market). *)
Definition purchaseTokens (fuel : nat) (buyerAddress contractId : string)
    (amount : number) : M unit :=
  p0 <- lift (addressToScVal w buyerAddress) ;;
  p1 <- lift (numberToScVal amount) ;;
  invokeContract w fuel buyerAddress contractId "purchase" [p0; p1] ;;;
  ret tt.

(** Transfer tokens between addresses (free - no payment). *)
Definition transferTokens (fuel : nat) (fromAddress toAddress contractId : string)
    (amount : number) : M unit :=
  p0 <- lift (addressToScVal w fromAddress) ;;
  p1 <- lift (addressToScVal w toAddress) ;;
  p2 <- lift (numberToScVal amount) ;;
  invokeContract w fuel fromAddress contractId "transfer" [p0; p1; p2] ;;;
  ret tt.

(** Burn tokens. *)
Definition burnTokens (fuel : nat) (walletAddress contractId : string)
    (amount : number) : M unit :=
  p0 <- lift (addressToScVal w walletAddress) ;;
  p1 <- lift (numberToScVal amount) ;;
  invokeContract w fuel walletAddress contractId "burn" [p0; p1] ;;;
  ret tt.

End WithWorld.

(** [a > b] on numbers: false when either side is NaN. *)
Definition gt (a b : number) : bool := SFltb b a.

(** [a < b] on numbers. *)
Definition lt (a b : number) : bool := SFltb a b.

(** [a <= b] on numbers. *)
Definition le (a b : number) : bool := SFleb a b.

Definition not_null_violation : JsError :=
  PostgrestError "23502" "null value violates not-null constraint".
Definition out_of_range : JsError :=
  PostgrestError "22003" "value is out of range for type integer".

(** The values of an [INTEGER] column. *)
Definition is_int4 (z : Z) : bool := (- 2 ^ 31 <=? z) && (z <? 2 ^ 31).

Definition duplicate_key : JsError :=
  PostgrestError "23505" "duplicate key value violates unique constraint".

Definition with_companies (d : Database) (t : gmap string CompanyRow) : Database :=
  {| reachable := reachable d; companies := t;
     resale_listings := resale_listings d |}.

(** [from('companies').insert(row)].  The [c_id] and [c_created_at] of the
    row are the values the store generates ([uuid_generate_v4()], [NOW()]).
    A number that is not finite is sent as JSON [null] and violates NOT
    NULL on the NUMERIC columns; a primary key can be used once. *)
Definition insert_company (d : Database) (row : CompanyRow)
  : Response unit * Database :=
  if negb (reachable d) then (failed fetch_failed, d)
  else if negb (is_finite (c_target_amount row) && is_finite (c_token_price row))
  then (failed not_null_violation, d)
  else match companies d !! c_id row with
       | Some _ => (failed duplicate_key, d)
       | None => (ok tt, with_companies d (<[c_id row := row]> (companies d)))
       end.

(** [from('resale_listings').insert(row).select().single()], with
    [tokens_for_sale INTEGER NOT NULL CHECK (tokens_for_sale > 0)] and
    [price_per_token NUMERIC NOT NULL CHECK (price_per_token > 0)]. *)
Definition insert_listing (d : Database) (row : ListingRow)
  : Response ListingRow * Database :=
  if negb (reachable d) then (failed fetch_failed, d)
  else if negb (is_int4 (l_tokens_for_sale row))
  then (failed out_of_range, d)
  else if negb (is_finite (l_price_per_token row))
  then (failed not_null_violation, d)
  else if negb ((0 <? l_tokens_for_sale row) && gt (l_price_per_token row) zero)
  then (failed check_violation, d)
  else match resale_listings d !! l_id row with
       | Some _ => (failed duplicate_key, d)
       | None => (ok row, with_listings d (<[l_id row := row]> (resale_listings d)))
       end.

(** [from('resale_listings').select('*').order('created_at', desc)]. *)
Definition select_listings (d : Database) : Response (list ListingRow) :=
  if reachable d
  then ok (merge_sort listing_newer_first (rows (resale_listings d)))
  else failed fetch_failed.

(** [... .eq('company_id', x).eq('is_active', true).order('created_at', desc)]. *)
Definition select_active_listings_of (d : Database) (x : string)
  : Response (list ListingRow) :=
  if reachable d
  then ok (merge_sort listing_newer_first
             (List.filter
                (fun l => String.eqb (l_company_id l) x && l_is_active l)
                (rows (resale_listings d))))
  else failed fetch_failed.

(** [saveCompanyMetadata(metadata)]; [generated_id] and [now] are the
    store's [uuid_generate_v4()] and [NOW()] for this insert. *)
Definition saveCompanyMetadata (generated_id : string) (now : Z)
    (metadata : CompanyMetadata) : M unit :=
  r <- query (fun d =>
         insert_company d
           {| c_id := generated_id;
              c_name := m_name metadata;
              c_description := m_description metadata;
              c_logo_url := str_or (logo_url metadata) EmptyString;
              c_equity_percentage := 10;
              c_target_amount := m_target_amount metadata;
              c_token_price := m_token_price metadata;
              c_total_tokens := 0;
              c_tokens_sold := 0;
              c_wallet_address := owner_wallet metadata;
              c_contract_id := Some (contractId metadata);
              c_created_at := now |}) ;;
  match error r with
  | Some e => throw e
  | None => ret tt
  end.

(** [createResaleListing(listing)]: the row is inserted active whatever
    [listing.is_active] says, and read back. *)
Definition createResaleListing (generated_id : string) (now : Z)
    (listing : ResaleListing) : M ResaleListing :=
  r <- query (fun d =>
         insert_listing d
           {| l_id := generated_id;
              l_company_id := contract_id listing;
              l_seller_wallet := seller_wallet listing;
              l_tokens_for_sale := tokens_for_sale listing;
              l_price_per_token := price_per_token listing;
              l_is_active := true;
              l_created_at := now |}) ;;
  match error r, data r with
  | Some e, _ => throw e
  | None, Some row =>
      ret {| id := l_id row;
             contract_id := contract_id listing;
             seller_wallet := l_seller_wallet row;
             tokens_for_sale := l_tokens_for_sale row;
             price_per_token := l_price_per_token row;
             is_active := l_is_active row;
             created_at := l_created_at row |}
  | None, None => throw (Error "Cannot read properties of null (reading 'id')")
  end.

Definition getResaleListings : M (list ResaleListing) :=
  r <- read select_listings ;;
  match error r with
  | Some _ => ret []
  | None => ret (List.map listing_of_row (or_empty (data r)))
  end.

Definition getResaleListingsByContract (contractId : string)
  : M (list ResaleListing) :=
  r <- read (fun d => select_active_listings_of d contractId) ;;
  match error r with
  | Some _ => ret []
  | None => ret (List.map listing_of_row (or_empty (data r)))
  end.

End Service.

Import Service.

(* ===================================================================== *)
(** * Further vocabulary *)
(* ===================================================================== *)

Module Shapes.

Definition is_simulate (ev : Event) : bool :=
  match ev with EvSimulate _ => true | _ => false end.

Definition is_alert (ev : Event) : bool :=
  match ev with EvAlert _ => true | _ => false end.

(** The calls of a read-only query: account fetches and simulations. *)
Definition is_read (ev : Event) : bool :=
  match ev with EvGetAccount _ | EvSimulate _ => true | _ => false end.

(** How many of the calls satisfy [p]. *)
Definition count (p : Event -> bool) (evs : list Event) : nat :=
  length (List.filter p evs).

(** The calls one [invokeContract] can have made when it ends: it stops
    at the first collaborator that fails, and after the submission it only
    polls and sleeps. *)
Definition orchestration (w : World) (walletAddress contractId method : string)
    (params : list ScVal) (evs : list Event) : Prop :=
  evs = [] \/
  evs = [EvGetAccount walletAddress] \/
  exists account,
    rpc_getAccount w walletAddress = inr account /\
    let tx := built account contractId method params in
    (evs = [EvGetAccount walletAddress; EvSimulate tx] \/
     exists result fee,
       rpc_simulateTransaction w tx = inr (SimulationSuccess result fee) /\
       let asm := assembleTransaction tx result fee in
       (evs = [EvGetAccount walletAddress; EvSimulate tx; EvSign asm walletAddress] \/
        exists signed tail,
          freighter_signTransaction w asm walletAddress = inr signed /\
          evs = (submission walletAddress tx result fee signed ++ tail)%list /\
          forallb is_poll tail = true)).

(** The first encoding that throws, when the arguments of a call are
    encoded from left to right. *)
Fixpoint first_error (encodings : list (JsError + ScVal)) : option JsError :=
  match encodings with
  | [] => None
  | inl e :: _ => Some e
  | inr _ :: rest => first_error rest
  end.

(** A number with a fractional part, NaN or an infinity: [BigInt] throws. *)
Definition not_integral (x : number) : Prop := BigInt x = None.

(** The constraints of the store's tables: rows are keyed by their [id];
    a listing has a positive quantity and a positive price. *)
Definition listing_ok (k : string) (l : ListingRow) : Prop :=
  l_id l = k /\ 0 < l_tokens_for_sale l /\ gt (l_price_per_token l) zero = true.

Definition company_ok (k : string) (c : CompanyRow) : Prop := c_id c = k.

Definition constraints_hold (d : Database) : Prop :=
  map_Forall listing_ok (resale_listings d) /\
  map_Forall company_ok (companies d).

(** The listing [createResaleListing] returns for [listing] when the
    store generates [generated_id] and [now] for it. *)
Definition stored_as (generated_id : string) (now : Z) (listing : ResaleListing)
  : ResaleListing :=
  {| id := generated_id;
     contract_id := contract_id listing;
     seller_wallet := seller_wallet listing;
     tokens_for_sale := tokens_for_sale listing;
     price_per_token := price_per_token listing;
     is_active := true;
     created_at := now |}.

(** The metadata read back for [metadata] saved at time [now]. *)
Definition saved_as (now : Z) (metadata : CompanyMetadata) : CompanyMetadata :=
  {| contractId := contractId metadata;
     m_name := m_name metadata;
     m_description := m_description metadata;
     logo_url := logo_url metadata;
     owner_wallet := owner_wallet metadata;
     m_token_price := m_token_price metadata;
     m_target_amount := m_target_amount metadata;
     m_created_at := now |}.

(** The pending [onInvest] promises that settled. *)
Definition is_settled (ev : UiEvent) : bool :=
  match ev with Settled => true | _ => false end.

(** The state of the modal after the events [evs]. *)
Definition after (p : Props) (s : ModalState) (evs : list UiEvent) : ModalState :=
  fold_left (fun s ev => snd (step p s ev)) evs s.

(** [value={tokens === 0 ? '' : tokens}]: what the quantity field shows.
    A whole number of magnitude below [10^21] is rendered as its decimal
    numeral; from [10^21] on the rendering is in exponent form, which is
    not modelled ([None]). *)
Definition displayed (s : ModalState) : option string :=
  if tokens s =? 0 then Some EmptyString
  else if Z.abs (tokens s) <? 10 ^ 21 then Some (pretty (tokens s))
  else None.

(** Text made of ASCII characters only, the domain on which [parseInt]
    and [trim] are modelled. *)
Definition ascii_text (s : string) : bool :=
  forallb (fun c => (nat_of_ascii c <? 128)%nat) (list_ascii_of_string s).

(** The row [createResaleListing] inserts. *)
Definition listing_row (generated_id : string) (now : Z)
    (contractId seller : string) (quantity : Z) (price : number) : ListingRow :=
  {| l_id := generated_id; l_company_id := contractId; l_seller_wallet := seller;
     l_tokens_for_sale := quantity; l_price_per_token := price;
     l_is_active := true; l_created_at := now |}.

(** The row [saveCompanyMetadata] inserts. *)
Definition company_row (generated_id : string) (now : Z)
    (metadata : CompanyMetadata) : CompanyRow :=
  {| c_id := generated_id;
     c_name := m_name metadata;
     c_description := m_description metadata;
     c_logo_url := str_or (logo_url metadata) EmptyString;
     c_equity_percentage := 10;
     c_target_amount := m_target_amount metadata;
     c_token_price := m_token_price metadata;
     c_total_tokens := 0;
     c_tokens_sold := 0;
     c_wallet_address := owner_wallet metadata;
     c_contract_id := Some (contractId metadata);
     c_created_at := now |}.

End Shapes.

Import Shapes.

(* ===================================================================== *)
(** * Further sample collaborators *)
(* ===================================================================== *)

Module Samples.

(** A wallet whose user declines every request. *)
Definition declining : World :=
  {| strkey_valid := fun _ => true;
     rpc_getAccount := fun a => inr (account_of a);
     rpc_simulateTransaction := fun _ => inr accepted;
     freighter_signTransaction :=
       fun _ _ => inl (WalletError "The user rejected this request.");
     rpc_sendTransaction :=
       fun _ => inr {| send_status := SEND_PENDING; send_hash := "a1b2" |};
     rpc_getTransaction := fun _ _ => inr (SUCCESS None) |}.

(** A ledger that knows no account, with an SDK that accepts only
    identifiers starting with G or C. *)
Definition unfunded : World :=
  {| strkey_valid :=
       fun a => match a with
                | String "G" _ | String "C" _ => true
                | _ => false
                end;
     rpc_getAccount := fun a => inl (RpcError "Account not found");
     rpc_simulateTransaction := fun _ => inr accepted;
     freighter_signTransaction := fun tx a => inr (sign_as tx a);
     rpc_sendTransaction :=
       fun _ => inr {| send_status := SEND_PENDING; send_hash := "a1b2" |};
     rpc_getTransaction := fun _ _ => inr (SUCCESS None) |}.

(** A ledger on which [balance_of] answers [balance] and every other
    read answers the sample company. *)
Definition holding (balance : Z) : World :=
  {| strkey_valid := fun _ => true;
     rpc_getAccount := fun a => inr (account_of a);
     rpc_simulateTransaction :=
       fun tx =>
         if String.eqb (op_method (tx_operation tx)) "balance_of"
         then inr (SimulationSuccess
                     (Some {| auth := []; retval := scvI128 balance |}) 0)
         else inr (SimulationSuccess
                     (Some {| auth := []; retval := company_struct |}) 0);
     freighter_signTransaction := fun tx a => inr (sign_as tx a);
     rpc_sendTransaction :=
       fun _ => inr {| send_status := SEND_PENDING; send_hash := "a1b2" |};
     rpc_getTransaction := fun _ _ => inr (SUCCESS None) |}.

(** A [parseFloat] that knows the numerals of the sample forms. *)
Definition sample_parseFloat (s : string) : number :=
  if String.eqb s "0.5" then literal 1 2
  else if String.eqb s "12.5" then literal 25 2
  else if String.eqb s "10" then Number 10
  else S754_nan.

(** A rendering of whole numbers. *)
Definition sample_toString (x : number) : string :=
  match BigInt x with Some z => pretty z | None => "NaN" end.

End Samples.

Import Samples.

(* ===================================================================== *)
(** * HomePage.tsx: the primary-market purchase *)
(* ===================================================================== *)

Module HomeInvest.

Section WithWorld.
Variable w : World.

(** [handleInvest(tokens, _totalAmount)] of the home page: the buyer signs
    a [mint] to the buyer's own address.  As for [handleBuyResale], the
    page state and the read-only reload that follows are left out. *)
Definition handleInvest (fuel : nat) (isConnected : bool)
    (walletAddress : option string)
    (selectedCompany : option CompanyWithOnChainData) (tokens : Z) : M unit :=
  match isConnected, connected walletAddress, selectedCompany with
  | true, Some wallet, Some selected =>
      match onChainInfo selected with
      | None => alert "Company contract not initialized"
      | Some _ =>
          try_catch
            (mintTokens w fuel wallet (contractId (metadata selected)) wallet
               (Number tokens) XLM_TOKEN_ADDRESS ;;;
             alert ("Investment successful! " +:+ pretty tokens
                      +:+ " tokens transferred to your wallet."))
            (fun error =>
               alert ("Investment failed: "
                        +:+ str_or (err_message error) "Unknown error"))
      end
  | _, _, _ => alert "Please connect your wallet first"
  end.

End WithWorld.

(** [availableTokens={selectedCompany.onChainInfo.total_supply -
    selectedCompany.tokensSold}]: what the modal of a primary purchase
    offers; the modal is rendered only with on-chain information. *)
Definition availableTokens (selectedCompany : CompanyWithOnChainData)
  : option number :=
  match onChainInfo selectedCompany with
  | Some info => Some (sub (total_supply info) (tokensSold selectedCompany))
  | None => None
  end.

End HomeInvest.

(* ===================================================================== *)
(** * The forms: MyInvestmentsPage.tsx and CreateListingPage.tsx *)
(* ===================================================================== *)

Module Forms.

(** [s.trim()] on ASCII text. *)
Fixpoint trim_end (s : string) : string :=
  match s with
  | EmptyString => EmptyString
  | String c rest =>
      match trim_end rest with
      | EmptyString => if is_space c then EmptyString else String c EmptyString
      | r => String c r
      end
  end.

Definition trim (s : string) : string := trim_end (skip_spaces s).

(** [s.startsWith(prefix)]. *)
Definition startsWith (s prefix : string) : bool := String.prefix prefix s.

(** An insert whose quantity is JSON [null]. *)
Definition insert_null_quantity (d : Database) : Response ListingRow * Database :=
  if negb (reachable d) then (failed fetch_failed, d)
  else (failed not_null_violation, d).

(** [createResaleListing({ contract_id, seller_wallet, tokens_for_sale,
    price_per_token, is_active: true })] with the quantity given as a
    number, as the forms do: an integral number is sent as that integer,
    an infinite one is serialised as [null]. *)
Definition createListingFor (generated_id : string) (now : Z)
    (contractId seller : string) (tokens price : number) : M ResaleListing :=
  match BigInt tokens with
  | Some q =>
      createResaleListing generated_id now
        {| id := EmptyString; contract_id := contractId; seller_wallet := seller;
           tokens_for_sale := q; price_per_token := price; is_active := true;
           created_at := 0 |}
  | None =>
      r <- query insert_null_quantity ;;
      match error r with
      | Some e => throw e
      | None => throw (Error "Cannot read properties of null (reading 'id')")
      end
  end.

End Forms.

Import Forms.

Module MyInvestmentsPage.

Record Holding : Type :=
  { company : CompanyMetadata; tokenBalance : number; currentValue : number }.

Section WithBuiltins.
(** [parseFloat] of the language. *)
Variable parseFloat : string -> number.

(** [handleCreateResaleListing] of the investments page; the reset of the
    form after a success is page state and left out. *)
Definition handleCreateResaleListing (generated_id : string) (now : Z)
    (walletAddress : option string) (selectedHolding : option Holding)
    (sellTokens sellPrice : string) : M unit :=
  match selectedHolding, connected walletAddress with
  | Some holding, Some wallet =>
      let pricePerToken := parseFloat sellPrice in
      match parseInt sellTokens with
      | None => alert "Please enter valid numbers"
      | Some tokensToSell =>
          if is_nan pricePerToken then alert "Please enter valid numbers"
          else if gt (Number tokensToSell) (tokenBalance holding)
          then alert "You cannot sell more tokens than you own"
          else if le (Number tokensToSell) zero
          then alert "Please enter a positive number of tokens"
          else
            try_catch
              (createListingFor generated_id now (contractId (company holding))
                 wallet (Number tokensToSell) pricePerToken ;;;
               alert "Resale listing created successfully!")
              (fun error =>
                 alert ("Failed to create listing: "
                          +:+ str_or (err_message error) "Unknown error"))
      end
  | _, _ => ret tt
  end.

End WithBuiltins.

Section WithWorld.
Variable w : World.

(** The body of [companies.map(async (company) => ...)] in
    [loadInvestments]: a company is a holding when the wallet's balance is
    positive. *)
Definition loadHolding (walletAddress : string) (company : CompanyMetadata)
  : M (option Holding) :=
  try_catch
    (balance <- getTokenBalance w (contractId company) walletAddress ;;
     if gt balance zero
     then ret (Some {| company := company;
                       tokenBalance := balance;
                       currentValue := mul balance (m_token_price company) |})
     else ret None)
    (fun _ => ret None).

End WithWorld.

End MyInvestmentsPage.

Module CreateListingPage.

Record CompanyForm : Type :=
  { f_contractId : string;
    f_name : string;
    f_description : string;
    f_symbol : string;
    f_equityPercentage : string;
    f_tokenPrice : string;
    f_totalTokens : string }.

Record ResaleForm : Type :=
  { r_contractId : string; r_tokensToSell : string; r_pricePerToken : string }.

Section WithBuiltins.
Variable w : World.
(** [parseFloat] and the rendering of a number in a template string. *)
Variable parseFloat : string -> number.
Variable toString : number -> string.

(** [handleCreateCompanyListing]: initialise the company on-chain, then
    index it in the store.  The loading flag, the reset of the form and
    the reload of the company list that is not awaited are left out. *)
Definition handleCreateCompanyListing (fuel : nat) (generated_id : string) (now : Z)
    (isConnected : bool) (walletAddress : option string)
    (companyForm : CompanyForm) : M unit :=
  match isConnected, connected walletAddress with
  | true, Some wallet =>
      let tokenPrice := parseFloat (f_tokenPrice companyForm) in
      let equityPercent := parseFloat (f_equityPercentage companyForm) in
      match parseInt (f_totalTokens companyForm) with
      | None => alert "Please enter valid numbers"
      | Some totalTokens =>
          let targetAmount := mul (Number totalTokens) tokenPrice in
          if is_nan tokenPrice || is_nan equityPercent || is_nan targetAmount
          then alert "Please enter valid numbers"
          else
            try_catch
              (let cid := trim (f_contractId companyForm) in
               if String.eqb cid EmptyString
               then alert "Please enter a deployed contract ID"
               else if negb (startsWith cid "C")
               then alert ("Invalid contract ID: " +:+ cid
                             +:+ ". Contract IDs should start with 'C', not 'G' (which is for wallet addresses).")
               else
                 initializeCompany w fuel wallet cid
                   (f_name companyForm) (f_symbol companyForm)
                   (Number totalTokens) equityPercent
                   (f_description companyForm) tokenPrice targetAmount ;;;
                 saveCompanyMetadata generated_id now
                   {| contractId := cid;
                      m_name := f_name companyForm;
                      m_description := f_description companyForm;
                      logo_url := EmptyString;
                      owner_wallet := wallet;
                      m_token_price := tokenPrice;
                      m_target_amount := targetAmount;
                      m_created_at := now |} ;;;
                 alert "Company listing created successfully on the blockchain and indexed!")
              (fun error =>
                 alert ("Failed to create listing: "
                          +:+ str_or (err_message error) "Unknown error"))
      end
  | _, _ => alert "Please connect your wallet first"
  end.

(** [handleCreateResaleListing] of the listing page: the on-chain balance
    is read first. *)
Definition handleCreateResaleListing (generated_id : string) (now : Z)
    (isConnected : bool) (walletAddress : option string)
    (resaleForm : ResaleForm) : M unit :=
  match isConnected, connected walletAddress with
  | true, Some wallet =>
      let pricePerToken := parseFloat (r_pricePerToken resaleForm) in
      match parseInt (r_tokensToSell resaleForm) with
      | None => alert "Please enter valid numbers"
      | Some tokensToSell =>
          if is_nan pricePerToken then alert "Please enter valid numbers"
          else
            try_catch
              (balance <- getTokenBalance w (r_contractId resaleForm) wallet ;;
               if lt balance (Number tokensToSell)
               then alert ("You only have " +:+ toString balance
                             +:+ " tokens. Cannot sell "
                             +:+ toString (Number tokensToSell) +:+ ".")
               else
                 createListingFor generated_id now (r_contractId resaleForm)
                   wallet (Number tokensToSell) pricePerToken ;;;
                 alert "Resale listing created successfully!")
              (fun error =>
                 alert ("Failed to create listing: "
                          +:+ str_or (err_message error) "Unknown error"))
      end
  | _, _ => alert "Please connect your wallet first"
  end.

End WithBuiltins.

End CreateListingPage.

(* ===================================================================== *)
(** * The deployment service, its client (lib/api.ts) and the deploy
      button of CreateListingPage.tsx *)
(* ===================================================================== *)

Module Deployment.

Definition newline : ascii := "010"%char.

(** [s.split(sep)] for a one-character separator: never empty. *)
Fixpoint split (sep : ascii) (s : string) : list string :=
  match s with
  | EmptyString => [EmptyString]
  | String c rest =>
      if Ascii.eqb c sep then EmptyString :: split sep rest
      else match split sep rest with
           | cur :: more => String c cur :: more
           | [] => [String c EmptyString]
           end
  end.

(** [lines.pop()] on a non-empty array. *)
Definition pop (lines : list string) : string := List.last lines EmptyString.

(** What [util.promisify(exec)] resolves to; a command that fails rejects. *)
Record ExecResult : Type := { stdout : string; stderr : string }.

Record Commands : Type :=
  { run_build : JsError + ExecResult;
    run_deploy : JsError + ExecResult }.

Inductive Details : Type :=
| DetailMessage (message : string)
| DetailOutput (out err : string).

(** [DeploymentResponse] of lib/api.ts, the JSON body of the service. *)
Record DeploymentResponse : Type :=
  { success : bool;
    d_contractId : option string;
    d_message : option string;
    explorerUrl : option string;
    d_error : option string;
    details : option Details }.

Record HttpResponse : Type := { status : Z; body : DeploymentResponse }.

Definition failure (error : string) (d : Details) : HttpResponse :=
  {| status := 500;
     body := {| success := false; d_contractId := None; d_message := None;
                explorerUrl := None; d_error := Some error; details := Some d |} |}.

(** [deployStdout.trim().split('\n').pop().trim()]. *)
Definition extract_contract_id (deployStdout : string) : string :=
  trim (pop (split newline (trim deployStdout))).

(** The negation of
    [!contractId || !contractId.startsWith('C') || contractId.length < 50]. *)
Definition valid_contract_id (contractId : string) : bool :=
  negb (String.eqb contractId EmptyString)
  && startsWith contractId "C"
  && negb (String.length contractId <? 50)%nat.

(** [POST /api/deploy-contract]: build, deploy, extract the identifier.
    Nothing in the body of the handler throws outside the two commands,
    so the outer [catch] is not reached. *)
Definition deploy_contract (c : Commands) : HttpResponse :=
  match run_build c with
  | inl buildError =>
      failure "Contract build failed" (DetailMessage (err_message buildError))
  | inr _ =>
      match run_deploy c with
      | inl deployError =>
          failure "Contract deployment failed"
            (DetailMessage (err_message deployError))
      | inr out =>
          let contractId := extract_contract_id (stdout out) in
          if negb (valid_contract_id contractId)
          then failure "Failed to extract valid contract ID"
                 (DetailOutput (stdout out) (stderr out))
          else
            {| status := 200;
               body :=
                 {| success := true;
                    d_contractId := Some contractId;
                    d_message := Some "Contract deployed successfully";
                    explorerUrl :=
                      Some ("https://stellar.expert/explorer/testnet/contract/"
                              +:+ contractId);
                    d_error := None;
                    details := None |} |}
      end
  end.

(** [result.error || 'Unknown error'] and the like, on an optional
    member. *)
Definition member_or (m : option string) (d : string) : string :=
  match m with Some s => str_or s d | None => d end.

(** [response.ok]. *)
Definition response_ok (r : HttpResponse) : bool :=
  (200 <=? status r) && (status r <=? 299).

(** [deployNewContract] of lib/api.ts; [fetched] is the outcome of the
    request, with the body already parsed. *)
Definition deployNewContract (fetched : JsError + HttpResponse)
  : DeploymentResponse :=
  let failed (message : string) :=
    {| success := false; d_contractId := None; d_message := None;
       explorerUrl := None;
       d_error := Some (str_or message "Failed to connect to deployment API");
       details := None |} in
  match fetched with
  | inl e => failed (err_message e)
  | inr response =>
      if negb (response_ok response)
      then failed (member_or (d_error (body response)) "Deployment failed")
      else body response
  end.

Definition check_mark : string := String "226" (String "156" (String "133" EmptyString)).
Definition cross_mark : string := String "226" (String "157" (String "140" EmptyString)).
Definition blank_line : string := String newline (String newline EmptyString).

(** [handleDeployContract] of the listing page: the form after the click.
    [deployNewContract] catches every error itself, so the handler's own
    [catch] is not reached. *)
Definition handleDeployContract (deploying : bool)
    (fetched : JsError + HttpResponse)
    (companyForm : CreateListingPage.CompanyForm)
  : M CreateListingPage.CompanyForm :=
  if deploying then ret companyForm
  else
    let result := deployNewContract fetched in
    if success result
       && negb (String.eqb (member_or (d_contractId result) EmptyString) EmptyString)
    then
      let contractId := member_or (d_contractId result) EmptyString in
      alert (check_mark +:+ " Contract deployed successfully!" +:+ blank_line
               +:+ "Contract ID: " +:+ contractId +:+ blank_line
               +:+ "You can now fill in the company details and submit.") ;;;
      ret {| CreateListingPage.f_contractId := contractId;
             CreateListingPage.f_name := CreateListingPage.f_name companyForm;
             CreateListingPage.f_description :=
               CreateListingPage.f_description companyForm;
             CreateListingPage.f_symbol := CreateListingPage.f_symbol companyForm;
             CreateListingPage.f_equityPercentage :=
               CreateListingPage.f_equityPercentage companyForm;
             CreateListingPage.f_tokenPrice :=
               CreateListingPage.f_tokenPrice companyForm;
             CreateListingPage.f_totalTokens :=
               CreateListingPage.f_totalTokens companyForm |}
    else
      alert (cross_mark +:+ " Deployment failed: "
               +:+ member_or (d_error result) "Unknown error"
               +:+ blank_line
               +:+ "Please try the manual deployment method or check the backend logs.") ;;;
      ret companyForm.

End Deployment.
(* ===================================================================== *)
(** * Binary64 facts used by the amount encoding *)
(* ===================================================================== *)

Section FloatFacts.

Lemma digits2_pos_size (p : positive) : digits2_pos p = Pos.size p.
Proof. induction p; simpl; congruence. Qed.

Lemma pos_lt_pow2_digits (p : positive) : Z.pos p < 2 ^ Z.pos (digits2_pos p).
Proof.
  rewrite digits2_pos_size.
  pose proof (Pos.size_gt p) as H.
  apply Pos2Z.pos_lt_pos in H. rewrite Pos2Z.inj_pow in H. exact H.
Qed.

Lemma pow2_digits_le_pos (p : positive) :
  2 ^ (Z.pos (digits2_pos p) - 1) <= Z.pos p.
Proof.
  induction p as [p IH|p IH|]; cbn [digits2_pos]; rewrite ?Pos2Z.inj_succ.
  - replace (Z.succ (Z.pos (digits2_pos p)) - 1)
      with (Z.succ (Z.pos (digits2_pos p) - 1)) by lia.
    rewrite Z.pow_succ_r by lia. lia.
  - replace (Z.succ (Z.pos (digits2_pos p)) - 1)
      with (Z.succ (Z.pos (digits2_pos p) - 1)) by lia.
    rewrite Z.pow_succ_r by lia. lia.
  - simpl. lia.
Qed.

(** One right shift drops one binary digit. *)
Lemma shr_1_digits (s : shr_record) :
  Zdigits2 (shr_m (shr_1 s)) = Z.max 0 (Zdigits2 (shr_m s) - 1).
Proof.
  destruct s as [m r t]; destruct m as [|p|p]; [reflexivity|..];
    destruct p; cbn [shr_1 shr_m Zdigits2 digits2_pos]; lia.
Qed.

Lemma iter_shr_1_digits (p : positive) : forall s : shr_record,
  Zdigits2 (shr_m (SpecFloat.iter_pos shr_1 p s))
  = Z.max 0 (Zdigits2 (shr_m s) - Z.pos p).
Proof.
  induction p as [p IH|p IH|]; intros s; cbn [SpecFloat.iter_pos].
  - rewrite !IH, shr_1_digits. lia.
  - rewrite !IH. lia.
  - apply shr_1_digits.
Qed.

Lemma shr_record_of_loc_m m l : shr_m (shr_record_of_loc m l) = m.
Proof. destruct l as [|[]]; reflexivity. Qed.

(** After the shift to the format's exponent at most 53 digits remain. *)
Lemma shr_fexp_digits (m e : Z) (l : location) :
  Zdigits2 (shr_m (fst (shr_fexp prec emax m e l))) <= prec.
Proof.
  unfold shr_fexp, shr.
  pose proof (shr_record_of_loc_m m l) as Hm.
  destruct (fexp prec emax (Zdigits2 m + e) - e) as [|p|p] eqn:Hn;
    cbn [fst]; unfold fexp, prec in *.
  - rewrite Hm. lia.
  - rewrite iter_shr_1_digits, Hm. lia.
  - rewrite Hm. lia.
Qed.

(** A finite result of the rounding step keeps the sign and has a mantissa
    of at most 53 digits. *)
Lemma binary_round_aux_finite sx mx ex lx s m e :
  binary_round_aux prec emax sx mx ex lx = S754_finite s m e ->
  s = sx /\ Z.pos (digits2_pos m) <= prec.
Proof.
  unfold binary_round_aux.
  destruct (shr_fexp prec emax mx ex lx) as [mrs' e'].
  pose proof (shr_fexp_digits
                (round_nearest_even (shr_m mrs') (loc_of_shr_record mrs'))
                e' loc_Exact) as Hd.
  destruct (shr_fexp prec emax _ e' loc_Exact) as [mrs'' e''].
  cbn [fst] in Hd.
  destruct (shr_m mrs'') as [|p|p]; try discriminate.
  destruct (e'' <=? emax - prec); intros H; inversion H; subst.
  split; [reflexivity | exact Hd].
Qed.

Lemma pos_iter_xO_value (p k : positive) :
  Z.pos (Pos.iter xO p k) = Z.pos p * 2 ^ Z.pos k.
Proof.
  induction k as [|k IH] using Pos.peano_ind.
  - simpl. lia.
  - rewrite Pos.iter_succ, Pos2Z.inj_xO, IH, Pos2Z.inj_succ, Z.pow_succ_r by lia.
    lia.
Qed.

Lemma pos_iter_xO_digits (p k : positive) :
  digits2_pos (Pos.iter xO p k) = (digits2_pos p + k)%positive.
Proof.
  induction k as [|k IH] using Pos.peano_ind.
  - simpl. lia.
  - rewrite Pos.iter_succ. cbn [digits2_pos]. rewrite IH. lia.
Qed.

(** A mantissa of full width is left as it is by the rounding step. *)
Lemma binary_round_aux_full_width (s : bool) (m : positive) (e : Z) :
  Z.pos (digits2_pos m) = prec -> 3 - emax - prec <= e <= emax - prec ->
  binary_round_aux prec emax s (Z.pos m) e loc_Exact = S754_finite s m e.
Proof.
  intros Hd He.
  assert (Hn : fexp prec emax (Zdigits2 (Z.pos m) + e) - e = 0).
  { cbn [Zdigits2]. rewrite Hd. unfold fexp, SpecFloat.emin, prec, emax in *. lia. }
  unfold binary_round_aux, shr_fexp.
  rewrite Hn. cbn [shr shr_record_of_loc loc_of_shr_record shr_m round_nearest_even].
  rewrite Hn. cbn [shr shr_record_of_loc shr_m].
  destruct (Z.leb_spec e (emax - prec)); [reflexivity | lia].
Qed.

(** [Number] of a positive integer below [2^53]: the integer shifted left
    to full width, with the opposite exponent. *)
Lemma Number_shape (p : positive) :
  Z.pos p < 2 ^ prec ->
  exists (m : positive) (k : Z),
    Number (Z.pos p) = S754_finite false m (- k) /\
    0 <= k /\ Z.pos m = Z.pos p * 2 ^ k.
Proof.
  intros Hp.
  pose proof (pow2_digits_le_pos p) as Hlo.
  set (d := Z.pos (digits2_pos p)) in *.
  assert (Hd : 1 <= d <= prec).
  { split; [unfold d; lia|].
    destruct (Z_le_gt_dec d prec) as [|Hgt]; [assumption|exfalso].
    assert (2 ^ prec <= 2 ^ (d - 1))
      by (apply Z.pow_le_mono_r; unfold prec in *; lia).
    lia. }
  unfold Number, binary_normalize, binary_round.
  assert (Hf : fexp prec emax (Z.pos (digits2_pos p) + 0) = d - prec).
  { fold d. unfold fexp, SpecFloat.emin, prec, emax in *. lia. }
  rewrite Hf. unfold shl_align.
  destruct (d - prec - 0) as [|q|q] eqn:Hq.
  - exists p, 0. split; [|split; [lia|simpl; lia]].
    apply binary_round_aux_full_width; unfold prec, emax in *; [fold d|]; lia.
  - unfold prec in *; lia.
  - exists (Pos.iter xO p q), (Z.pos q).
    split; [|split; [lia|apply pos_iter_xO_value]].
    replace (d - prec) with (- Z.pos q) by lia.
    apply binary_round_aux_full_width.
    + rewrite pos_iter_xO_digits, Pos2Z.inj_add. fold d. lia.
    + unfold prec, emax in *. lia.
Qed.

(** [Number] is exact on the integers below [2^53]. *)
Lemma BigInt_Number (z : Z) :
  0 <= z < 2 ^ prec -> BigInt (Number z) = Some z.
Proof.
  intros [H0 H1]. destruct z as [|p|p]; [reflexivity| |lia].
  destruct (Number_shape p H1) as (m & k & -> & Hk & Hm).
  unfold BigInt, mantissa, cond_Zopp.
  destruct (Z.leb_spec 0 (- k)) as [Hle|Hlt].
  - assert (k = 0) by lia. subst k. rewrite Z.shiftl_0_r, Hm. simpl. f_equal. lia.
  - assert (Hnz : 2 ^ k <> 0) by (apply Z.pow_nonzero; lia).
    rewrite Z.opp_involutive, Z.land_ones, Hm, Z.mod_mul by assumption.
    simpl. rewrite Z.shiftr_div_pow2, Z.div_mul by assumption.
    reflexivity.
Qed.

Lemma is_floor_of_shiftr (m : positive) (e : Z) :
  e < 0 -> is_floor_of (S754_finite false m e) (Z.shiftr (Z.pos m) (- e)).
Proof.
  intros He. unfold is_floor_of, mantissa, cond_Zopp.
  destruct (Z.leb_spec 0 e); [lia|].
  rewrite Z.shiftr_div_pow2 by lia.
  assert (Hp : 0 < 2 ^ (- e)) by (apply Z.pow_pos_nonneg; lia).
  pose proof (Z.mul_div_le (Z.pos m) _ Hp).
  pose proof (Z.mul_succ_div_gt (Z.pos m) _ Hp).
  lia.
Qed.

Lemma numberToScVal_of_BigInt (x : number) (z : Z) :
  BigInt x = Some z -> 0 <= z < 2 ^ 127 -> numberToScVal x = inr (scvI128 z).
Proof.
  intros Hx Hz. unfold numberToScVal. rewrite Hx.
  destruct (Z.leb_spec (- 2 ^ 127) z); [|lia].
  destruct (Z.ltb_spec z (2 ^ 127)); [reflexivity|lia].
Qed.

(** [Math.floor] of a non-negative binary64 value is its mathematical
    floor, and an integer [BigInt] accepts. *)
Lemma floor_of_nonneg (x : number) :
  match x with
  | S754_zero _ => True
  | S754_finite s m e => s = false /\ Z.pos (digits2_pos m) <= prec
  | _ => False
  end ->
  exists z : Z,
    0 <= z /\ is_floor_of x z /\ BigInt (Math_floor x) = Some z.
Proof.
  destruct x as [s|s| |s m e]; try tauto; intros H.
  - exists 0. repeat split; reflexivity || lia.
  - destruct H as [-> Hd].
    destruct (Z.leb_spec 0 e) as [He|He].
    + exists (Z.pos m * 2 ^ e).
      assert (0 < 2 ^ e) by (apply Z.pow_pos_nonneg; lia).
      split; [lia|]. split.
      * unfold is_floor_of, mantissa, cond_Zopp.
        destruct (Z.leb_spec 0 e); [reflexivity|lia].
      * assert (Hb : (0 <=? e) = true) by (apply Z.leb_le; lia).
        unfold Math_floor. rewrite Hb. unfold BigInt. rewrite Hb.
        unfold mantissa, cond_Zopp.
        rewrite Z.shiftl_mul_pow2 by lia. reflexivity.
    + exists (Z.shiftr (Z.pos m) (- e)).
      split; [apply Z.shiftr_nonneg; lia|].
      split; [apply is_floor_of_shiftr; assumption|].
      assert (Hb : (0 <=? e) = false) by (apply Z.leb_gt; lia).
      unfold Math_floor. rewrite Hb. unfold mantissa, cond_Zopp.
      destruct (Z.land (Z.pos m) (Z.ones (- e)) =? 0) eqn:Hz.
      * unfold BigInt. rewrite Hb, Hz. reflexivity.
      * apply BigInt_Number.
        split; [apply Z.shiftr_nonneg; lia|].
        rewrite Z.shiftr_div_pow2 by lia.
        assert (Hp : 0 < 2 ^ (- e)) by (apply Z.pow_pos_nonneg; lia).
        pose proof (pos_lt_pow2_digits m).
        assert (2 ^ Z.pos (digits2_pos m) <= 2 ^ prec)
          by (apply Z.pow_le_mono_r; lia).
        apply Z.div_lt_upper_bound; [assumption|]. nia.
Qed.

(** The product of an amount with [10_000_000], when finite, is zero or a
    positive value of at most 53 digits. *)
Lemma mul_amount_shape (value : number) :
  is_amount value = true -> is_finite (mul value TEN_MILLION) = true ->
  match mul value TEN_MILLION with
  | S754_zero _ => True
  | S754_finite s m e => s = false /\ Z.pos (digits2_pos m) <= prec
  | _ => False
  end.
Proof.
  intros Ha Hf.
  destruct (mul value TEN_MILLION) as [s|s| |s m e] eqn:Hp;
    try discriminate; [exact I|].
  destruct value as [s0|s0| |s0 m0 e0]; try discriminate.
  simpl in Ha. destruct s0; [discriminate|].
  unfold mul, TEN_MILLION, SFmul in Hp. cbn [xorb] in Hp.
  apply binary_round_aux_finite in Hp. exact Hp.
Qed.

(** A token quantity below [2^53] reaches the contract unchanged. *)
Lemma quantity_encoding (n : Z) :
  0 <= n < 2 ^ prec -> numberToScVal (Number n) = inr (scvI128 n).
Proof.
  intros Hn. apply numberToScVal_of_BigInt; [apply BigInt_Number; exact Hn|].
  assert (2 ^ prec < 2 ^ 127) by (apply Z.pow_lt_mono_r; unfold prec; lia).
  lia.
Qed.

Lemma sub_zero_r (x : number) : sub x zero = x.
Proof. destruct x as [[]|[]| |s m e]; reflexivity. Qed.

End FloatFacts.

(* ===================================================================== *)
(** * The value codec *)
(* ===================================================================== *)

(** The literal [0.10] is the binary64 value nearest to one tenth: it is
    [m * 2^-56] with [|10 m - 2^56| <= 5], half a unit in the last place. *)
Lemma literal_0_10_nearest :
  literal 10 100 = S754_finite false 7205759403792794 (-56) /\
  Z.abs (10 * 7205759403792794 - 2 ^ 56) <= 5.
Proof. split; [vm_compute; reflexivity | vm_compute; discriminate]. Qed.

(** The product is the binary64 product: for the literal [0.41] it lies
    below 4_100_000 and the encoding is 4_099_999. *)
Lemma stroops_0_41 :
  numberToScVal (stroops (literal 41 100)) = inr (scvI128 4099999).
Proof. vm_compute. reflexivity. Qed.




(** C9. [bigIntToNumber] is a total function into numbers: a bigint is
    coerced with [Number], a number is returned unchanged, and a value of
    any other type (null, undefined, a string, an object, ...) gives 0. *)
Theorem bigIntToNumber_total :
  (forall z, bigIntToNumber (JBigInt z) = Number z) /\
  (forall n, bigIntToNumber (JNumber n) = n) /\
  (forall v, typeof v <> "bigint" -> typeof v <> "number" ->
             bigIntToNumber v = zero) /\
  bigIntToNumber JNull = zero /\
  bigIntToNumber JUndefined = zero /\
  (forall s, bigIntToNumber (JString s) = zero) /\
  (forall fields, bigIntToNumber (JObject fields) = zero).
Proof.
  repeat split; try reflexivity.
  intros v Hb Hn. destruct v; try reflexivity; cbn in *; congruence.
Qed.

Lemma bigIntToNumber_total_witness :
  typeof (JString "12") <> "bigint" /\
  typeof (JString "12") <> "number" /\
  bigIntToNumber (JString "12") = zero.
Proof.
  assert (H1 : typeof (JString "12") <> "bigint") by discriminate.
  assert (H2 : typeof (JString "12") <> "number") by discriminate.
  split; [exact H1|]. split; [exact H2|].
  exact (proj1 (proj2 (proj2 bigIntToNumber_total)) (JString "12") H1 H2).
Defined.

(* ===================================================================== *)
(** * The transaction orchestrator and the read-only invoker *)
(* ===================================================================== *)

Ltac run_call :=
  unfold invokeContract, readContract, try_catch, bind, new_Contract, getAccount,
    simulateTransaction, signTransaction, sendTransaction, call, throw, ret;
  cbn [of_sum].

Section Orchestrator.
Variable w : World.

Lemma advance_nil st : advance st [] 0 = st.
Proof.
  destruct st; unfold advance; cbn. rewrite app_nil_r, Nat.add_0_r. reflexivity.
Qed.

Lemma advance_advance st evs n evs' n' :
  advance (advance st evs n) evs' n' = advance st (evs ++ evs') (n + n').
Proof. unfold advance; cbn. rewrite <- app_assoc, Nat.add_assoc. reflexivity. Qed.

Lemma log_advance ev st : log ev st = advance st [ev] 0.
Proof. unfold log, advance. rewrite Nat.add_0_r. reflexivity. Qed.

(** The confirmation loop only sleeps and polls. *)
Lemma pollWhileNotFound_events (fuel : nat) : forall hash r st,
  exists evs n,
    snd (pollWhileNotFound w fuel hash r st) = advance st evs n /\
    forallb is_poll evs = true.
Proof.
  induction fuel as [|fuel IH]; intros hash r st.
  - exists [], 0%nat. rewrite advance_nil. destruct r; auto.
  - destruct r; try (exists [], 0%nat; rewrite advance_nil; auto; fail).
    cbn [pollWhileNotFound]. unfold bind, sleep, getTransaction.
    set (st1 := {| trace := _; polls := _; db := _ |}).
    destruct (rpc_getTransaction w hash (polls (log (EvSleep 1000) st))) as [e|r'];
      cbn [of_sum].
    + exists [EvSleep 1000; EvGetTransaction hash], 1%nat. split; [|reflexivity].
      cbn [snd]. subst st1. unfold log, advance; cbn. rewrite <- app_assoc.
      f_equal. lia.
    + destruct (IH hash r' st1) as (evs & n & Heq & Hall).
      exists ([EvSleep 1000; EvGetTransaction hash] ++ evs)%list, (1 + n)%nat.
      split; [|exact Hall].
      rewrite Heq. subst st1. unfold log, advance; cbn.
      rewrite <- !app_assoc. f_equal. lia.
Qed.

Lemma poll_events_unsigned evs : forallb is_poll evs = true -> unsigned evs = true.
Proof.
  unfold unsigned.
  induction evs as [|ev evs IH]; [reflexivity|]. cbn [forallb].
  intros [H1 H2]%andb_prop. rewrite (IH H2), andb_true_r.
  destruct ev; try discriminate; reflexivity.
Qed.

(** C1. In every orchestrated call, a dry-run that reports an error makes
    the call fail with "Simulation failed: <diagnostic>" after the account
    fetch and the simulation only; and whatever the collaborators answer,
    the calls made either contain no signing request, or start with the
    account fetch, a simulation that reported no error, and then the one
    signing request, for the envelope assembled from that simulation. *)
Theorem simulation_before_sign (fuel : nat)
    (walletAddress contractId method : string) (params : list ScVal) (st : State) :
  (forall account diagnostic,
      strkey_valid w contractId = true ->
      rpc_getAccount w walletAddress = inr account ->
      rpc_simulateTransaction w (built account contractId method params)
        = inr (SimulationError diagnostic) ->
      invokeContract w fuel walletAddress contractId method params st =
        (Throw (Error ("Simulation failed: " +:+ str_or diagnostic "Unknown error")),
         advance st
           [EvGetAccount walletAddress;
            EvSimulate (built account contractId method params)] 0))
  /\
  (exists evs n,
      snd (invokeContract w fuel walletAddress contractId method params st)
        = advance st evs n /\
      (unsigned evs = true \/
       exists account result fee rest,
         rpc_getAccount w walletAddress = inr account /\
         rpc_simulateTransaction w (built account contractId method params)
           = inr (SimulationSuccess result fee) /\
         evs = EvGetAccount walletAddress
                 :: EvSimulate (built account contractId method params)
                 :: EvSign (assembleTransaction
                              (built account contractId method params) result fee)
                           walletAddress
                 :: rest /\
         unsigned rest = true)).
Proof.
  unfold built. split.
  - intros account diagnostic Hc Ha Hs. run_call.
    rewrite Hc. cbn. rewrite Ha. cbn. unfold operation_of in Hs. rewrite Hs. cbn.
    rewrite !log_advance, advance_advance. reflexivity.
  - run_call.
    destruct (strkey_valid w contractId).
    2:{ exists [], 0%nat. rewrite advance_nil. auto. }
    cbn. destruct (rpc_getAccount w walletAddress) as [e|account] eqn:Ha; cbn.
    { exists [EvGetAccount walletAddress], 0%nat. rewrite log_advance. auto. }
    fold (operation_of contractId method params).
    set (tx := build account (operation_of contractId method params) 30).
    destruct (rpc_simulateTransaction w tx) as [e|[diag|result fee]] eqn:Hs; cbn.
    { exists [EvGetAccount walletAddress; EvSimulate tx], 0%nat.
      rewrite !log_advance, advance_advance. auto. }
    { exists [EvGetAccount walletAddress; EvSimulate tx], 0%nat.
      rewrite !log_advance, advance_advance. auto. }
    set (asm := assembleTransaction tx result fee).
    assert (Hgoal : forall rest n,
               unsigned rest = true ->
               exists evs n',
                 advance st (EvGetAccount walletAddress :: EvSimulate tx
                               :: EvSign asm walletAddress :: rest) n
                 = advance st evs n' /\
                 (unsigned evs = true \/
                  exists account0 result0 fee0 rest0,
                    @inr JsError Account account = inr account0 /\
                    rpc_simulateTransaction w
                      (build account0 (operation_of contractId method params) 30)
                      = inr (SimulationSuccess result0 fee0) /\
                    evs = EvGetAccount walletAddress
                            :: EvSimulate
                                 (build account0 (operation_of contractId method params) 30)
                            :: EvSign
                                 (assembleTransaction
                                    (build account0
                                       (operation_of contractId method params) 30)
                                    result0 fee0)
                                 walletAddress
                            :: rest0 /\
                    unsigned rest0 = true)).
    { intros rest n Hrest. eexists _, n. split; [reflexivity|]. right.
      exists account, result, fee, rest. fold tx. auto. }
    destruct (freighter_signTransaction w asm walletAddress) as [e|signed]; cbn.
    { rewrite !log_advance, !advance_advance. apply Hgoal. reflexivity. }
    destruct (rpc_sendTransaction w signed) as [e|sendResponse]; cbn.
    { rewrite !log_advance, !advance_advance. apply Hgoal. reflexivity. }
    destruct (send_status sendResponse);
      try (rewrite !log_advance, !advance_advance; apply Hgoal; reflexivity).
    cbn [polls log].
    set (st1 := {| trace := _; polls := _; db := _ |}).
    assert (Hst1 : st1 = advance st [EvGetAccount walletAddress; EvSimulate tx;
                                    EvSign asm walletAddress; EvSend signed;
                                    EvGetTransaction (send_hash sendResponse)] 1).
    { subst st1. unfold log, advance; cbn. rewrite <- !app_assoc. f_equal. lia. }
    destruct (rpc_getTransaction w (send_hash sendResponse) (polls st)) as [e|r]; cbn.
    { rewrite Hst1. apply Hgoal. reflexivity. }
    destruct (pollWhileNotFound_events fuel (send_hash sendResponse) r st1)
      as (evs & n & Heq & Hall).
    destruct (pollWhileNotFound w fuel (send_hash sendResponse) r st1) as [[r'|e|] st2];
      cbn [snd] in Heq; subst st2;
      try (destruct r' as [|[rv|]|]); cbn [snd];
      rewrite Hst1, advance_advance; apply Hgoal;
      unfold unsigned; cbn [forallb is_sign negb andb app];
      apply poll_events_unsigned; exact Hall.
Qed.

Lemma poll_step fuel hash st :
  rpc_getTransaction w hash (polls st) = inr NOT_FOUND ->
  bind (getTransaction w hash) (pollWhileNotFound w (S fuel) hash) st =
  bind (getTransaction w hash) (pollWhileNotFound w fuel hash)
       (advance st [EvGetTransaction hash; EvSleep 1000] 1).
Proof.
  intros H. unfold bind at 1, getTransaction at 1. rewrite H.
  cbn [of_sum pollWhileNotFound].
  unfold bind at 1, sleep. f_equal.
  unfold log, advance; cbn. rewrite <- app_assoc. f_equal. lia.
Qed.

(** [k] empty polls, then a final status: the loop returns it after [k]
    rounds of one second. *)
Lemma poll_until (k : nat) : forall fuel hash st final,
  (k <= fuel)%nat ->
  (forall i, (i < k)%nat -> rpc_getTransaction w hash (polls st + i) = inr NOT_FOUND) ->
  rpc_getTransaction w hash (polls st + k) = inr final ->
  final <> NOT_FOUND ->
  bind (getTransaction w hash) (pollWhileNotFound w fuel hash) st =
    (Return final, advance st (EvGetTransaction hash :: rounds hash k) (S k)).
Proof.
  induction k as [|k IH]; intros fuel hash st final Hk Hnf Hfin Hne.
  - rewrite Nat.add_0_r in Hfin. unfold bind, getTransaction. rewrite Hfin.
    cbn [of_sum].
    assert (Hret : forall st',
               pollWhileNotFound w fuel hash final st' = (Return final, st'))
      by (intros st'; destruct final, fuel; try reflexivity; congruence).
    rewrite Hret. f_equal. unfold advance, rounds; cbn. f_equal. lia.
  - destruct fuel as [|fuel]; [lia|].
    rewrite poll_step by (rewrite <- (Nat.add_0_r (polls st)); apply Hnf; lia).
    rewrite (IH fuel hash _ final).
    + rewrite advance_advance. reflexivity.
    + lia.
    + intros i Hi. cbn [advance polls].
      replace (polls st + 1 + i)%nat with (polls st + S i)%nat by lia.
      apply Hnf. lia.
    + cbn [advance polls].
      replace (polls st + 1 + k)%nat with (polls st + S k)%nat by lia. exact Hfin.
    + exact Hne.
Qed.

(** A transaction that is never found keeps the loop running. *)
Lemma poll_forever (fuel : nat) : forall hash st,
  (forall i, rpc_getTransaction w hash (polls st + i) = inr NOT_FOUND) ->
  bind (getTransaction w hash) (pollWhileNotFound w fuel hash) st =
    (Unsettled, advance st (EvGetTransaction hash :: rounds hash fuel) (S fuel)).
Proof.
  induction fuel as [|fuel IH]; intros hash st Hnf.
  - unfold bind, getTransaction.
    rewrite <- (Nat.add_0_r (polls st)) at 1. rewrite Hnf. cbn.
    f_equal. unfold advance, rounds; cbn. f_equal. lia.
  - rewrite poll_step by (rewrite <- (Nat.add_0_r (polls st)); apply Hnf).
    rewrite IH.
    + rewrite advance_advance. reflexivity.
    + intros i. cbn [advance polls].
      replace (polls st + 1 + i)%nat with (polls st + S i)%nat by lia. apply Hnf.
Qed.

Lemma invokeContract_submitted fuel walletAddress contractId method params st
      account result fee signed sendResponse :
  strkey_valid w contractId = true ->
  rpc_getAccount w walletAddress = inr account ->
  rpc_simulateTransaction w (built account contractId method params)
    = inr (SimulationSuccess result fee) ->
  freighter_signTransaction w
    (assembleTransaction (built account contractId method params) result fee)
    walletAddress = inr signed ->
  rpc_sendTransaction w signed = inr sendResponse ->
  invokeContract w fuel walletAddress contractId method params st =
    match send_status sendResponse with
    | SEND_PENDING =>
        settle (bind (getTransaction w (send_hash sendResponse))
                     (pollWhileNotFound w fuel (send_hash sendResponse))
                     (advance st
                        (submission walletAddress
                           (built account contractId method params)
                           result fee signed) 0))
    | _ => (Throw (Error "Transaction submission failed"),
            advance st
              (submission walletAddress (built account contractId method params)
                 result fee signed) 0)
    end.
Proof.
  unfold built, submission.
  set (tx := build account (operation_of contractId method params) 30).
  set (asm := assembleTransaction tx result fee).
  intros Hc Ha Hs Hg Hd.
  assert (Hst : log (EvSend signed) (log (EvSign asm walletAddress)
                  (log (EvSimulate tx) (log (EvGetAccount walletAddress) st)))
                = advance st [EvGetAccount walletAddress; EvSimulate tx;
                              EvSign asm walletAddress; EvSend signed] 0).
  { rewrite !log_advance, !advance_advance. reflexivity. }
  match goal with |- _ = ?rhs => remember rhs as expected eqn:Hexp end.
  run_call.
  rewrite Hc. cbn. rewrite Ha. cbn.
  fold (operation_of contractId method params). fold tx. rewrite Hs. cbn.
  fold asm. rewrite Hg. cbn. rewrite Hd. cbn.
  subst expected.
  destruct (send_status sendResponse); try (rewrite Hst; reflexivity).
  rewrite <- Hst. unfold settle, bind, getTransaction. cbn [polls log trace db].
  destruct (rpc_getTransaction w (send_hash sendResponse) (polls st)) as [e|r];
    cbn [of_sum]; [reflexivity|].
  match goal with
  | |- context [pollWhileNotFound w fuel ?h r ?s] =>
      destruct (pollWhileNotFound w fuel h r s) as [[[|rv|]|e|] st2]
  end; reflexivity.
Qed.

(** C4. For every orchestrated call that reaches submission: when the
    immediate result is not PENDING the call fails with "Transaction
    submission failed" without polling; when it is PENDING and the status
    is NOT_FOUND for the first [k] polls and [final] afterwards, the call
    polls [k + 1] times with a one-second wait between polls, for every
    [k], and returns the decoded return value on SUCCESS (null when absent)
    or fails with "Transaction failed: <status>" otherwise; and while the
    status stays NOT_FOUND the call does not settle, however many rounds
    are observed. *)
Theorem submission_and_confirmation
    (walletAddress contractId method : string) (params : list ScVal) (st : State)
    (account : Account) (result : option SimulationResult) (fee : Z)
    (signed : Transaction) (sendResponse : SendTransactionResponse) :
  strkey_valid w contractId = true ->
  rpc_getAccount w walletAddress = inr account ->
  rpc_simulateTransaction w (built account contractId method params)
    = inr (SimulationSuccess result fee) ->
  freighter_signTransaction w
    (assembleTransaction (built account contractId method params) result fee)
    walletAddress = inr signed ->
  rpc_sendTransaction w signed = inr sendResponse ->
  (send_status sendResponse <> SEND_PENDING ->
   forall fuel,
     invokeContract w fuel walletAddress contractId method params st =
       (Throw (Error "Transaction submission failed"),
        advance st
          (submission walletAddress (built account contractId method params)
             result fee signed) 0))
  /\
  (send_status sendResponse = SEND_PENDING ->
   forall (k : nat) (final : GetTransactionResponse),
     (forall i, (i < k)%nat ->
                rpc_getTransaction w (send_hash sendResponse) (polls st + i)
                = inr NOT_FOUND) ->
     rpc_getTransaction w (send_hash sendResponse) (polls st + k) = inr final ->
     final <> NOT_FOUND ->
     forall fuel, (k <= fuel)%nat ->
       invokeContract w fuel walletAddress contractId method params st =
         (match final with
          | SUCCESS (Some v) => Return (scValToNative v)
          | SUCCESS None => Return JNull
          | other => Throw (Error ("Transaction failed: " +:+ status_name other))
          end,
          advance st
            (submission walletAddress (built account contractId method params)
               result fee signed
             ++ EvGetTransaction (send_hash sendResponse)
                  :: rounds (send_hash sendResponse) k)
            (S k)))
  /\
  (send_status sendResponse = SEND_PENDING ->
   (forall i, rpc_getTransaction w (send_hash sendResponse) (polls st + i)
              = inr NOT_FOUND) ->
   forall fuel,
     invokeContract w fuel walletAddress contractId method params st =
       (Unsettled,
        advance st
          (submission walletAddress (built account contractId method params)
             result fee signed
           ++ EvGetTransaction (send_hash sendResponse)
                :: rounds (send_hash sendResponse) fuel)
          (S fuel))).
Proof.
  intros Hc Ha Hs Hg Hd.
  pose proof (fun fuel => invokeContract_submitted fuel walletAddress contractId
                            method params st account result fee signed sendResponse
                            Hc Ha Hs Hg Hd) as Hinv.
  set (submit := submission walletAddress (built account contractId method params)
                   result fee signed) in *.
  set (hash := send_hash sendResponse) in *.
  assert (Hpolls : polls (advance st submit 0) = polls st) by (cbn; lia).
  repeat split.
  - intros Hne fuel. rewrite Hinv.
    destruct (send_status sendResponse); congruence.
  - intros Hp k final Hnf Hfin Hne fuel Hk. rewrite Hinv, Hp.
    rewrite (poll_until k fuel hash (advance st submit 0) final);
      rewrite ?Hpolls; try assumption.
    rewrite advance_advance. destruct final as [|[v|]|]; reflexivity.
  - intros Hp Hnf fuel. rewrite Hinv, Hp.
    rewrite poll_forever by (rewrite Hpolls; assumption).
    rewrite advance_advance. reflexivity.
Qed.

(** C8. A read-only query only fetches the dummy account and simulates an
    envelope built on it: it requests no signature, submits nothing and
    polls nothing.  When the dry-run reports an error it fails with
    "Simulation failed"; otherwise it returns the decoded simulated return
    value, null when there is none. *)
Theorem readContract_simulates_only
    (contractId method : string) (params : list ScVal) (st : State) :
  (exists evs,
      snd (readContract w contractId method params st) = advance st evs 0 /\
      Forall (read_only_event w contractId method params) evs /\
      forallb (fun ev => negb (is_sign ev || is_send ev || is_poll ev)) evs = true)
  /\
  (forall account,
      strkey_valid w contractId = true ->
      rpc_getAccount w DUMMY_ACCOUNT = inr account ->
      (forall diagnostic,
          rpc_simulateTransaction w (built account contractId method params)
            = inr (SimulationError diagnostic) ->
          readContract w contractId method params st =
            (Throw (Error "Simulation failed"),
             advance st [EvGetAccount DUMMY_ACCOUNT;
                         EvSimulate (built account contractId method params)] 0))
      /\
      (forall result fee,
          rpc_simulateTransaction w (built account contractId method params)
            = inr (SimulationSuccess result fee) ->
          readContract w contractId method params st =
            (Return (match result with
                     | Some r => scValToNative (retval r)
                     | None => JNull
                     end),
             advance st [EvGetAccount DUMMY_ACCOUNT;
                         EvSimulate (built account contractId method params)] 0))).
Proof.
  split.
  - run_call. destruct (strkey_valid w contractId); cbn.
    2:{ exists []. rewrite advance_nil. repeat split; constructor. }
    destruct (rpc_getAccount w DUMMY_ACCOUNT) as [e|account] eqn:Ha; cbn.
    { exists [EvGetAccount DUMMY_ACCOUNT]. rewrite log_advance.
      split; [reflexivity|]. split; [|reflexivity]. repeat constructor. }
    fold (operation_of contractId method params).
    fold (built account contractId method params).
    set (tx := built account contractId method params).
    assert (Hevs : Forall (read_only_event w contractId method params)
                     [EvGetAccount DUMMY_ACCOUNT; EvSimulate tx]).
    { constructor; [left; reflexivity|]. constructor; [|constructor].
      right. exists account. split; [exact Ha | reflexivity]. }
    exists [EvGetAccount DUMMY_ACCOUNT; EvSimulate tx].
    split; [|split; [exact Hevs | reflexivity]].
    destruct (rpc_simulateTransaction w tx) as [e|[diag|result fee]]; cbn;
      rewrite !log_advance, advance_advance; reflexivity.
  - intros account Hc Ha. unfold built. split.
    + intros diagnostic Hs. run_call. rewrite Hc. cbn. rewrite Ha. cbn.
      unfold operation_of in Hs. rewrite Hs. cbn.
      rewrite !log_advance, advance_advance. reflexivity.
    + intros result fee Hs. run_call. rewrite Hc. cbn. rewrite Ha. cbn.
      unfold operation_of in Hs. rewrite Hs. cbn.
      rewrite !log_advance, advance_advance. reflexivity.
Qed.

End Orchestrator.

Lemma simulation_before_sign_witness :
  invokeContract (rejecting "HostError: insufficient balance") 0
    buyer token "purchase" [] (initial vacant) =
  (Throw (Error "Simulation failed: HostError: insufficient balance"),
   advance (initial vacant)
     [EvGetAccount buyer;
      EvSimulate (built (account_of buyer) token "purchase" [])] 0).
Proof.
  exact (proj1 (simulation_before_sign
                  (rejecting "HostError: insufficient balance") 0
                  buyer token "purchase" [] (initial vacant))
               (account_of buyer) "HostError: insufficient balance"
               eq_refl eq_refl eq_refl).
Defined.

Lemma submission_and_confirmation_witness :
  invokeContract busy 0 buyer token "purchase" [] (initial vacant) =
    (Throw (Error "Transaction submission failed"),
     advance (initial vacant)
       (submission buyer (built (account_of buyer) token "purchase" [])
          (Some {| auth := []; retval := scvVoid |}) 1000
          (sign_as (assembleTransaction
                      (built (account_of buyer) token "purchase" [])
                      (Some {| auth := []; retval := scvVoid |}) 1000) buyer)) 0)
  /\
  fst (invokeContract (settles_after 2 (SUCCESS (Some (scvI128 5)))) 2
         buyer token "purchase" [] (initial vacant)) = Return (JBigInt 5)
  /\
  fst (invokeContract (settles_after 1 FAILED) 1
         buyer token "purchase" [] (initial vacant))
    = Throw (Error "Transaction failed: FAILED")
  /\
  fst (invokeContract never_found 4 buyer token "purchase" [] (initial vacant))
    = Unsettled.
Proof.
  split; [|split; [|split]].
  - apply (submission_and_confirmation busy buyer token "purchase" []
             (initial vacant) (account_of buyer) _ _ _
             {| send_status := SEND_TRY_AGAIN_LATER; send_hash := "a1b2" |}
             eq_refl eq_refl eq_refl eq_refl eq_refl).
    discriminate.
  - rewrite (proj1 (proj2
               (submission_and_confirmation
                  (settles_after 2 (SUCCESS (Some (scvI128 5))))
                  buyer token "purchase" [] (initial vacant) (account_of buyer) _ _ _
                  {| send_status := SEND_PENDING; send_hash := "a1b2" |}
                  eq_refl eq_refl eq_refl eq_refl eq_refl))
               eq_refl 2%nat (SUCCESS (Some (scvI128 5)))).
    + reflexivity.
    + intros i Hi. destruct i as [|[|i]]; [reflexivity | reflexivity | lia].
    + reflexivity.
    + discriminate.
    + lia.
  - rewrite (proj1 (proj2
               (submission_and_confirmation (settles_after 1 FAILED)
                  buyer token "purchase" [] (initial vacant) (account_of buyer) _ _ _
                  {| send_status := SEND_PENDING; send_hash := "a1b2" |}
                  eq_refl eq_refl eq_refl eq_refl eq_refl))
               eq_refl 1%nat FAILED).
    + reflexivity.
    + intros i Hi. destruct i as [|i]; [reflexivity | lia].
    + reflexivity.
    + discriminate.
    + lia.
  - rewrite (proj2 (proj2
               (submission_and_confirmation never_found
                  buyer token "purchase" [] (initial vacant) (account_of buyer) _ _ _
                  {| send_status := SEND_PENDING; send_hash := "a1b2" |}
                  eq_refl eq_refl eq_refl eq_refl eq_refl))
               eq_refl (fun _ => eq_refl) 4%nat).
    reflexivity.
Defined.

Lemma readContract_simulates_only_witness :
  readContract (rejecting "HostError: Error(Contract, #4)")
    token "balance_of" [scvAddress buyer] (initial vacant) =
    (Throw (Error "Simulation failed"),
     advance (initial vacant)
       [EvGetAccount DUMMY_ACCOUNT;
        EvSimulate (built (account_of DUMMY_ACCOUNT) token "balance_of"
                      [scvAddress buyer])] 0)
  /\
  fst (readContract balance_unavailable token "get_company_info" [] (initial vacant))
    = Return (scValToNative company_struct).
Proof.
  split.
  - exact (proj1 (proj2 (readContract_simulates_only
                           (rejecting "HostError: Error(Contract, #4)")
                           token "balance_of" [scvAddress buyer] (initial vacant))
                        (account_of DUMMY_ACCOUNT) eq_refl eq_refl)
                 "HostError: Error(Contract, #4)" eq_refl).
  - rewrite (proj2 (proj2 (readContract_simulates_only balance_unavailable
                             token "get_company_info" [] (initial vacant))
                          (account_of DUMMY_ACCOUNT) eq_refl eq_refl)
                   (Some {| auth := []; retval := company_struct |}) 0 eq_refl).
    reflexivity.
Defined.

(* ===================================================================== *)
(** * The reconciliation layer *)
(* ===================================================================== *)

Section Reconciliation.
Variable w : World.

Lemma getTokenBalance_failed contractId address st st' :
  balance_read_fails w contractId address st st' ->
  getTokenBalance w contractId address st = (Return zero, st').
Proof.
  unfold getTokenBalance, try_catch, bind, lift.
  intros [(e & Ha & ->)|(p0 & e & Ha & Hr)]; rewrite Ha; cbn [of_sum].
  - reflexivity.
  - rewrite Hr. reflexivity.
Qed.

(** C10. Whenever the on-chain read behind it fails, [getTokenBalance]
    returns 0 instead of throwing; so when the company information was read
    and the read of the owner's balance fails, the tokens-sold figure of
    [loadCompanies] is the full total supply and no failure is reported. *)
Theorem balance_failure_reads_as_zero :
  (forall contractId address st st',
      balance_read_fails w contractId address st st' ->
      getTokenBalance w contractId address st = (Return zero, st'))
  /\
  (forall meta info st st1 st2,
      getCompanyInfo w (contractId meta) st = (Return (Some info), st1) ->
      balance_read_fails w (contractId meta) (owner_wallet meta) st1 st2 ->
      loadCompany w meta st =
        (Return {| metadata := meta;
                   onChainInfo := Some info;
                   tokensSold := total_supply info |}, st2)).
Proof.
  split; [exact getTokenBalance_failed|].
  intros meta info st st1 st2 Hinfo Hfail.
  unfold loadCompany, try_catch, bind at 1. rewrite Hinfo.
  unfold bind. rewrite (getTokenBalance_failed _ _ _ _ Hfail).
  unfold ret. rewrite sub_zero_r. reflexivity.
Qed.

Lemma connected_Some wallet : wallet <> EmptyString -> connected (Some wallet) = Some wallet.
Proof.
  intros H. unfold connected. destruct (String.eqb_spec wallet EmptyString); congruence.
Qed.

(** C2. Let the selected listing offer [T] tokens, let the store hold it
    with that quantity and active, and let the on-chain purchase of
    [n <= T] tokens be confirmed.  Then [handleBuyResale] completes and
    leaves the listing with [T - n] tokens and still active when [n < T],
    and inactive when [n = T]; no other listing changes. *)
Theorem resale_settlement (fuel : nat) (wallet : string)
    (selected : ResaleListing) (n : Z) (st st1 : State) (row : ListingRow) :
  wallet <> EmptyString ->
  transferTokensWithPayment w fuel wallet (seller_wallet selected)
    (contract_id selected) (Number n) (price_per_token selected)
    XLM_TOKEN_ADDRESS st = (Return tt, st1) ->
  reachable (db st1) = true ->
  resale_listings (db st1) !! id selected = Some row ->
  l_tokens_for_sale row = tokens_for_sale selected ->
  l_is_active row = true ->
  n <= tokens_for_sale selected ->
  exists st2 row',
    handleBuyResale w fuel true (Some wallet) (Some selected) n st = (Return tt, st2) /\
    resale_listings (db st2) !! id selected = Some row' /\
    (n < tokens_for_sale selected ->
     l_tokens_for_sale row' = tokens_for_sale selected - n /\
     l_is_active row' = true) /\
    (n = tokens_for_sale selected -> l_is_active row' = false) /\
    (forall other, other <> id selected ->
                   resale_listings (db st2) !! other = resale_listings (db st1) !! other).
Proof.
  set (T := tokens_for_sale selected).
  intros Hw Htransfer Hreach Hrow HT Hact Hn.
  unfold handleBuyResale. rewrite (connected_Some _ Hw).
  unfold try_catch, bind at 1. rewrite Htransfer.
  fold T. destruct (Z.ltb_spec 0 (T - n)) as [Hpos|Hzero].
  - exists {| trace := trace st1 ++ [EvAlert
               ("Purchase successful! " +:+ pretty n +:+ " tokens transferred. "
                  +:+ pretty (T - n) +:+ " tokens still available.")];
              polls := polls st1;
              db := with_listings (db st1)
                      (alter (set_tokens_for_sale (T - n)) (id selected)
                             (resale_listings (db st1))) |},
           (set_tokens_for_sale (T - n) row).
    split; [|split; [|split; [|split]]].
    + unfold updateResaleListingQuantity, bind, query, update_tokens_for_sale.
      cbv beta. rewrite Hreach, Hrow. cbn [negb].
      destruct (Z.ltb_spec 0 (T - n)); [|lia]. reflexivity.
    + cbn. rewrite lookup_alter_eq, Hrow. reflexivity.
    + intros _. cbn. auto.
    + intros ->. lia.
    + intros other Hne. cbn. apply lookup_alter_ne. congruence.
  - exists {| trace := trace st1 ++ [EvAlert
               "Purchase successful! All tokens from this listing have been sold."];
              polls := polls st1;
              db := with_listings (db st1)
                      (alter (set_is_active false) (id selected)
                             (resale_listings (db st1))) |},
           (set_is_active false row).
    split; [|split; [|split; [|split]]].
    + unfold deactivateResaleListing, bind, query, update_is_active.
      cbv beta. rewrite Hreach. reflexivity.
    + cbn. rewrite lookup_alter_eq, Hrow. reflexivity.
    + intros Hlt. lia.
    + intros _. reflexivity.
    + intros other Hne. cbn. apply lookup_alter_ne. congruence.
Qed.

End Reconciliation.

Lemma balance_failure_reads_as_zero_witness :
  exists info st2,
    loadCompany balance_unavailable (company_of_row acme) (initial market) =
      (Return {| metadata := company_of_row acme;
                 onChainInfo := Some info;
                 tokensSold := total_supply info |}, st2) /\
    total_supply info = Number 1000.
Proof.
  eexists _, _. split.
  - eapply (proj2 (balance_failure_reads_as_zero balance_unavailable)).
    + vm_compute. reflexivity.
    + right. eexists _, _. split; vm_compute; reflexivity.
  - vm_compute. reflexivity.
Defined.

(** Scenario C: 100 on offer, 40 bought: 60 remain, the listing is active. *)
Lemma resale_settlement_witness :
  exists st2 row',
    handleBuyResale (settles_after 1 (SUCCESS None)) 1 true (Some buyer)
      (Some (listing_of_row first_listing)) 40 (initial market) = (Return tt, st2) /\
    resale_listings (db st2) !! "listing-1" = Some row' /\
    l_tokens_for_sale row' = 60 /\
    l_is_active row' = true.
Proof.
  destruct (resale_settlement (settles_after 1 (SUCCESS None)) 1 buyer
              (listing_of_row first_listing) 40 (initial market)
              (snd (transferTokensWithPayment (settles_after 1 (SUCCESS None)) 1
                      buyer seller token (Number 40) (literal 1 2)
                      XLM_TOKEN_ADDRESS (initial market)))
              first_listing)
    as (st2 & row' & Hrun & Hrow & Hpartial & _ & _).
  - discriminate.
  - vm_compute. reflexivity.
  - vm_compute. reflexivity.
  - vm_compute. reflexivity.
  - reflexivity.
  - reflexivity.
  - vm_compute. discriminate.
  - exists st2, row'. split; [exact Hrun|]. split; [exact Hrow|].
    apply Hpartial. vm_compute. reflexivity.
Defined.

(** Scenario D: 100 on offer, 100 bought: the listing is deactivated. *)
Lemma sold_out_listing_is_deactivated :
  exists st2 row',
    handleBuyResale (settles_after 0 (SUCCESS None)) 0 true (Some buyer)
      (Some (listing_of_row first_listing)) 100 (initial market) = (Return tt, st2) /\
    resale_listings (db st2) !! "listing-1" = Some row' /\
    l_is_active row' = false.
Proof.
  eexists _, _. split; [vm_compute; reflexivity|].
  split; vm_compute; reflexivity.
Qed.

(* ===================================================================== *)
(** * The off-chain metadata store *)
(* ===================================================================== *)

Section MetadataStore.

#[local] Instance company_newer_first_total : Total company_newer_first.
Proof. intros a b. unfold company_newer_first. lia. Qed.

#[local] Instance company_newer_first_trans : Transitive company_newer_first.
Proof. intros a b c. unfold company_newer_first. lia. Qed.

#[local] Instance listing_newer_first_total : Total listing_newer_first.
Proof. intros a b. unfold listing_newer_first. lia. Qed.

#[local] Instance listing_newer_first_trans : Transitive listing_newer_first.
Proof. intros a b c. unfold listing_newer_first. lia. Qed.

Lemma rows_empty {A} : rows (∅ : gmap string A) = [].
Proof. unfold rows. rewrite map_to_list_empty. reflexivity. Qed.

Lemma map_StronglySorted {A B} (f : A -> B) (R1 : relation A) (R2 : relation B) l :
  (forall x y, R1 x y -> R2 (f x) (f y)) ->
  StronglySorted R1 l -> StronglySorted R2 (List.map f l).
Proof. apply (StronglySorted_fmap f R1 R2 l). Qed.

Lemma sorted_active_all_active (l : list ListingRow) :
  Forall (fun r => l_is_active r = true)
         (merge_sort listing_newer_first (List.filter l_is_active l)).
Proof.
  rewrite (merge_sort_Permutation listing_newer_first).
  apply Forall_forall. intros r Hr%list_elem_of_In%filter_In. tauto.
Qed.

(** C6. [getCompaniesMetadata] and [getActiveResaleListings] always return
    a sequence, never an error; each is ordered newest first (creation
    times non-increasing along the sequence), every returned listing is
    active, an empty table gives the empty sequence, and when the store
    answers the sequences hold exactly the companies, and exactly the
    active listings, of the store. *)
Theorem listings_newest_first (st : State) :
  exists (cs : list CompanyMetadata) (ls : list ResaleListing),
    getCompaniesMetadata st = (Return cs, st) /\
    getActiveResaleListings st = (Return ls, st) /\
    StronglySorted company_order cs /\
    StronglySorted listing_order ls /\
    Forall (fun l => is_active l = true) ls /\
    (companies (db st) = ∅ -> cs = []) /\
    (resale_listings (db st) = ∅ -> ls = []) /\
    (reachable (db st) = true ->
     cs ≡ₚ List.map company_of_row (rows (companies (db st))) /\
     ls ≡ₚ List.map listing_of_row
             (List.filter l_is_active (rows (resale_listings (db st))))).
Proof.
  unfold getCompaniesMetadata, getActiveResaleListings, bind, read, query,
    select_companies, select_active_listings.
  destruct st as [tr n d]; cbn [db]. destruct (reachable d) eqn:Hr; cbn.
  - eexists _, _. split; [reflexivity|]. split; [reflexivity|].
    split; [|split; [|split; [|split; [|split]]]].
    + apply (map_StronglySorted _ company_newer_first); [auto|].
      apply StronglySorted_merge_sort; apply _.
    + apply (map_StronglySorted _ listing_newer_first); [auto|].
      apply StronglySorted_merge_sort; apply _.
    + apply List.Forall_map.
      exact (sorted_active_all_active (rows (resale_listings d))).
    + intros ->. rewrite rows_empty. reflexivity.
    + intros ->. rewrite rows_empty. reflexivity.
    + intros _. split.
      * apply Permutation_map. apply merge_sort_Permutation.
      * apply Permutation_map. apply merge_sort_Permutation.
  - exists [], []. repeat split; try constructor; discriminate.
Qed.

Lemma getCompanyMetadata_offline x st :
  reachable (db st) = false -> getCompanyMetadata x st = (Return None, st).
Proof.
  intros H. unfold getCompanyMetadata, bind, read, query, select_company_single.
  cbv beta. rewrite H. destruct st; reflexivity.
Qed.

Lemma getCompanyMetadata_missing x st :
  reachable (db st) = true ->
  List.filter (company_matches x) (rows (companies (db st))) = [] ->
  getCompanyMetadata x st = (Return None, st).
Proof.
  intros H Hnone. unfold getCompanyMetadata, bind, read, query, select_company_single.
  cbv beta. rewrite H, Hnone. destruct st; reflexivity.
Qed.

(** C3, as stated, fails: with the store out of reach the lookup returns
    the same null as for a missing row, and throws nothing. *)
Lemma store_failure_reads_as_not_found :
  getCompanyMetadata token (initial offline) = (Return None, initial offline) /\
  getCompanyMetadata token (initial vacant) = (Return None, initial vacant) /\
  ~ lookup_tells_failure_apart.
Proof.
  split; [reflexivity|]. split; [reflexivity|].
  intros H. destruct (H token (initial offline)) as [_ Hthrow].
  destruct (Hthrow eq_refl) as [e He]. discriminate He.
Qed.

(** C3, amended. For every contract address the company lookup returns
    not-found (null) when no matching row exists; it returns the same null
    when the store cannot be reached, and it never throws: a store failure
    is folded into the not-found result. *)
Theorem getCompanyMetadata_folds_failure (x : string) (st : State) :
  (reachable (db st) = true ->
   List.filter (company_matches x) (rows (companies (db st))) = [] ->
   getCompanyMetadata x st = (Return None, st)) /\
  (reachable (db st) = false -> getCompanyMetadata x st = (Return None, st)) /\
  (forall e, fst (getCompanyMetadata x st) <> Throw e).
Proof.
  split; [apply getCompanyMetadata_missing|].
  split; [apply getCompanyMetadata_offline|].
  intros e. unfold getCompanyMetadata, bind, read, query, select_company_single.
  cbv beta. destruct (reachable (db st)); [|discriminate].
  destruct (List.filter _ _) as [|r [|r' l]]; discriminate.
Qed.

End MetadataStore.

Lemma listings_newest_first_witness :
  exists cs ls,
    getCompaniesMetadata (initial vacant) = (Return cs, initial vacant) /\
    getActiveResaleListings (initial vacant) = (Return ls, initial vacant) /\
    cs = [] /\ ls = [].
Proof.
  destruct (listings_newest_first (initial vacant))
    as (cs & ls & Hc & Hl & _ & _ & _ & Hce & Hle & _).
  exists cs, ls. split; [exact Hc|]. split; [exact Hl|].
  split; [apply Hce | apply Hle]; reflexivity.
Defined.

(** The market of the sample store, newest first, without the sold-out
    listing. *)
Lemma active_listings_of_market :
  fst (getActiveResaleListings (initial market))
  = Return [listing_of_row second_listing; listing_of_row first_listing].
Proof. vm_compute. reflexivity. Qed.

Lemma getCompanyMetadata_folds_failure_witness :
  getCompanyMetadata token (initial offline) = (Return None, initial offline) /\
  getCompanyMetadata buyer (initial market) = (Return None, initial market).
Proof.
  split.
  - exact (proj1 (proj2 (getCompanyMetadata_folds_failure token (initial offline)))
                 eq_refl).
  - apply (proj1 (getCompanyMetadata_folds_failure buyer (initial market))).
    + reflexivity.
    + vm_compute. reflexivity.
Defined.

(* ===================================================================== *)
(** * The purchase modal *)
(* ===================================================================== *)

Section Modal.

(** Whatever the state of the modal, a click hands over a quantity only
    when it lies between 1 and the available tokens. *)
Lemma submitted_within (p : Props) (evs : list UiEvent) : forall s : ModalState,
  Forall (fun n => 1 <= n <= availableTokens p) (submitted p s evs).
Proof.
  induction evs as [|ev evs IH]; intros s; cbn [submitted]; [constructor|].
  destruct ev as [v| |]; cbn [step]; try apply IH.
  unfold confirm_disabled, handleInvest.
  destruct (isProcessing s); cbn [orb]; [apply IH|].
  destruct (Z.ltb_spec (tokens s) 1); cbn [orb]; [apply IH|].
  destruct (Z.ltb_spec (availableTokens p) (tokens s)); [apply IH|].
  constructor; [lia | apply IH].
Qed.

(** C7. For a resale listing offering [T] tokens, every quantity the
    purchase modal hands to [handleBuyResale], in any session of edits and
    clicks, satisfies [1 <= n <= T]: a typed quantity above [T] is clamped
    to [T], and the confirm button is disabled while the quantity exceeds
    [T]. *)
Theorem resale_quantity_within_listing
    (companyName : string) (selected : ResaleListing) (evs : list UiEvent) :
  Forall (fun n => 1 <= n <= tokens_for_sale selected)
         (submitted (resale_props companyName selected) opened evs) /\
  (forall s value requested,
      value <> EmptyString ->
      parseInt value = Some requested ->
      tokens_for_sale selected < requested ->
      0 <= tokens_for_sale selected ->
      tokens (handleTokenChange (resale_props companyName selected) value s)
      = tokens_for_sale selected) /\
  (forall s, tokens_for_sale selected < tokens s ->
             confirm_disabled (resale_props companyName selected) s = true).
Proof.
  split; [apply (submitted_within (resale_props companyName selected))|]. split.
  - intros s value requested Hne Hparse Hgt HT. unfold handleTokenChange.
    destruct (String.eqb_spec value EmptyString); [congruence|].
    rewrite Hparse. cbn. lia.
  - intros s Hgt. unfold confirm_disabled. cbn [availableTokens resale_props].
    destruct (Z.ltb_spec (tokens_for_sale selected) (tokens s)); [|lia].
    rewrite orb_true_r. reflexivity.
Qed.

End Modal.

Lemma resale_quantity_within_listing_witness :
  "150" <> EmptyString /\
  parseInt "150" = Some 150 /\
  tokens (handleTokenChange (resale_props "Acme" (listing_of_row first_listing))
            "150" opened) = 100 /\
  submitted (resale_props "Acme" (listing_of_row first_listing)) opened
    [Change "150"; ClickConfirm; ClickConfirm] = [100].
Proof.
  split; [discriminate|]. split; [reflexivity|]. split.
  - apply (proj1 (proj2 (resale_quantity_within_listing
                           "Acme" (listing_of_row first_listing) []))
                 opened "150" 150).
    + discriminate.
    + reflexivity.
    + vm_compute. reflexivity.
    + vm_compute. discriminate.
  - reflexivity.
Defined.

(* ===================================================================== *)
(** * More binary64 facts: exact results *)
(* ===================================================================== *)

Section ExactFloats.

Lemma iter_pos_comm {A} (f : A -> A) (p : positive) : forall x,
  SpecFloat.iter_pos f p (f x) = f (SpecFloat.iter_pos f p x).
Proof.
  induction p as [p IH|p IH|]; intros x; cbn [SpecFloat.iter_pos].
  - rewrite !IH. reflexivity.
  - rewrite !IH. reflexivity.
  - reflexivity.
Qed.

Lemma iter_pos_succ {A} (f : A -> A) (p : positive) : forall x,
  SpecFloat.iter_pos f (Pos.succ p) x = f (SpecFloat.iter_pos f p x).
Proof.
  induction p as [p IH|p IH|]; intros x.
  - change (Pos.succ p~1) with ((Pos.succ p)~0)%positive.
    cbn [SpecFloat.iter_pos]. rewrite !IH, !iter_pos_comm. reflexivity.
  - change (Pos.succ p~0) with (p~1)%positive.
    cbn [SpecFloat.iter_pos]. rewrite !iter_pos_comm. reflexivity.
  - reflexivity.
Qed.

(** Shifting out [n] zero bits is exact. *)
Lemma shr_exact (n : positive) : forall m : positive,
  SpecFloat.iter_pos shr_1 n
    {| shr_m := Z.pos m * 2 ^ Z.pos n; shr_r := false; shr_s := false |}
  = {| shr_m := Z.pos m; shr_r := false; shr_s := false |}.
Proof.
  induction n as [|n IH] using Pos.peano_ind; intros m.
  - cbn [SpecFloat.iter_pos]. replace (Z.pos m * 2 ^ 1) with (Z.pos m~0) by lia.
    reflexivity.
  - rewrite iter_pos_succ, Pos2Z.inj_succ, Z.pow_succ_r by lia.
    replace (Z.pos m * (2 * 2 ^ Z.pos n)) with (Z.pos m~0 * 2 ^ Z.pos n) by lia.
    rewrite IH. reflexivity.
Qed.

(** Rounding a full-width mantissa followed by [n] zero bits drops the
    zero bits. *)
Lemma binary_round_aux_trailing_zeros (s : bool) (m : positive) (e n : Z) (M : positive) :
  Z.pos (digits2_pos m) = prec -> 0 <= n ->
  Z.pos M = Z.pos m * 2 ^ n ->
  3 - emax - prec <= e + n <= emax - prec ->
  binary_round_aux prec emax s (Z.pos M) e loc_Exact = S754_finite s m (e + n).
Proof.
  intros Hd Hn HM He.
  destruct n as [|n|n]; [| |lia].
  - rewrite Z.add_0_r in *. assert (M = m) by lia. subst M.
    apply binary_round_aux_full_width; assumption.
  - assert (HdM : Zdigits2 (Z.pos M) = prec + Z.pos n).
    { cbn [Zdigits2]. rewrite digits2_pos_size.
      rewrite digits2_pos_size in Hd.
      assert (Hlog : Z.log2 (Z.pos M) = Z.log2 (Z.pos m) + Z.pos n).
      { rewrite HM. rewrite <- Z.shiftl_mul_pow2 by lia.
        apply Z.log2_shiftl; lia. }
      pose proof (Pos.size_gt m). pose proof (Pos.size_le m).
      assert (HsM : Z.pos (Pos.size M) = Z.succ (Z.log2 (Z.pos M))).
      { destruct M; reflexivity || (cbn [Pos.size Z.log2]; rewrite ?Pos2Z.inj_succ; reflexivity). }
      assert (Hsm : Z.pos (Pos.size m) = Z.succ (Z.log2 (Z.pos m))).
      { destruct m; reflexivity || (cbn [Pos.size Z.log2]; rewrite ?Pos2Z.inj_succ; reflexivity). }
      lia. }
    assert (Hshift : fexp prec emax (Zdigits2 (Z.pos M) + e) - e = Z.pos n).
    { rewrite HdM. unfold fexp, SpecFloat.emin, prec, emax in *. lia. }
    unfold binary_round_aux, shr_fexp. rewrite Hshift.
    cbn [shr shr_record_of_loc]. rewrite HM, shr_exact.
    cbn [loc_of_shr_record shr_m round_nearest_even].
    assert (Hn0 : fexp prec emax (Zdigits2 (Z.pos m) + (e + Z.pos n)) - (e + Z.pos n) = 0).
    { cbn [Zdigits2]. rewrite Hd. unfold fexp, SpecFloat.emin, prec, emax in *. lia. }
    rewrite Hn0. cbn [shr shr_record_of_loc shr_m].
    destruct (Z.leb_spec (e + Z.pos n) (emax - prec)); [reflexivity | lia].
Qed.

Lemma size_log2 (p : positive) : Z.pos (Pos.size p) = Z.succ (Z.log2 (Z.pos p)).
Proof.
  destruct p; cbn [Pos.size Z.log2]; rewrite ?Pos2Z.inj_succ; reflexivity.
Qed.

Lemma digits_mul_pow2 (m M : positive) (n : Z) :
  0 <= n -> Z.pos M = Z.pos m * 2 ^ n ->
  Z.pos (digits2_pos M) = Z.pos (digits2_pos m) + n.
Proof.
  intros Hn HM. rewrite !digits2_pos_size, !size_log2, HM.
  rewrite <- Z.shiftl_mul_pow2 by lia. rewrite Z.log2_shiftl by lia. lia.
Qed.

(** Normalisation is exact on a value that has a full-width
    representation within the exponent range. *)
Lemma binary_round_exact (s : bool) (V mf : positive) (e ef : Z) :
  Z.pos (digits2_pos mf) = prec ->
  3 - emax - prec <= ef <= emax - prec ->
  (ef <= e /\ Z.pos mf = Z.pos V * 2 ^ (e - ef)) \/
  (e <= ef /\ Z.pos V = Z.pos mf * 2 ^ (ef - e)) ->
  binary_round prec emax s V e = S754_finite s mf ef.
Proof.
  intros Hd He Hval.
  assert (HdV : Z.pos (digits2_pos V) + e = prec + ef).
  { destruct Hval as [[Hle HV]|[Hle HV]].
    - pose proof (digits_mul_pow2 V mf (e - ef) ltac:(lia) HV). lia.
    - pose proof (digits_mul_pow2 mf V (ef - e) ltac:(lia) HV). lia. }
  unfold binary_round.
  assert (Hf : fexp prec emax (Z.pos (digits2_pos V) + e) = ef).
  { rewrite HdV. unfold fexp, SpecFloat.emin, prec, emax in *. lia. }
  rewrite Hf. clear Hf. unfold shl_align.
  destruct (ef - e) as [|q|q] eqn:Hq.
  - assert (ef = e) by lia. subst ef.
    assert (mf = V) as ->.
    { destruct Hval as [[_ HV]|[_ HV]]; rewrite ?Z.sub_diag in HV; lia. }
    apply binary_round_aux_full_width; assumption.
  - destruct Hval as [[Hle HV]|[Hle HV]]; [lia|].
    replace ef with (e + Z.pos q) by lia.
    apply (binary_round_aux_trailing_zeros s mf e (Z.pos q) V); try assumption; try lia.
  - destruct Hval as [[Hle HV]|[Hle HV]]; [|lia].
    assert (Pos.iter xO V q = mf) as ->.
    { apply Pos2Z.inj. rewrite pos_iter_xO_value, HV. f_equal. f_equal. lia. }
    apply binary_round_aux_full_width; assumption.
Qed.

(** [Number] of a positive integer below [2^53], with the width of the
    mantissa. *)
Lemma Number_full_width (p : positive) :
  Z.pos p < 2 ^ prec ->
  exists m : positive,
    Number (Z.pos p) = S754_finite false m (Z.pos (digits2_pos p) - prec) /\
    Z.pos m = Z.pos p * 2 ^ (prec - Z.pos (digits2_pos p)) /\
    Z.pos (digits2_pos m) = prec /\
    Z.pos (digits2_pos p) <= prec.
Proof.
  intros Hp.
  pose proof (pow2_digits_le_pos p) as Hlo.
  set (d := Z.pos (digits2_pos p)) in *.
  assert (Hd : 1 <= d <= prec).
  { split; [unfold d; lia|].
    destruct (Z_le_gt_dec d prec) as [|Hgt]; [assumption|exfalso].
    assert (2 ^ prec <= 2 ^ (d - 1))
      by (apply Z.pow_le_mono_r; unfold prec in *; lia).
    lia. }
  assert (Hpos : 0 < Z.pos p * 2 ^ (prec - d))
    by (apply Z.mul_pos_pos; [lia | apply Z.pow_pos_nonneg; lia]).
  destruct (Z.pos p * 2 ^ (prec - d)) as [|m|m] eqn:Hm; try lia.
  exists m.
  assert (Hdm : Z.pos (digits2_pos m) = prec).
  { rewrite (digits_mul_pow2 p m (prec - d)) by lia. fold d. lia. }
  split; [|split; [reflexivity|split; [exact Hdm|lia]]].
  unfold Number, binary_normalize.
  apply binary_round_exact; [exact Hdm | unfold prec, emax in *; lia |].
  left. split; [lia|]. rewrite <- Hm. f_equal. f_equal. lia.
Qed.

Lemma bounded_inv (m : positive) (e : Z) :
  bounded prec emax m e = true ->
  3 - emax - prec <= e <= emax - prec /\
  Z.pos (digits2_pos m) <= prec /\
  (Z.pos (digits2_pos m) = prec \/ e = 3 - emax - prec).
Proof.
  unfold bounded, canonical_mantissa, fexp, SpecFloat.emin, prec, emax.
  intros [H1 H2]%andb_prop. apply Z.eqb_eq in H1. apply Z.leb_le in H2. lia.
Qed.

(** An integral binary64 value other than [-0] is the [Number] of its
    [BigInt]. *)
Lemma Number_of_BigInt (x : number) (z : Z) :
  valid_binary prec emax x = true -> x <> S754_zero true ->
  BigInt x = Some z -> Number z = x.
Proof.
  destruct x as [[|]|s| |s m e]; cbn [valid_binary BigInt]; try discriminate.
  - congruence.
  - intros _ _ [= <-]. reflexivity.
  - intros Hb _. destruct (bounded_inv m e Hb) as (He & Hd & Hfull).
    destruct (Z.leb_spec 0 e) as [Hpos|Hneg].
    + intros [= <-].
      assert (Hdm : Z.pos (digits2_pos m) = prec) by (unfold prec, emax in *; lia).
      assert (Hp : 0 < Z.pos m * 2 ^ e)
        by (apply Z.mul_pos_pos; [lia | apply Z.pow_pos_nonneg; lia]).
      destruct (Z.pos m * 2 ^ e) as [|V|V] eqn:HV; try lia.
      assert (Hz : Z.shiftl (mantissa s m) e = cond_Zopp s (Z.pos V)).
      { rewrite Z.shiftl_mul_pow2 by lia. unfold mantissa.
        destruct s; cbn [cond_Zopp]; lia. }
      rewrite Hz. unfold Number, binary_normalize.
      destruct s; cbn [cond_Zopp Z.opp];
        (apply binary_round_exact; [exact Hdm | exact He |];
         right; split; [lia|]; rewrite Z.sub_0_r; lia).
    + destruct (Z.eqb_spec (Z.land (Z.pos m) (Z.ones (- e))) 0) as [Hz|]; [|discriminate].
      intros [= <-].
      rewrite Z.land_ones in Hz by lia.
      assert (Hp2 : 0 < 2 ^ (- e)) by (apply Z.pow_pos_nonneg; lia).
      pose proof (Z.div_mod (Z.pos m) (2 ^ (- e)) ltac:(lia)) as Hdiv.
      rewrite Hz, Z.add_0_r in Hdiv.
      assert (Hq : 0 < Z.pos m / 2 ^ (- e)).
      { destruct (Z_lt_le_dec 0 (Z.pos m / 2 ^ (- e))) as [|Hle]; [assumption|].
        pose proof (Z.div_pos (Z.pos m) (2 ^ (- e)) ltac:(lia) Hp2). nia. }
      destruct (Z.pos m / 2 ^ (- e)) as [|V|V] eqn:HV; try lia.
      assert (Hdm : Z.pos (digits2_pos m) = prec).
      { destruct Hfull as [|Hmin]; [assumption|exfalso].
        pose proof (pos_lt_pow2_digits m).
        assert (2 ^ Z.pos (digits2_pos m) <= 2 ^ prec)
          by (apply Z.pow_le_mono_r; lia).
        assert (2 ^ prec <= 2 ^ (- e))
          by (apply Z.pow_le_mono_r; unfold prec, emax in *; lia).
        nia. }
      assert (Hsh : Z.shiftr (mantissa s m) (- e) = cond_Zopp s (Z.pos V)).
      { rewrite Z.shiftr_div_pow2 by lia. unfold mantissa.
        destruct s; cbn [cond_Zopp]; [|exact HV].
        rewrite Z.div_opp_l_z; [|lia|exact Hz]. rewrite HV. reflexivity. }
      rewrite Hsh. unfold Number, binary_normalize.
      destruct s; cbn [cond_Zopp Z.opp];
        (apply binary_round_exact; [exact Hdm | exact He |];
         left; split; [lia|]; rewrite Z.sub_0_l; lia).
Qed.

(** Subtraction of whole numbers below [2^53] is exact. *)
Lemma sub_Number (S B : Z) :
  0 <= B <= S -> S < 2 ^ prec -> sub (Number S) (Number B) = Number (S - B).
Proof.
  intros HB HS.
  destruct B as [|b|b]; [| |lia].
  { rewrite Z.sub_0_r. change (Number 0) with zero. apply sub_zero_r. }
  destruct S as [|p|p]; try lia.
  assert (Hb : Z.pos b < 2 ^ prec) by lia.
  destruct (Number_full_width p HS) as (mS & HnS & HmS & HdS & HdSp).
  destruct (Number_full_width b Hb) as (mB & HnB & HmB & HdB & HdBp).
  pose proof (pow2_digits_le_pos p) as HloS.
  pose proof (pos_lt_pow2_digits b) as HhiB.
  set (dS := Z.pos (digits2_pos p)) in *.
  set (dB := Z.pos (digits2_pos b)) in *.
  assert (Hdd : dB <= dS).
  { destruct (Z_le_gt_dec dB dS) as [|Hgt]; [assumption|exfalso].
    pose proof (pow2_digits_le_pos b). fold dB in H.
    pose proof (pos_lt_pow2_digits p). fold dS in H0.
    assert (2 ^ dS <= 2 ^ (dB - 1)) by (apply Z.pow_le_mono_r; lia).
    lia. }
  rewrite HnS, HnB. unfold sub, SFsub.
  rewrite (Z.min_r (dS - prec) (dB - prec)) by lia.
  assert (HalignS : Z.pos (fst (shl_align mS (dS - prec) (dB - prec)))
                    = Z.pos p * 2 ^ (prec - dB)).
  { unfold shl_align. destruct (dB - prec - (dS - prec)) as [|q|q] eqn:Hq; cbn [fst].
    - rewrite HmS. f_equal. f_equal. lia.
    - lia.
    - rewrite pos_iter_xO_value, HmS, <- Z.mul_assoc, <- Z.pow_add_r by lia.
      f_equal. f_equal. lia. }
  assert (HalignB : Z.pos (fst (shl_align mB (dB - prec) (dB - prec))) = Z.pos mB).
  { unfold shl_align. rewrite Z.sub_diag. reflexivity. }
  cbn [cond_Zopp]. rewrite HalignS, HalignB, HmB.
  replace (Z.pos p * 2 ^ (prec - dB) - Z.pos b * 2 ^ (prec - dB))
    with ((Z.pos p - Z.pos b) * 2 ^ (prec - dB)) by lia.
  assert (Hp2 : 0 < 2 ^ (prec - dB)) by (apply Z.pow_pos_nonneg; lia).
  destruct (Z.pos p - Z.pos b) as [|z|z] eqn:Hz; try lia.
  { reflexivity. }
  assert (Hzlt : Z.pos z < 2 ^ prec) by lia.
  destruct (Number_full_width z Hzlt) as (mZ & HnZ & HmZ & HdZ & HdZp).
  rewrite HnZ.
  set (dZ := Z.pos (digits2_pos z)) in *.
  assert (HVpos : 0 < Z.pos z * 2 ^ (prec - dB)) by (apply Z.mul_pos_pos; lia).
  destruct (Z.pos z * 2 ^ (prec - dB)) as [|V|V] eqn:HV; try lia.
  unfold binary_normalize.
  apply binary_round_exact; [exact HdZ | unfold prec, emax in *; lia |].
  destruct (Z_le_gt_dec dZ dB) as [Hle|Hgt].
  - left. split; [lia|]. rewrite HmZ, <- HV, <- Z.mul_assoc, <- Z.pow_add_r by lia.
    f_equal. f_equal. lia.
  - right. split; [lia|]. rewrite <- HV, HmZ, <- Z.mul_assoc, <- Z.pow_add_r by lia.
    f_equal. f_equal. lia.
Qed.

(** Comparison of whole numbers below [2^53] is the comparison of the
    integers. *)
Lemma compare_Number (a b : Z) :
  0 <= a < 2 ^ prec -> 0 <= b < 2 ^ prec ->
  SFcompare (Number a) (Number b) = Some (a ?= b).
Proof.
  intros Ha Hb.
  destruct a as [|p|p]; [| |lia]; destruct b as [|q|q]; try lia.
  - reflexivity.
  - destruct (Number_full_width q (proj2 Hb)) as (m & -> & _). reflexivity.
  - destruct (Number_full_width p (proj2 Ha)) as (m & -> & _). reflexivity.
  - destruct (Number_full_width p (proj2 Ha)) as (mp & -> & Hmp & _ & Hdp).
    destruct (Number_full_width q (proj2 Hb)) as (mq & -> & Hmq & _ & Hdq).
    pose proof (pow2_digits_le_pos p). pose proof (pos_lt_pow2_digits p).
    pose proof (pow2_digits_le_pos q). pose proof (pos_lt_pow2_digits q).
    set (dp := Z.pos (digits2_pos p)) in *.
    set (dq := Z.pos (digits2_pos q)) in *.
    cbn [SFcompare].
    destruct (Z.compare_spec (dp - prec) (dq - prec)) as [Heq|Hlt|Hgt].
    + assert (dp = dq) by lia.
      rewrite Pos.compare_cont_spec.
      replace (Pos.switch_Eq Eq (mp ?= mq)%positive) with (mp ?= mq)%positive
        by (destruct (mp ?= mq)%positive; reflexivity).
      rewrite Pos2Z.inj_compare, Hmp, Hmq. replace dq with dp by lia.
      assert (0 < 2 ^ (prec - dp)) by (apply Z.pow_pos_nonneg; lia).
      destruct (Z.compare_spec (Z.pos p) (Z.pos q)) as [E|E|E].
      * rewrite E. rewrite Z.compare_refl. reflexivity.
      * apply f_equal, Z.compare_lt_iff. nia.
      * apply f_equal, Z.compare_gt_iff. nia.
    + assert (2 ^ dp <= 2 ^ (dq - 1)) by (apply Z.pow_le_mono_r; lia).
      symmetry. apply f_equal, Z.compare_lt_iff. lia.
    + assert (2 ^ dq <= 2 ^ (dp - 1)) by (apply Z.pow_le_mono_r; lia).
      symmetry. apply f_equal, Z.compare_gt_iff. lia.
Qed.

Lemma gt_Number (a b : Z) :
  0 <= a < 2 ^ prec -> 0 <= b < 2 ^ prec ->
  gt (Number a) (Number b) = (b <? a).
Proof.
  intros Ha Hb. unfold gt, SFltb. rewrite (compare_Number b a Hb Ha).
  unfold Z.ltb. destruct (b ?= a); reflexivity.
Qed.

Lemma shr_1_nonneg (s : shr_record) : 0 <= shr_m s -> 0 <= shr_m (shr_1 s).
Proof.
  destruct s as [m r t]; destruct m as [|p|p]; cbn [shr_m]; [reflexivity| |lia].
  destruct p; cbn [shr_1 shr_m]; lia.
Qed.

Lemma iter_shr_1_nonneg (p : positive) : forall s : shr_record,
  0 <= shr_m s -> 0 <= shr_m (SpecFloat.iter_pos shr_1 p s).
Proof.
  induction p as [p IH|p IH|]; intros s H; cbn [SpecFloat.iter_pos].
  - apply IH, IH, shr_1_nonneg, H.
  - apply IH, IH, H.
  - apply shr_1_nonneg, H.
Qed.

Lemma digits_unique (p : positive) (k : Z) :
  2 ^ (k - 1) <= Z.pos p < 2 ^ k -> Z.pos (digits2_pos p) = k.
Proof.
  intros [H1 H2].
  pose proof (pos_lt_pow2_digits p) as H3. pose proof (pow2_digits_le_pos p) as H4.
  assert (Hd : 0 < Z.pos (digits2_pos p)) by lia.
  generalize dependent (Z.pos (digits2_pos p)). intros d H3 H4 Hd.
  assert (0 < k).
  { destruct (Z.lt_trichotomy k 0) as [Hk|[->|Hk]]; [|simpl in H2; lia|exact Hk].
    rewrite (Z.pow_neg_r 2 k Hk) in H2. lia. }
  assert (d - 1 < k) by (apply (Z.pow_lt_mono_r_iff 2); lia).
  assert (k - 1 < d) by (apply (Z.pow_lt_mono_r_iff 2); lia).
  lia.
Qed.

(** The shift to the format's exponent, for a mantissa of more than 53
    digits well above the subnormal range. *)
Lemma shr_fexp_wide (m : positive) (e : Z) (l : location) :
  prec < Z.pos (digits2_pos m) -> 0 <= e ->
  exists m' : positive,
    shr_m (fst (shr_fexp prec emax (Z.pos m) e l)) = Z.pos m' /\
    Z.pos (digits2_pos m') = prec /\
    snd (shr_fexp prec emax (Z.pos m) e l) = e + (Z.pos (digits2_pos m) - prec).
Proof.
  intros Hd He. unfold shr_fexp, shr. cbn [Zdigits2].
  set (d := Z.pos (digits2_pos m)) in *.
  assert (Hn : fexp prec emax (d + e) - e = d - prec)
    by (unfold fexp, SpecFloat.emin, prec, emax in *; lia).
  rewrite Hn. destruct (d - prec) as [|q|q] eqn:Hq; try lia. cbn [fst snd].
  pose proof (iter_shr_1_digits q (shr_record_of_loc (Z.pos m) l)) as Hdig.
  pose proof (iter_shr_1_nonneg q (shr_record_of_loc (Z.pos m) l)) as Hpos.
  rewrite shr_record_of_loc_m in Hdig, Hpos. cbn [Zdigits2] in Hdig. fold d in Hdig.
  specialize (Hpos ltac:(lia)).
  destruct (shr_m (SpecFloat.iter_pos shr_1 q (shr_record_of_loc (Z.pos m) l)))
    as [|m'|m']; cbn [Zdigits2] in Hdig; unfold prec in *; try lia.
  exists m'. split; [reflexivity|]. split; [lia | reflexivity].
Qed.

(** The same shift leaves a mantissa of exactly 53 digits alone. *)
Lemma shr_fexp_fit (m : positive) (e : Z) (l : location) :
  Z.pos (digits2_pos m) = prec -> 0 <= e ->
  shr_fexp prec emax (Z.pos m) e l = (shr_record_of_loc (Z.pos m) l, e).
Proof.
  intros Hd He. unfold shr_fexp, shr. cbn [Zdigits2]. rewrite Hd.
  assert (Hn : fexp prec emax (prec + e) - e = 0)
    by (unfold fexp, SpecFloat.emin, prec, emax in *; lia).
  rewrite Hn. reflexivity.
Qed.

(** Rounding to nearest keeps a 53-digit mantissa, or carries into
    [2^53]. *)
Lemma round_nearest_even_digits (m : positive) (l : location) :
  Z.pos (digits2_pos m) = prec ->
  exists m' : positive,
    round_nearest_even (Z.pos m) l = Z.pos m' /\
    (Z.pos (digits2_pos m') = prec \/ Z.pos (digits2_pos m') = prec + 1).
Proof.
  intros Hd.
  pose proof (pos_lt_pow2_digits m) as H1. pose proof (pow2_digits_le_pos m) as H2.
  rewrite Hd in H1, H2.
  assert (Hsame : exists m' : positive, Z.pos m = Z.pos m' /\
            (Z.pos (digits2_pos m') = prec \/ Z.pos (digits2_pos m') = prec + 1))
    by (exists m; auto).
  assert (Hnext : exists m' : positive, Z.pos m + 1 = Z.pos m' /\
            (Z.pos (digits2_pos m') = prec \/ Z.pos (digits2_pos m') = prec + 1)).
  { exists (m + 1)%positive. split; [lia|].
    destruct (Z.eq_dec (Z.pos m + 1) (2 ^ prec)) as [Heq|Hne].
    - right. apply digits_unique.
      replace (prec + 1 - 1) with prec by lia.
      rewrite Pos2Z.inj_add, Heq. unfold prec. lia.
    - left. apply digits_unique. rewrite Pos2Z.inj_add. lia. }
  unfold round_nearest_even. destruct l as [|[| |]]; try assumption.
  destruct (Z.even (Z.pos m)); assumption.
Qed.

(** [Number] of an integer from [2^53] on is a positive number of
    exponent above 0 with a full mantissa, or Infinity. *)
Lemma Number_large (p : positive) :
  2 ^ prec <= Z.pos p ->
  (exists m e, Number (Z.pos p) = S754_finite false m e /\ 0 < e /\
               Z.pos (digits2_pos m) = prec)
  \/ Number (Z.pos p) = S754_infinity false.
Proof.
  intros Hp.
  pose proof (pos_lt_pow2_digits p) as H1.
  set (d := Z.pos (digits2_pos p)) in *.
  assert (Hd0 : 0 < d) by (unfold d; lia).
  assert (Hd : prec < d).
  { apply (Z.pow_lt_mono_r_iff 2); lia. }
  unfold Number, binary_normalize, binary_round, shl_align. fold d.
  assert (Hn : fexp prec emax (d + 0) - 0 = d - prec)
    by (unfold fexp, SpecFloat.emin, prec, emax in *; lia).
  rewrite Hn. destruct (d - prec) as [|q|q] eqn:Hq; try lia.
  unfold binary_round_aux.
  destruct (shr_fexp_wide p 0 loc_Exact Hd ltac:(lia)) as (m1 & Hm1 & Hd1 & He1).
  destruct (shr_fexp prec emax (Z.pos p) 0 loc_Exact) as [mrs' e'].
  cbn [fst snd] in Hm1, He1. rewrite Hm1. fold d in He1.
  destruct (round_nearest_even_digits m1 (loc_of_shr_record mrs') Hd1)
    as (m2 & -> & [Hd2|Hd2]).
  - rewrite (shr_fexp_fit m2 e' loc_Exact Hd2) by lia. cbn [shr_m shr_record_of_loc].
    destruct (e' <=? emax - prec); [|right; reflexivity].
    left. exists m2, e'. split; [reflexivity|]. split; [lia | exact Hd2].
  - destruct (shr_fexp_wide m2 e' loc_Exact ltac:(lia) ltac:(lia))
      as (m3 & Hm3 & Hd3 & He3).
    destruct (shr_fexp prec emax (Z.pos m2) e' loc_Exact) as [mrs'' e''].
    cbn [fst snd] in Hm3, He3. rewrite Hm3.
    destruct (e'' <=? emax - prec); [|right; reflexivity].
    left. exists m3, e''. split; [reflexivity|]. split; [lia | exact Hd3].
Qed.

(** [Number] of a positive integer is a positive number or Infinity, and
    [Number] of the opposite integer is its opposite. *)
Lemma Number_pos (p : positive) :
  (exists m e, Number (Z.pos p) = S754_finite false m e)
  \/ Number (Z.pos p) = S754_infinity false.
Proof.
  destruct (Z.lt_ge_cases (Z.pos p) (2 ^ prec)) as [H|H].
  - destruct (Number_full_width p H) as (m & -> & _). left. eauto.
  - destruct (Number_large p H) as [(m & e & -> & _)| ->]; [left; eauto|right; reflexivity].
Qed.

Lemma Number_neg (p : positive) : Number (Z.neg p) = SFopp (Number (Z.pos p)).
Proof.
  unfold Number, binary_normalize, binary_round.
  destruct (shl_align p 0 _) as [mz ez]. unfold binary_round_aux.
  destruct (shr_fexp prec emax (Z.pos mz) ez loc_Exact) as [mrs' e'].
  destruct (shr_fexp prec emax _ e' loc_Exact) as [mrs'' e''].
  destruct (shr_m mrs''); [reflexivity| |reflexivity].
  destruct (e'' <=? emax - prec); reflexivity.
Qed.

Lemma le_Number_zero (z : Z) : le (Number z) zero = (z <=? 0).
Proof.
  destruct z as [|p|p]; [reflexivity|..].
  - destruct (Number_pos p) as [(m & e & ->)| ->]; reflexivity.
  - rewrite Number_neg.
    destruct (Number_pos p) as [(m & e & ->)| ->]; reflexivity.
Qed.

(** An integer whose [Number] is an integer below [2^53] is that
    integer. *)
Lemma BigInt_Number_small (z q : Z) :
  0 <= z -> BigInt (Number z) = Some q -> q < 2 ^ prec -> q = z.
Proof.
  intros Hz Hq Hlt. destruct (Z.lt_ge_cases z (2 ^ prec)) as [H|H].
  - rewrite BigInt_Number in Hq by lia. congruence.
  - destruct z as [|p|p]; [unfold prec in H; lia| |lia].
    destruct (Number_large p H) as [(m & e & Hn & He & Hd)|Hn]; rewrite Hn in Hq.
    + cbn [BigInt] in Hq. destruct (Z.leb_spec 0 e); [|lia].
      injection Hq as <-. cbn [mantissa cond_Zopp] in Hlt.
      pose proof (pow2_digits_le_pos m) as Hm. rewrite Hd in Hm.
      rewrite Z.shiftl_mul_pow2 in Hlt by lia.
      assert (2 ^ 1 <= 2 ^ e) by (apply Z.pow_le_mono_r; lia).
      unfold prec in *. nia.
    + discriminate Hq.
Qed.

(** Only a positive integer has a positive [Number]. *)
Lemma BigInt_Number_sign (z q : Z) :
  BigInt (Number z) = Some q -> 0 < q -> 0 < z.
Proof.
  intros Hq Hpos. destruct z as [|p|p]; [|lia|exfalso].
  - cbn in Hq. injection Hq as <-. lia.
  - rewrite Number_neg in Hq.
    destruct (Number_pos p) as [(m & e & Hn)|Hn]; rewrite Hn in Hq;
      cbn [SFopp BigInt negb mantissa cond_Zopp] in Hq; [|discriminate Hq].
    destruct (0 <=? e).
    + injection Hq as <-.
      apply Z.lt_le_incl, Z.shiftl_nonneg in Hpos. lia.
    + destruct (Z.land (Z.pos m) (Z.ones (- e)) =? 0); [|discriminate Hq].
      injection Hq as <-.
      apply Z.lt_le_incl, Z.shiftr_nonneg in Hpos. lia.
Qed.

End ExactFloats.

(* ===================================================================== *)
(** * More on the orchestrator *)
(* ===================================================================== *)

Section OrchestratorShape.
Variable w : World.

(** Every run of [invokeContract] leaves the store alone and makes its
    calls in the fixed order fetch, simulate, sign, send, poll. *)
Lemma invokeContract_shape (fuel : nat)
    (walletAddress contractId method : string) (params : list ScVal) (st : State) :
  exists evs n,
    snd (invokeContract w fuel walletAddress contractId method params st)
      = advance st evs n /\
    orchestration w walletAddress contractId method params evs.
Proof.
  run_call.
  destruct (strkey_valid w contractId).
  2:{ exists [], 0%nat. rewrite advance_nil. split; [reflexivity|]. left. reflexivity. }
  cbn. destruct (rpc_getAccount w walletAddress) as [e|account] eqn:Ha; cbn.
  { exists [EvGetAccount walletAddress], 0%nat. rewrite log_advance.
    split; [reflexivity|]. right. left. reflexivity. }
  fold (operation_of contractId method params).
  fold (built account contractId method params).
  set (tx := built account contractId method params).
  destruct (rpc_simulateTransaction w tx) as [e|[diag|result fee]] eqn:Hs; cbn.
  { rewrite !log_advance, advance_advance. eexists _, _. split; [reflexivity|].
    right. right. exists account. split; [exact Ha|]. left. reflexivity. }
  { rewrite !log_advance, advance_advance. eexists _, _. split; [reflexivity|].
    right. right. exists account. split; [exact Ha|]. left. reflexivity. }
  set (asm := assembleTransaction tx result fee).
  destruct (freighter_signTransaction w asm walletAddress) as [e|signed] eqn:Hg; cbn.
  { rewrite !log_advance, !advance_advance. eexists _, _. split; [reflexivity|].
    right. right. exists account. split; [exact Ha|]. right.
    exists result, fee. split; [exact Hs|]. left. reflexivity. }
  assert (Hsent : forall tail n,
             forallb is_poll tail = true ->
             exists evs' n',
               advance st (submission walletAddress tx result fee signed ++ tail) n
               = advance st evs' n' /\
               orchestration w walletAddress contractId method params evs').
  { intros tail n H. eexists _, _. split; [reflexivity|].
    right. right. exists account. split; [exact Ha|]. right.
    exists result, fee. split; [exact Hs|]. right.
    exists signed, tail. split; [exact Hg|]. split; [reflexivity|exact H]. }
  assert (Hst0 : log (EvSend signed) (log (EvSign asm walletAddress)
                   (log (EvSimulate tx) (log (EvGetAccount walletAddress) st)))
                 = advance st (submission walletAddress tx result fee signed ++ []) 0).
  { rewrite !log_advance, !advance_advance. reflexivity. }
  destruct (rpc_sendTransaction w signed) as [e|sendResponse]; cbn.
  { rewrite Hst0. apply Hsent. reflexivity. }
  destruct (send_status sendResponse);
    try (rewrite Hst0; apply Hsent; reflexivity).
  cbn [polls log].
  set (st1 := {| trace := _; polls := _; db := _ |}).
  assert (Hst1 : st1 = advance st (submission walletAddress tx result fee signed
                                  ++ [EvGetTransaction (send_hash sendResponse)]) 1).
  { subst st1. unfold log, advance, submission; cbn. rewrite <- !app_assoc.
    f_equal. lia. }
  destruct (rpc_getTransaction w (send_hash sendResponse) (polls st)) as [e|r]; cbn.
  { rewrite Hst1. apply Hsent. reflexivity. }
  destruct (pollWhileNotFound_events w fuel (send_hash sendResponse) r st1)
    as (evs & n & Heq & Hall).
  destruct (pollWhileNotFound w fuel (send_hash sendResponse) r st1) as [[r'|e|] st2];
    cbn [snd] in Heq; subst st2;
    try (destruct r' as [|[rv|]|]); cbn [snd];
    rewrite Hst1, advance_advance, <- app_assoc; apply Hsent;
    cbn [forallb is_poll app]; exact Hall.
Qed.

End OrchestratorShape.

Section OrchestratorMore.
Variable w : World.

Lemma polls_count (p : Event -> bool) (tail : list Event) :
  (forall ev, is_poll ev = true -> p ev = false) ->
  forallb is_poll tail = true -> count p tail = 0%nat.
Proof.
  intros Hp. unfold count.
  induction tail as [|ev tail IH]; [reflexivity|]. cbn [forallb List.filter].
  intros [H1 H2]%andb_prop. rewrite (Hp ev H1). apply IH. exact H2.
Qed.

Lemma count_app (p : Event -> bool) (l1 l2 : list Event) :
  count p (l1 ++ l2) = (count p l1 + count p l2)%nat.
Proof. unfold count. rewrite List.filter_app, length_app. reflexivity. Qed.

Lemma polls_not_send (tail : list Event) (tx : Transaction) :
  forallb is_poll tail = true -> ~ In (EvSend tx) tail.
Proof.
  intros Hall Hin. rewrite forallb_forall in Hall.
  specialize (Hall _ Hin). discriminate.
Qed.

(** X1. One call of [invokeContract] simulates, asks for a signature and
    submits at most once each, and what it submits is the envelope the
    wallet returned for the assembled transaction of a simulation that
    reported no error; the store is not touched. *)
Theorem invokeContract_submits_once (fuel : nat)
    (walletAddress contractId method : string) (params : list ScVal) (st : State) :
  exists evs n,
    snd (invokeContract w fuel walletAddress contractId method params st)
      = advance st evs n /\
    (count is_simulate evs <= 1)%nat /\
    (count is_sign evs <= 1)%nat /\
    (count is_send evs <= 1)%nat /\
    (forall tx,
        In (EvSend tx) evs ->
        exists account result fee,
          rpc_getAccount w walletAddress = inr account /\
          rpc_simulateTransaction w (built account contractId method params)
            = inr (SimulationSuccess result fee) /\
          freighter_signTransaction w
            (assembleTransaction (built account contractId method params) result fee)
            walletAddress = inr tx) /\
    db (snd (invokeContract w fuel walletAddress contractId method params st)) = db st.
Proof.
  destruct (invokeContract_shape w fuel walletAddress contractId method params st)
    as (evs & n & Heq & Hshape).
  exists evs, n. split; [exact Heq|]. rewrite Heq.
  assert (Hdb : db (advance st evs n) = db st) by reflexivity.
  destruct Hshape as [->|[->|(account & Ha & Hshape)]].
  { repeat split; cbn; try lia; try (intros tx H; intuition discriminate). }
  { repeat split; cbn; try lia; try (intros tx H; intuition discriminate). }
  cbn zeta in Hshape.
  destruct Hshape as [->|(result & fee & Hs & Hshape)].
  { repeat split; cbn; try lia; try (intros tx H; intuition discriminate). }
  cbn zeta in Hshape.
  destruct Hshape as [->|(signed & tail & Hg & -> & Hpoll)].
  { repeat split; cbn; try lia; try (intros tx H; intuition discriminate). }
  assert (Hsim : count is_simulate tail = 0%nat)
    by (apply polls_count; [intros [] ?; try discriminate; reflexivity | exact Hpoll]).
  assert (Hsig : count is_sign tail = 0%nat)
    by (apply polls_count; [intros [] ?; try discriminate; reflexivity | exact Hpoll]).
  assert (Hsnd : count is_send tail = 0%nat)
    by (apply polls_count; [intros [] ?; try discriminate; reflexivity | exact Hpoll]).
  rewrite !count_app, Hsim, Hsig, Hsnd. unfold submission.
  repeat split; cbn; try lia.
  intros tx [H|[H|[H|[H|H]]]]; try discriminate H.
  - inversion H; subst tx. exists account, result, fee. auto.
  - exfalso. exact (polls_not_send tail tx Hpoll H).
Qed.

(** X2. A failure before or at submission ends the call at once and is
    rethrown as it is: a malformed contract identifier throws before any
    call leaves the page, an account that cannot be fetched throws after
    the fetch alone, and a wallet that declines throws after fetch,
    simulation and the signing request, with nothing submitted. *)
Theorem invokeContract_stops_at_first_failure (fuel : nat)
    (walletAddress contractId method : string) (params : list ScVal) (st : State) :
  (strkey_valid w contractId = false ->
   invokeContract w fuel walletAddress contractId method params st
     = (Throw (SdkError "Invalid contract ID"), st))
  /\
  (forall e,
      strkey_valid w contractId = true ->
      rpc_getAccount w walletAddress = inl e ->
      invokeContract w fuel walletAddress contractId method params st
        = (Throw e, advance st [EvGetAccount walletAddress] 0))
  /\
  (forall account result fee e,
      strkey_valid w contractId = true ->
      rpc_getAccount w walletAddress = inr account ->
      rpc_simulateTransaction w (built account contractId method params)
        = inr (SimulationSuccess result fee) ->
      freighter_signTransaction w
        (assembleTransaction (built account contractId method params) result fee)
        walletAddress = inl e ->
      invokeContract w fuel walletAddress contractId method params st
        = (Throw e,
           advance st
             [EvGetAccount walletAddress;
              EvSimulate (built account contractId method params);
              EvSign (assembleTransaction
                        (built account contractId method params) result fee)
                     walletAddress] 0))
  /\
  (forall account result fee signed e,
      strkey_valid w contractId = true ->
      rpc_getAccount w walletAddress = inr account ->
      rpc_simulateTransaction w (built account contractId method params)
        = inr (SimulationSuccess result fee) ->
      freighter_signTransaction w
        (assembleTransaction (built account contractId method params) result fee)
        walletAddress = inr signed ->
      rpc_sendTransaction w signed = inl e ->
      invokeContract w fuel walletAddress contractId method params st
        = (Throw e,
           advance st
             (submission walletAddress (built account contractId method params)
                result fee signed) 0)).
Proof.
  unfold built, submission. repeat split.
  - intros Hc. run_call. rewrite Hc. reflexivity.
  - intros e Hc Ha. run_call. rewrite Hc. cbn. rewrite Ha. cbn.
    rewrite log_advance. reflexivity.
  - intros account result fee e Hc Ha Hs Hg. run_call.
    rewrite Hc. cbn. rewrite Ha. cbn. unfold operation_of in Hs, Hg.
    rewrite Hs. cbn. rewrite Hg. cbn.
    rewrite !log_advance, !advance_advance. reflexivity.
  - intros account result fee signed e Hc Ha Hs Hg Hd. run_call.
    rewrite Hc. cbn. rewrite Ha. cbn. unfold operation_of in Hs, Hg.
    rewrite Hs. cbn. rewrite Hg. cbn. rewrite Hd. cbn.
    rewrite !log_advance, !advance_advance. reflexivity.
Qed.

End OrchestratorMore.

Lemma invokeContract_stops_at_first_failure_witness :
  invokeContract unfunded 0 buyer "token" "mint" [] (initial market)
    = (Throw (SdkError "Invalid contract ID"), initial market) /\
  invokeContract unfunded 0 buyer token "mint" [] (initial market)
    = (Throw (RpcError "Account not found"),
       advance (initial market) [EvGetAccount buyer] 0) /\
  fst (invokeContract declining 0 buyer token "mint" [] (initial market))
    = Throw (WalletError "The user rejected this request.") /\
  count is_send
    (trace (snd (invokeContract declining 0 buyer token "mint" [] (initial market))))
    = 0%nat.
Proof.
  split; [|split; [|split]].
  - exact (proj1 (invokeContract_stops_at_first_failure unfunded 0 buyer "token"
                    "mint" [] (initial market)) eq_refl).
  - exact (proj1 (proj2 (invokeContract_stops_at_first_failure unfunded 0 buyer token
                           "mint" [] (initial market)))
                 (RpcError "Account not found") eq_refl eq_refl).
  - rewrite (proj1 (proj2 (proj2 (invokeContract_stops_at_first_failure declining 0
                                    buyer token "mint" [] (initial market))))
                   (account_of buyer) _ _ (WalletError "The user rejected this request.")
                   eq_refl eq_refl eq_refl eq_refl).
    reflexivity.
  - rewrite (proj1 (proj2 (proj2 (invokeContract_stops_at_first_failure declining 0
                                    buyer token "mint" [] (initial market))))
                   (account_of buyer) _ _ (WalletError "The user rejected this request.")
                   eq_refl eq_refl eq_refl eq_refl).
    reflexivity.
Defined.

Lemma invokeContract_submits_once_witness :
  exists account result fee,
    rpc_getAccount (settles_after 0 (SUCCESS None)) buyer = inr account /\
    rpc_simulateTransaction (settles_after 0 (SUCCESS None))
      (built account token "mint" []) = inr (SimulationSuccess result fee) /\
    freighter_signTransaction (settles_after 0 (SUCCESS None))
      (assembleTransaction (built account token "mint" []) result fee) buyer
    = inr (sign_as (assembleTransaction (built (account_of buyer) token "mint" [])
                      (Some {| auth := []; retval := scvVoid |}) 1000) buyer).
Proof.
  destruct (invokeContract_submits_once (settles_after 0 (SUCCESS None)) 0 buyer token
              "mint" [] (initial market)) as (evs & n & Heq & _ & _ & _ & Hsend & _).
  apply Hsend.
  assert (Htrace : trace (snd (invokeContract (settles_after 0 (SUCCESS None)) 0 buyer
                                 token "mint" [] (initial market)))
                   = trace (advance (initial market) evs n)) by (rewrite Heq; reflexivity).
  cbn [advance trace initial app] in Htrace. rewrite <- Htrace.
  vm_compute. right. right. right. left. reflexivity.
Defined.

(* ===================================================================== *)
(** * The contract calls of contractService.ts *)
(* ===================================================================== *)

Section ServiceCalls.
Variable w : World.

Lemma bind_lift_inr {A B} (a : A) (k : A -> M B) (st : State) :
  bind (lift (inr a)) k st = k a st.
Proof. reflexivity. Qed.

Lemma bind_lift_inl {A B} (e : JsError) (k : A -> M B) (st : State) :
  bind (lift (inl e)) k st = (Throw e, st).
Proof. reflexivity. Qed.

Lemma addressToScVal_valid (a : string) :
  strkey_valid w a = true -> addressToScVal w a = inr (scvAddress a).
Proof. intros H. unfold addressToScVal. rewrite H. reflexivity. Qed.

Lemma numberToScVal_not_integral (x : number) :
  not_integral x ->
  numberToScVal x = inl (SdkError "RangeError: cannot be converted to a BigInt").
Proof. intros H. unfold numberToScVal. rewrite H. reflexivity. Qed.

(** X3. [mintTokens], [purchaseTokens], [transferTokens] and [burnTokens]
    encode their arguments before anything else: when an address is
    rejected or the amount cannot be converted to a 128-bit integer, the
    call throws that error and no call leaves the page. *)
Theorem token_calls_reject_bad_arguments (fuel : nat) (st : State) (e : JsError) :
  (forall buyerAddress contractId toAddress amount xlmTokenAddress,
      first_error [addressToScVal w toAddress; numberToScVal amount;
                   addressToScVal w xlmTokenAddress] = Some e ->
      mintTokens w fuel buyerAddress contractId toAddress amount xlmTokenAddress st
        = (Throw e, st))
  /\
  (forall buyerAddress contractId amount,
      first_error [addressToScVal w buyerAddress; numberToScVal amount] = Some e ->
      purchaseTokens w fuel buyerAddress contractId amount st = (Throw e, st))
  /\
  (forall fromAddress toAddress contractId amount,
      first_error [addressToScVal w fromAddress; addressToScVal w toAddress;
                   numberToScVal amount] = Some e ->
      transferTokens w fuel fromAddress toAddress contractId amount st
        = (Throw e, st))
  /\
  (forall walletAddress contractId amount,
      first_error [addressToScVal w walletAddress; numberToScVal amount] = Some e ->
      burnTokens w fuel walletAddress contractId amount st = (Throw e, st)).
Proof.
  unfold mintTokens, purchaseTokens, transferTokens, burnTokens.
  repeat split; intros; cbn [first_error] in *;
    repeat match goal with
           | H : context [match ?enc with inl _ => _ | inr _ => _ end] |- _ =>
               destruct enc as [?e|?v]; cbn [first_error] in H;
               [injection H as ->; rewrite ?bind_lift_inr; apply bind_lift_inl
               |rewrite ?bind_lift_inr]
           end;
    discriminate.
Qed.

(** X4. With well-formed addresses and a whole quantity [n] below [2^53],
    each token call is one [invokeContract] signed by its first address
    argument, and the contract receives exactly the integer [n]:
    [mint (to, n, xlm)] and [purchase (buyer, n)] signed by the buyer,
    [transfer (from, to, n)] signed by the sender, [burn (wallet, n)]
    signed by the holder. *)
Theorem token_calls_carry_whole_quantities (fuel : nat) (st : State) (n : Z) :
  0 <= n < 2 ^ 53 ->
  (forall buyerAddress contractId toAddress xlmTokenAddress,
      strkey_valid w toAddress = true ->
      strkey_valid w xlmTokenAddress = true ->
      mintTokens w fuel buyerAddress contractId toAddress (Number n) xlmTokenAddress st
      = (invokeContract w fuel buyerAddress contractId "mint"
           [scvAddress toAddress; scvI128 n; scvAddress xlmTokenAddress] ;;;
         ret tt) st)
  /\
  (forall buyerAddress contractId,
      strkey_valid w buyerAddress = true ->
      purchaseTokens w fuel buyerAddress contractId (Number n) st
      = (invokeContract w fuel buyerAddress contractId "purchase"
           [scvAddress buyerAddress; scvI128 n] ;;;
         ret tt) st)
  /\
  (forall fromAddress toAddress contractId,
      strkey_valid w fromAddress = true ->
      strkey_valid w toAddress = true ->
      transferTokens w fuel fromAddress toAddress contractId (Number n) st
      = (invokeContract w fuel fromAddress contractId "transfer"
           [scvAddress fromAddress; scvAddress toAddress; scvI128 n] ;;;
         ret tt) st)
  /\
  (forall walletAddress contractId,
      strkey_valid w walletAddress = true ->
      burnTokens w fuel walletAddress contractId (Number n) st
      = (invokeContract w fuel walletAddress contractId "burn"
           [scvAddress walletAddress; scvI128 n] ;;;
         ret tt) st).
Proof.
  intros Hn. pose proof (quantity_encoding n Hn) as Hq.
  unfold mintTokens, purchaseTokens, transferTokens, burnTokens.
  repeat split; intros;
    rewrite ?addressToScVal_valid by assumption; rewrite Hq; reflexivity.
Qed.

Lemma is_floor_of_unique (x : number) (z1 z2 : Z) :
  is_floor_of x z1 -> is_floor_of x z2 -> z1 = z2.
Proof.
  destruct x as [s|s| |s m e]; cbn; try tauto; try congruence.
  destruct (0 <=? e); [congruence|].
  assert (0 < 2 ^ (- e) \/ 2 ^ (- e) = 0) as [Hp| ->] by
      (pose proof (Z.pow_nonneg 2 (- e)); lia); nia.
Qed.

(** X5. [transferTokensWithPayment] with well-formed addresses, a whole
    quantity [n] below [2^53] and a non-negative price whose scaled value
    fits 128 bits is one [invokeContract] of [transfer_with_payment] signed
    by the buyer, with the arguments seller, buyer, [n], the floor of
    price times 10_000_000, and the payment token. *)
Theorem resale_call_arguments (fuel : nat) (st : State)
    (buyerAddress sellerAddress contractId xlmTokenAddress : string)
    (n : Z) (pricePerToken : number) (z : Z) :
  strkey_valid w sellerAddress = true ->
  strkey_valid w buyerAddress = true ->
  strkey_valid w xlmTokenAddress = true ->
  0 <= n < 2 ^ 53 ->
  is_amount pricePerToken = true ->
  is_floor_of (mul pricePerToken TEN_MILLION) z ->
  z < 2 ^ 127 ->
  transferTokensWithPayment w fuel buyerAddress sellerAddress contractId
    (Number n) pricePerToken xlmTokenAddress st
  = (invokeContract w fuel buyerAddress contractId "transfer_with_payment"
       [scvAddress sellerAddress; scvAddress buyerAddress; scvI128 n; scvI128 z;
        scvAddress xlmTokenAddress] ;;;
     ret tt) st.
Proof.
  intros Hs Hb Hx Hn Ha Hfl Hz.
  assert (Hfin : is_finite (mul pricePerToken TEN_MILLION) = true)
    by (destruct (mul pricePerToken TEN_MILLION); cbn in Hfl; tauto).
  destruct (floor_of_nonneg _ (mul_amount_shape pricePerToken Ha Hfin))
    as (z' & Hz' & Hfl' & Hbig).
  assert (z' = z) by (eapply is_floor_of_unique; eassumption). subst z'.
  unfold transferTokensWithPayment.
  rewrite !addressToScVal_valid by assumption.
  rewrite (quantity_encoding n Hn).
  unfold stroops in *.
  rewrite (numberToScVal_of_BigInt _ z Hbig) by lia.
  reflexivity.
Qed.

End ServiceCalls.

Lemma token_calls_reject_bad_arguments_witness :
  mintTokens unfunded 0 buyer token buyer (literal 3 2) XLM_TOKEN_ADDRESS
    (initial market)
    = (Throw (SdkError "RangeError: cannot be converted to a BigInt"),
       initial market) /\
  transferTokens unfunded 0 buyer "seller" token (Number 5) (initial market)
    = (Throw (SdkError "Unsupported address type"), initial market).
Proof.
  split.
  - apply (proj1 (token_calls_reject_bad_arguments unfunded 0 (initial market) _)).
    vm_compute. reflexivity.
  - apply (proj1 (proj2 (proj2 (token_calls_reject_bad_arguments unfunded 0
                                  (initial market) _)))).
    vm_compute. reflexivity.
Defined.

Lemma token_calls_carry_whole_quantities_witness :
  0 <= 40 < 2 ^ 53 /\
  mintTokens (settles_after 0 (SUCCESS None)) 0 buyer token buyer (Number 40)
    XLM_TOKEN_ADDRESS (initial market)
  = (invokeContract (settles_after 0 (SUCCESS None)) 0 buyer token "mint"
       [scvAddress buyer; scvI128 40; scvAddress XLM_TOKEN_ADDRESS] ;;;
     ret tt) (initial market).
Proof.
  assert (H : 0 <= 40 < 2 ^ 53) by (vm_compute; split; [discriminate|reflexivity]).
  split; [exact H|].
  apply (proj1 (token_calls_carry_whole_quantities (settles_after 0 (SUCCESS None))
                  0 (initial market) 40 H)); reflexivity.
Defined.

Lemma resale_call_arguments_witness :
  transferTokensWithPayment (settles_after 0 (SUCCESS None)) 0 buyer seller token
    (Number 40) (literal 41 100) XLM_TOKEN_ADDRESS (initial market)
  = (invokeContract (settles_after 0 (SUCCESS None)) 0 buyer token
       "transfer_with_payment"
       [scvAddress seller; scvAddress buyer; scvI128 40; scvI128 4099999;
        scvAddress XLM_TOKEN_ADDRESS] ;;;
     ret tt) (initial market).
Proof.
  apply resale_call_arguments; try reflexivity.
  - vm_compute. split; [discriminate | reflexivity].
  - vm_compute. split; [discriminate | reflexivity].
Defined.

(* ===================================================================== *)
(** * Quantities across the contract boundary, and the on-chain reads *)
(* ===================================================================== *)

(** X6. What [numberToScVal] encodes, [bigIntToNumber] decodes back to the
    same number: for every binary64 value [x] the encoder accepts, decoding
    the native form of the result gives [x] again (for [-0], which is
    encoded as the integer 0, it gives [+0]).  Conversely a ledger integer
    below [2^53] survives decoding and encoding again. *)
Theorem quantity_codec_round_trip :
  (forall (x : number) (v : ScVal),
      valid_binary prec emax x = true ->
      numberToScVal x = inr v ->
      bigIntToNumber (scValToNative v)
        = match x with S754_zero true => zero | _ => x end)
  /\
  (forall z : Z,
      0 <= z < 2 ^ 53 ->
      numberToScVal (bigIntToNumber (scValToNative (scvI128 z))) = inr (scvI128 z)).
Proof.
  split.
  - intros x v Hvalid Henc. unfold numberToScVal in Henc.
    destruct (BigInt x) as [z|] eqn:Hz; [|discriminate].
    destruct ((- 2 ^ 127 <=? z) && (z <? 2 ^ 127)); [|discriminate].
    injection Henc as <-. cbn [scValToNative bigIntToNumber].
    destruct x as [[|]|s| |s m e]; try discriminate.
    + cbn in Hz. injection Hz as <-. reflexivity.
    + cbn in Hz. injection Hz as <-. reflexivity.
    + apply Number_of_BigInt; [exact Hvalid|discriminate|exact Hz].
  - intros z Hz. cbn [scValToNative bigIntToNumber]. apply quantity_encoding. exact Hz.
Qed.

Lemma quantity_codec_round_trip_witness :
  bigIntToNumber (scValToNative (scvI128 12000000)) = mul (Number 12) (Number 1000000)
  /\ numberToScVal (bigIntToNumber (scValToNative (scvI128 1000))) = inr (scvI128 1000).
Proof.
  split.
  - apply (proj1 quantity_codec_round_trip (mul (Number 12) (Number 1000000))
             (scvI128 12000000)); vm_compute; reflexivity.
  - apply (proj2 quantity_codec_round_trip 1000).
    vm_compute. split; [discriminate|reflexivity].
Defined.

Section Reads.
Variable w : World.

Lemma forallb_is_read_app (l1 l2 : list Event) :
  forallb is_read l1 = true -> forallb is_read l2 = true ->
  forallb is_read (l1 ++ l2) = true.
Proof. intros H1 H2. rewrite forallb_app, H1, H2. reflexivity. Qed.

(** A read-only query settles, touches neither the store nor the poll
    counter, and only fetches and simulates. *)
Lemma readContract_outcome (contractId method : string) (params : list ScVal)
    (st : State) :
  exists o evs,
    readContract w contractId method params st = (o, advance st evs 0) /\
    o <> Unsettled /\ forallb is_read evs = true.
Proof.
  run_call. destruct (strkey_valid w contractId); cbn.
  2:{ eexists _, []. rewrite advance_nil. repeat split; discriminate. }
  destruct (rpc_getAccount w DUMMY_ACCOUNT) as [e|account]; cbn.
  { eexists _, [_]. rewrite log_advance. repeat split; discriminate. }
  match goal with |- context [rpc_simulateTransaction w ?t] => set (tx := t) end.
  destruct (rpc_simulateTransaction w tx) as [e|[diag|result fee]]; cbn;
    rewrite !log_advance, advance_advance;
    eexists _, [_; _]; (split; [reflexivity|]); split; try discriminate; reflexivity.
Qed.

Lemma readContract_answer (contractId method : string) (params : list ScVal)
    (st : State) account a v fee :
  strkey_valid w contractId = true ->
  rpc_getAccount w DUMMY_ACCOUNT = inr account ->
  rpc_simulateTransaction w (built account contractId method params)
    = inr (SimulationSuccess (Some {| auth := a; retval := v |}) fee) ->
  readContract w contractId method params st
    = (Return (scValToNative v),
       advance st [EvGetAccount DUMMY_ACCOUNT;
                   EvSimulate (built account contractId method params)] 0).
Proof.
  intros Hc Ha Hs. unfold built, operation_of in *. run_call.
  rewrite Hc. cbn. rewrite Ha. cbn. rewrite Hs. cbn.
  rewrite !log_advance, advance_advance. reflexivity.
Qed.

Lemma getCompanyInfo_outcome (contractId : string) (st : State) :
  exists info evs,
    getCompanyInfo w contractId st = (Return info, advance st evs 0) /\
    forallb is_read evs = true.
Proof.
  unfold getCompanyInfo, try_catch, bind.
  destruct (readContract_outcome contractId "get_company_info" [] st)
    as (o & evs & -> & Ho & Hevs).
  destruct o as [result|e|]; [| |congruence].
  - destruct (negb (truthy result)); eexists _, evs; split; try reflexivity; exact Hevs.
  - eexists _, evs; split; [reflexivity | exact Hevs].
Qed.

Lemma getTokenBalance_outcome (contractId address : string) (st : State) :
  exists balance evs,
    getTokenBalance w contractId address st = (Return balance, advance st evs 0) /\
    forallb is_read evs = true.
Proof.
  unfold getTokenBalance, try_catch, bind at 1, lift.
  destruct (addressToScVal w address) as [e|p0]; cbn [of_sum].
  { eexists _, []. rewrite advance_nil. split; reflexivity. }
  unfold bind.
  destruct (readContract_outcome contractId "balance_of" [p0] st)
    as (o & evs & -> & Ho & Hevs).
  destruct o as [result|e|]; [| |congruence];
    eexists _, evs; split; try reflexivity; exact Hevs.
Qed.

(** X7. The on-chain reads of the pages never fail: [getCompanyInfo],
    [getTokenBalance] and the per-company loader of the home page always
    return a value, whatever the ledger answers, and on the way they only
    fetch an account and simulate: nothing is signed, submitted or polled
    and the store is not touched.  The loader always returns the metadata
    it was given. *)
Theorem reads_never_fail (st : State) :
  (forall contractId,
      exists info evs,
        getCompanyInfo w contractId st = (Return info, advance st evs 0) /\
        forallb is_read evs = true)
  /\
  (forall contractId address,
      exists balance evs,
        getTokenBalance w contractId address st = (Return balance, advance st evs 0) /\
        forallb is_read evs = true)
  /\
  (forall meta,
      exists company evs,
        loadCompany w meta st = (Return company, advance st evs 0) /\
        forallb is_read evs = true /\
        metadata company = meta).
Proof.
  split; [exact (fun c => getCompanyInfo_outcome c st)|].
  split; [exact (fun c a => getTokenBalance_outcome c a st)|].
  intros meta. unfold loadCompany, try_catch, bind at 1.
  destruct (getCompanyInfo_outcome (contractId meta) st) as (info & evs1 & -> & H1).
  unfold bind.
  destruct (getTokenBalance_outcome (contractId meta) (owner_wallet meta)
              (advance st evs1 0)) as (balance & evs2 & -> & H2).
  unfold ret. rewrite advance_advance.
  eexists _, (evs1 ++ evs2)%list. split; [reflexivity|].
  split; [apply forallb_is_read_app; assumption | reflexivity].
Qed.

(** X8. When the contract reports a total supply [S] and the owner's
    balance [B] with [0 <= B <= S < 2^53], the home page computes exactly
    [S - B] tokens sold: both integers are decoded without rounding and the
    subtraction is exact.  The modal of a primary purchase then offers
    exactly the [B] tokens the owner still holds. *)
Theorem tokens_sold_is_supply_minus_owner_balance
    (meta : CompanyMetadata) (account : Account)
    (entries : list (string * ScVal)) (S B fee1 fee2 : Z)
    (auth1 auth2 : list string) (st : State) :
  strkey_valid w (contractId meta) = true ->
  strkey_valid w (owner_wallet meta) = true ->
  rpc_getAccount w DUMMY_ACCOUNT = inr account ->
  rpc_simulateTransaction w (built account (contractId meta) "get_company_info" [])
    = inr (SimulationSuccess (Some {| auth := auth1; retval := scvMap entries |}) fee1) ->
  get (scValToNative (scvMap entries)) "total_supply" = JBigInt S ->
  rpc_simulateTransaction w
    (built account (contractId meta) "balance_of" [scvAddress (owner_wallet meta)])
    = inr (SimulationSuccess (Some {| auth := auth2; retval := scvI128 B |}) fee2) ->
  0 <= B <= S -> S < 2 ^ 53 ->
  exists company st',
    loadCompany w meta st = (Return company, st') /\
    (exists info, onChainInfo company = Some info /\ total_supply info = Number S) /\
    tokensSold company = Number (S - B) /\
    BigInt (tokensSold company) = Some (S - B) /\
    HomeInvest.availableTokens company = Some (Number B).
Proof.
  intros Hc Ho Ha Hinfo Hsupply Hbal HB HS.
  unfold loadCompany, try_catch, bind at 1.
  unfold getCompanyInfo, try_catch, bind at 1.
  rewrite (readContract_answer _ _ _ st _ _ _ _ Hc Ha Hinfo).
  cbn [truthy scValToNative negb]. unfold ret at 1. unfold bind.
  unfold getTokenBalance, try_catch, bind, lift.
  rewrite (addressToScVal_valid w _ Ho). cbn [of_sum].
  rewrite (readContract_answer _ _ _ _ _ _ _ _ Hc Ha Hbal).
  unfold ret. cbn [scValToNative bigIntToNumber].
  eexists _, _. split; [reflexivity|]. cbn [onChainInfo tokensSold total_supply].
  cbn [scValToNative] in Hsupply. rewrite Hsupply. cbn [bigIntToNumber].
  split; [eexists; split; reflexivity|].
  rewrite (sub_Number S B HB HS). split; [reflexivity|].
  split; [apply BigInt_Number; unfold prec; lia|].
  unfold HomeInvest.availableTokens. cbn [onChainInfo tokensSold total_supply].
  rewrite (sub_Number S (S - B) ltac:(lia) HS).
  do 2 f_equal. lia.
Qed.

End Reads.

Lemma reads_never_fail_witness :
  exists company evs,
    loadCompany (rejecting "HostError") (company_of_row acme) (initial market)
      = (Return company, advance (initial market) evs 0) /\
    forallb is_read evs = true /\
    metadata company = company_of_row acme.
Proof.
  exact (proj2 (proj2 (reads_never_fail (rejecting "HostError") (initial market)))
           (company_of_row acme)).
Defined.

Lemma tokens_sold_is_supply_minus_owner_balance_witness :
  exists company st',
    loadCompany (holding 400) (company_of_row acme) (initial market)
      = (Return company, st') /\
    (exists info, onChainInfo company = Some info /\ total_supply info = Number 1000) /\
    tokensSold company = Number (1000 - 400) /\
    BigInt (tokensSold company) = Some (1000 - 400) /\
    HomeInvest.availableTokens company = Some (Number 400).
Proof.
  eapply (tokens_sold_is_supply_minus_owner_balance (holding 400)
            (company_of_row acme) (account_of DUMMY_ACCOUNT) _ 1000 400 0 0 [] []
            (initial market)); try reflexivity.
  vm_compute. split; discriminate.
Defined.

(* ===================================================================== *)
(** * The purchase handlers of the home page *)
(* ===================================================================== *)

Section Purchases.
Variable w : World.

Lemma invokeContract_run (fuel : nat) (walletAddress contractId method : string)
    (params : list ScVal) (st : State) :
  exists o evs n,
    invokeContract w fuel walletAddress contractId method params st
      = (o, advance st evs n) /\
    (count is_send evs <= 1)%nat /\ count is_alert evs = 0%nat.
Proof.
  destruct (invokeContract_shape w fuel walletAddress contractId method params st)
    as (evs & n & Heq & Hshape).
  destruct (invokeContract w fuel walletAddress contractId method params st)
    as [o st1]. cbn [snd] in Heq. subst st1.
  exists o, evs, n. split; [reflexivity|].
  destruct Hshape as [->|[->|(account & Ha & Hshape)]]; [cbn; lia..|].
  cbn zeta in Hshape. destruct Hshape as [->|(result & fee & Hs & Hshape)]; [cbn; lia|].
  cbn zeta in Hshape.
  destruct Hshape as [->|(signed & tail & Hg & -> & Hpoll)]; [cbn; lia|].
  rewrite !count_app.
  rewrite (polls_count is_send tail), (polls_count is_alert tail); try exact Hpoll;
    try (intros [] ?; try discriminate; reflexivity).
  cbn. lia.
Qed.

(** A contract call of the service layer: the encodings, then one
    [invokeContract]. *)
Lemma call_run (fuel : nat) (walletAddress contractId method : string)
    (params : list ScVal) (st : State) :
  exists o evs n,
    (invokeContract w fuel walletAddress contractId method params ;;; ret tt) st
      = (o, advance st evs n) /\
    (count is_send evs <= 1)%nat /\ count is_alert evs = 0%nat.
Proof.
  destruct (invokeContract_run fuel walletAddress contractId method params st)
    as (o & evs & n & Heq & Hs & Ha).
  unfold bind. rewrite Heq.
  destruct o as [v|e|]; eexists _, evs, n; (split; [reflexivity|]); auto.
Qed.

Lemma thrown_run {A} (e : JsError) (st : State) :
  exists (o : outcome A) evs n,
    (Throw e, st) = (o, advance st evs n) /\
    (count is_send evs <= 1)%nat /\ count is_alert evs = 0%nat.
Proof.
  exists (Throw e), [], 0%nat. rewrite advance_nil. repeat split. cbn. lia.
Qed.

Ltac run_encodings :=
  repeat match goal with
         | |- context [lift ?enc] =>
             destruct enc as [?e|?v];
             [rewrite ?bind_lift_inr, bind_lift_inl; apply thrown_run
             |rewrite ?bind_lift_inr]
         end;
  apply call_run.

Lemma transferTokensWithPayment_run (fuel : nat)
    (buyerAddress sellerAddress contractId : string)
    (amount pricePerToken : number) (xlmTokenAddress : string) (st : State) :
  exists o evs n,
    transferTokensWithPayment w fuel buyerAddress sellerAddress contractId
      amount pricePerToken xlmTokenAddress st = (o, advance st evs n) /\
    (count is_send evs <= 1)%nat /\ count is_alert evs = 0%nat.
Proof. unfold transferTokensWithPayment. run_encodings. Qed.

Lemma mintTokens_run (fuel : nat) (buyerAddress contractId toAddress : string)
    (amount : number) (xlmTokenAddress : string) (st : State) :
  exists o evs n,
    mintTokens w fuel buyerAddress contractId toAddress amount xlmTokenAddress st
      = (o, advance st evs n) /\
    (count is_send evs <= 1)%nat /\ count is_alert evs = 0%nat.
Proof. unfold mintTokens. run_encodings. Qed.

Lemma initializeCompany_run (fuel : nat) (walletAddress contractId : string)
    (name symbol : string) (totalSupply equityPercent : number)
    (description : string) (tokenPrice targetAmount : number) (st : State) :
  exists o evs n,
    initializeCompany w fuel walletAddress contractId name symbol totalSupply
      equityPercent description tokenPrice targetAmount st = (o, advance st evs n) /\
    (count is_send evs <= 1)%nat /\ count is_alert evs = 0%nat.
Proof. unfold initializeCompany. run_encodings. Qed.

(** X9. [handleBuyResale] never throws, and a purchase that is not
    confirmed on-chain leaves the store as it was: when the contract call
    throws, the user is shown "Purchase failed:" with the error's message
    and no listing changes; when the call is still unconfirmed, nothing is
    shown and no listing changes.  When the call is confirmed but the store
    cannot be reached, the user is also shown "Purchase failed:" and the
    listing keeps its quantity although the tokens were paid for. *)
Theorem resale_failure_leaves_listing (fuel : nat) (isConnected : bool)
    (walletAddress : option string) (selectedResale : option ResaleListing)
    (tokens : Z) (st : State) :
  (forall e, fst (handleBuyResale w fuel isConnected walletAddress selectedResale
                    tokens st) <> Throw e)
  /\
  (forall wallet selected o st1,
      isConnected = true ->
      connected walletAddress = Some wallet ->
      selectedResale = Some selected ->
      transferTokensWithPayment w fuel wallet (seller_wallet selected)
        (contract_id selected) (Number tokens) (price_per_token selected)
        XLM_TOKEN_ADDRESS st = (o, st1) ->
      match o with
      | Throw e =>
          handleBuyResale w fuel isConnected walletAddress selectedResale tokens st
          = (Return tt,
             log (EvAlert ("Purchase failed: "
                             +:+ str_or (err_message e) "Unknown error")) st1)
          /\ db st1 = db st
      | Unsettled =>
          handleBuyResale w fuel isConnected walletAddress selectedResale tokens st
          = (Unsettled, st1)
          /\ db st1 = db st
      | Return _ =>
          reachable (db st1) = false ->
          handleBuyResale w fuel isConnected walletAddress selectedResale tokens st
          = (Return tt,
             log (EvAlert "Purchase failed: TypeError: Failed to fetch") st1)
          /\ db st1 = db st
      end).
Proof.
  split.
  - intros e. unfold handleBuyResale.
    destruct isConnected; [|discriminate].
    destruct (connected walletAddress) as [wallet|]; [|discriminate].
    destruct selectedResale as [selected|]; [|discriminate].
    unfold try_catch, bind at 1.
    destruct (transferTokensWithPayment _ _ _ _ _ _ _ _ st) as [[[]|e'|] st1];
      [|discriminate|discriminate].
    destruct (0 <? tokens_for_sale selected - tokens).
    + unfold updateResaleListingQuantity, bind, query.
      destruct (update_tokens_for_sale _ _ _) as [r d]. cbv beta.
      destruct (error r); discriminate.
    + unfold deactivateResaleListing, bind, query.
      destruct (update_is_active _ _ _) as [r d]. cbv beta.
      destruct (error r); discriminate.
  - intros wallet selected o st1 -> Hw -> Ht.
    assert (Hdb : db st1 = db st).
    { destruct (transferTokensWithPayment_run fuel wallet (seller_wallet selected)
                  (contract_id selected) (Number tokens) (price_per_token selected)
                  XLM_TOKEN_ADDRESS st) as (o' & evs & n & Heq & _).
      rewrite Ht in Heq. injection Heq as _ ->. reflexivity. }
    destruct o as [[]|e|];
      [|split; [|exact Hdb]; unfold handleBuyResale; rewrite Hw;
        unfold try_catch, bind at 1; rewrite Ht; reflexivity..].
    intros Hoff. split; [|exact Hdb].
    unfold handleBuyResale. rewrite Hw. unfold try_catch, bind at 1. rewrite Ht.
    destruct (0 <? tokens_for_sale selected - tokens).
    + unfold updateResaleListingQuantity, bind, query, update_tokens_for_sale.
      cbv beta. rewrite Hoff. reflexivity.
    + unfold deactivateResaleListing, bind, query, update_is_active.
      cbv beta. rewrite Hoff. reflexivity.
Qed.

(** X10. The primary-market purchase never writes to the store and never
    throws: whatever the outcome of [handleInvest] of the home page, every
    table is as before, at most one transaction was submitted, and unless
    the confirmation is still pending the user was shown exactly one
    message.  Without a wallet or without on-chain company information that
    message is shown before any call leaves the page. *)
Theorem primary_purchase_never_touches_store (fuel : nat) (isConnected : bool)
    (walletAddress : option string)
    (selectedCompany : option CompanyWithOnChainData) (tokens : Z) (st : State) :
  exists o evs n,
    HomeInvest.handleInvest w fuel isConnected walletAddress selectedCompany tokens st
      = (o, advance st evs n) /\
    (forall e, o <> Throw e) /\
    (count is_send evs <= 1)%nat /\
    (o = Return tt -> count is_alert evs = 1%nat) /\
    ((isConnected = false \/ connected walletAddress = None \/
      selectedCompany = None \/
      (exists c, selectedCompany = Some c /\ onChainInfo c = None)) ->
     exists message, o = Return tt /\ evs = [EvAlert message] /\ n = 0%nat).
Proof.
  unfold HomeInvest.handleInvest.
  assert (Halert : forall m, exists o evs n,
             alert m st = (o, advance st evs n) /\
             (forall e, o <> Throw e) /\ (count is_send evs <= 1)%nat /\
             (o = Return tt -> count is_alert evs = 1%nat) /\
             exists message, o = Return tt /\ evs = [EvAlert message] /\ n = 0%nat).
  { intros m. exists (Return tt), [EvAlert m], 0%nat. unfold alert.
    rewrite log_advance. repeat split; try discriminate; cbn; try lia.
    exists m. repeat split. }
  destruct isConnected.
  2:{ destruct (Halert "Please connect your wallet first")
        as (o & evs & n & H1 & H2 & H3 & H4 & H5).
      exists o, evs, n. repeat split; auto. }
  destruct (connected walletAddress) as [wallet|].
  2:{ destruct (Halert "Please connect your wallet first")
        as (o & evs & n & H1 & H2 & H3 & H4 & H5).
      exists o, evs, n. repeat split; auto. }
  destruct selectedCompany as [selected|].
  2:{ destruct (Halert "Please connect your wallet first")
        as (o & evs & n & H1 & H2 & H3 & H4 & H5).
      exists o, evs, n. repeat split; auto. }
  destruct (onChainInfo selected) as [info|] eqn:Hinfo.
  2:{ destruct (Halert "Company contract not initialized")
        as (o & evs & n & H1 & H2 & H3 & H4 & H5).
      exists o, evs, n. repeat split; auto. }
  assert (Hno : (true = false \/ Some wallet = None \/
                 Some selected = None \/
                 (exists c, Some selected = Some c /\ onChainInfo c = None)) -> False).
  { intros [H|[H|[H|(c & H & Hc)]]]; try discriminate.
    injection H as <-. congruence. }
  set (ok_msg := "Investment successful! " +:+ pretty tokens
                   +:+ " tokens transferred to your wallet.").
  destruct (mintTokens_run fuel wallet (contractId (metadata selected)) wallet
              (Number tokens) XLM_TOKEN_ADDRESS st)
    as (o & evs & n & Heq & Hsend & Hal).
  unfold try_catch, bind. rewrite Heq.
  destruct o as [[]|e|]; unfold alert.
  - exists (Return tt), (evs ++ [EvAlert ok_msg])%list, n.
    rewrite log_advance, advance_advance, Nat.add_0_r.
    repeat split; try discriminate.
    + rewrite count_app. cbn. lia.
    + intros _. rewrite count_app, Hal. reflexivity.
    + intros H; destruct (Hno H).
  - exists (Return tt),
      (evs ++ [EvAlert ("Investment failed: "
                          +:+ str_or (err_message e) "Unknown error")])%list, n.
    rewrite log_advance, advance_advance, Nat.add_0_r.
    repeat split; try discriminate.
    + rewrite count_app. cbn. lia.
    + intros _. rewrite count_app, Hal. reflexivity.
    + intros H; destruct (Hno H).
  - exists Unsettled, evs, n.
    repeat split; try discriminate; try exact Hsend.
    intros H; destruct (Hno H).
Qed.

End Purchases.

Lemma resale_failure_leaves_listing_witness :
  handleBuyResale declining 0 true (Some buyer) (Some (listing_of_row first_listing))
    40 (initial market)
  = (Return tt,
     log (EvAlert "Purchase failed: The user rejected this request.")
       (snd (transferTokensWithPayment declining 0 buyer seller token (Number 40)
               (literal 1 2) XLM_TOKEN_ADDRESS (initial market))))
  /\ db (snd (transferTokensWithPayment declining 0 buyer seller token (Number 40)
                (literal 1 2) XLM_TOKEN_ADDRESS (initial market))) = market.
Proof.
  exact (proj2 (resale_failure_leaves_listing declining 0 true (Some buyer)
                  (Some (listing_of_row first_listing)) 40 (initial market))
           buyer (listing_of_row first_listing)
           (Throw (WalletError "The user rejected this request."))
           _ eq_refl eq_refl eq_refl eq_refl).
Defined.

Lemma primary_purchase_never_touches_store_witness :
  exists message,
    HomeInvest.handleInvest (settles_after 0 (SUCCESS None)) 0 true (Some buyer)
      (Some {| metadata := company_of_row acme; onChainInfo := None;
               tokensSold := zero |}) 5 (initial market)
    = (Return tt, advance (initial market) [EvAlert message] 0).
Proof.
  destruct (primary_purchase_never_touches_store (settles_after 0 (SUCCESS None)) 0
              true (Some buyer)
              (Some {| metadata := company_of_row acme; onChainInfo := None;
                       tokensSold := zero |}) 5 (initial market))
    as (o & evs & n & Hrun & _ & _ & _ & Hearly).
  destruct Hearly as (message & -> & -> & ->).
  - right. right. right. eexists. split; reflexivity.
  - exists message. exact Hrun.
Defined.

(* ===================================================================== *)
(** * Writes to the metadata store *)
(* ===================================================================== *)

Section StoreWrites.

#[local] Existing Instance listing_newer_first_total.
#[local] Existing Instance listing_newer_first_trans.

Lemma In_rows {A} (t : gmap string A) (x : A) :
  In x (rows t) <-> exists k, t !! k = Some x.
Proof.
  unfold rows. rewrite <- list_elem_of_In, list_elem_of_fmap. split.
  - intros ([k y] & -> & H%elem_of_map_to_list). exists k. exact H.
  - intros (k & H). exists (k, x). split; [reflexivity|].
    apply elem_of_map_to_list. exact H.
Qed.

Lemma filter_Permutation_bool {A} (P : A -> bool) (l l' : list A) :
  l ≡ₚ l' -> List.filter P l ≡ₚ List.filter P l'.
Proof.
  induction 1 as [|x l l' _ IH|x y l|l l' l'' _ IH1 _ IH2]; cbn.
  - constructor.
  - destruct (P x); [constructor|]; exact IH.
  - destruct (P x), (P y); try reflexivity. constructor.
  - etransitivity; eassumption.
Qed.

Lemma rows_insert {A} (t : gmap string A) (k : string) (x : A) :
  t !! k = None -> rows (<[k := x]> t) ≡ₚ x :: rows t.
Proof.
  intros H. unfold rows. rewrite (map_to_list_insert t k x H). reflexivity.
Qed.

(** What a sorted, filtered query returns. *)
Lemma In_sorted_listings (P : ListingRow -> bool) (t : gmap string ListingRow)
    (r : ResaleListing) :
  In r (List.map listing_of_row
          (merge_sort listing_newer_first (List.filter P (rows t))))
  <-> exists k row, t !! k = Some row /\ P row = true /\ r = listing_of_row row.
Proof.
  rewrite in_map_iff. split.
  - intros (row & <- & Hin).
    apply list_elem_of_In in Hin. rewrite merge_sort_Permutation in Hin.
    apply list_elem_of_In, filter_In in Hin. destruct Hin as [Hin HP].
    apply In_rows in Hin. destruct Hin as (k & Hk). eauto.
  - intros (k & row & Hk & HP & ->). exists row. split; [reflexivity|].
    apply list_elem_of_In. rewrite merge_sort_Permutation.
    apply list_elem_of_In, filter_In. split; [|exact HP].
    apply In_rows. eauto.
Qed.

Lemma getActiveResaleListings_online (st : State) :
  reachable (db st) = true ->
  getActiveResaleListings st
  = (Return (List.map listing_of_row
               (merge_sort listing_newer_first
                  (List.filter l_is_active (rows (resale_listings (db st)))))), st).
Proof.
  intros H. unfold getActiveResaleListings, bind, read, query, select_active_listings.
  cbv beta. rewrite H. destruct st; reflexivity.
Qed.

Lemma getResaleListings_online (st : State) :
  reachable (db st) = true ->
  getResaleListings st
  = (Return (List.map listing_of_row
               (merge_sort listing_newer_first
                  (List.filter (fun _ => true) (rows (resale_listings (db st)))))), st).
Proof.
  intros H. unfold getResaleListings, bind, read, query, select_listings.
  cbv beta. rewrite H. destruct st; cbn.
  rewrite List.forallb_filter_id; [reflexivity|].
  apply forallb_forall. reflexivity.
Qed.

Lemma getResaleListingsByContract_online (x : string) (st : State) :
  reachable (db st) = true ->
  getResaleListingsByContract x st
  = (Return (List.map listing_of_row
               (merge_sort listing_newer_first
                  (List.filter
                     (fun l => String.eqb (l_company_id l) x && l_is_active l)
                     (rows (resale_listings (db st)))))), st).
Proof.
  intros H. unfold getResaleListingsByContract, bind, read, query,
              select_active_listings_of.
  cbv beta. rewrite H. destruct st; reflexivity.
Qed.

Lemma listing_of_row_inj (a b : ListingRow) :
  listing_of_row a = listing_of_row b -> a = b.
Proof. destruct a, b. unfold listing_of_row. cbn. intros H. inversion H. reflexivity. Qed.

(** X11. The three listing queries agree with each other: each is ordered
    newest first; the listings of one contract are exactly the active
    listings whose [contract_id] is that contract, and the active listings
    are exactly the listings whose [is_active] is set. *)
Theorem listing_queries_agree (x : string) (st : State) :
  exists ofContract active all,
    getResaleListingsByContract x st = (Return ofContract, st) /\
    getActiveResaleListings st = (Return active, st) /\
    getResaleListings st = (Return all, st) /\
    StronglySorted listing_order ofContract /\
    StronglySorted listing_order all /\
    (forall r, In r ofContract <-> In r active /\ contract_id r = x) /\
    (forall r, In r active <-> In r all /\ is_active r = true).
Proof.
  destruct (reachable (db st)) eqn:Hr.
  - rewrite (getResaleListingsByContract_online x st Hr),
      (getActiveResaleListings_online st Hr), (getResaleListings_online st Hr).
    eexists _, _, _. split; [reflexivity|]. split; [reflexivity|].
    split; [reflexivity|].
    split; [|split; [|split]].
    + apply (map_StronglySorted _ listing_newer_first); [auto|].
      apply StronglySorted_merge_sort; apply _.
    + apply (map_StronglySorted _ listing_newer_first); [auto|].
      apply StronglySorted_merge_sort; apply _.
    + intros r. rewrite !In_sorted_listings. split.
      * intros (k & row & Hk & [He Ha]%andb_prop & ->).
        apply String.eqb_eq in He. split; [eauto|exact He].
      * intros [(k & row & Hk & Ha & ->) He]. exists k, row.
        split; [exact Hk|]. split; [|reflexivity].
        cbn in He. rewrite Ha, (proj2 (String.eqb_eq _ _) He). reflexivity.
    + intros r. rewrite !In_sorted_listings. split.
      * intros (k & row & Hk & Ha & ->). split; [eauto|exact Ha].
      * intros [(k & row & Hk & _ & ->) Ha]. eauto.
  - exists [], [], [].
    unfold getResaleListingsByContract, getActiveResaleListings, getResaleListings,
      bind, read, query, select_active_listings_of, select_active_listings,
      select_listings.
    cbv beta. rewrite Hr. destruct st; cbn.
    repeat split; try constructor; try tauto; intros []; tauto.
Qed.


Lemma constraints_insert_listing (d : Database) (row : ListingRow) :
  constraints_hold d ->
  constraints_hold (snd (insert_listing d row)).
Proof.
  intros [Hl Hc]. unfold insert_listing.
  destruct (reachable d); cbn; [|split; assumption].
  destruct (is_int4 _); cbn; [|split; assumption].
  destruct (is_finite _); cbn; [|split; assumption].
  destruct (0 <? l_tokens_for_sale row) eqn:Hq; cbn; [|split; assumption].
  destruct (gt (l_price_per_token row) zero) eqn:Hp; cbn; [|split; assumption].
  destruct (resale_listings d !! l_id row); cbn; [split; assumption|].
  split; [|exact Hc]. cbn. apply map_Forall_insert_2; [|exact Hl].
  split; [reflexivity|]. split; [apply Z.ltb_lt; exact Hq | exact Hp].
Qed.

Lemma constraints_update_tokens (d : Database) (id : string) (q : Z) :
  constraints_hold d ->
  constraints_hold (snd (update_tokens_for_sale d id q)).
Proof.
  intros [Hl Hc]. unfold update_tokens_for_sale.
  destruct (reachable d); cbn; [|split; assumption].
  destruct (resale_listings d !! id) as [row0|]; cbn; [|split; assumption].
  destruct (0 <? q) eqn:Hq; cbn; [|split; assumption].
  split; [|exact Hc]. cbn. intros k l [(_ & l0 & Hk & ->)|[Hne Hk]]%lookup_alter_Some.
  - destruct (Hl _ _ Hk) as (H1 & H2 & H3).
    split; [exact H1|]. split; [apply Z.ltb_lt; exact Hq | exact H3].
  - exact (Hl _ _ Hk).
Qed.

Lemma constraints_update_active (d : Database) (id : string) (b : bool) :
  constraints_hold d ->
  constraints_hold (snd (update_is_active d id b)).
Proof.
  intros [Hl Hc]. unfold update_is_active.
  destruct (reachable d); cbn; [|split; assumption].
  split; [|exact Hc]. cbn. intros k l [(_ & l0 & Hk & ->)|[Hne Hk]]%lookup_alter_Some.
  - exact (Hl _ _ Hk).
  - exact (Hl _ _ Hk).
Qed.

Lemma constraints_insert_company (d : Database) (row : CompanyRow) :
  constraints_hold d ->
  constraints_hold (snd (insert_company d row)).
Proof.
  intros [Hl Hc]. unfold insert_company.
  destruct (reachable d); cbn; [|split; assumption].
  destruct (is_finite _ && is_finite _); cbn; [|split; assumption].
  destruct (companies d !! c_id row); cbn; [split; assumption|].
  split; [exact Hl|]. cbn. apply map_Forall_insert_2; [reflexivity|exact Hc].
Qed.

Lemma query_db {A} (q : Database -> Response A * Database) (st : State) :
  db (snd (query q st)) = snd (q (db st)).
Proof. unfold query. destruct (q (db st)). reflexivity. Qed.

Lemma bind_query_db {A B} (q : Database -> Response A * Database)
    (k : Response A -> M B) (st : State) :
  (forall r st', db (snd (k r st')) = db st') ->
  db (snd ((r <- query q ;; k r) st)) = snd (q (db st)).
Proof.
  intros Hk. unfold bind, query. destruct (q (db st)) as [r d]. cbn.
  rewrite Hk. reflexivity.
Qed.

Lemma throw_or_ret_db {A} (o : option JsError) (a : A) (st : State) :
  db (snd ((match o with Some e => throw e | None => ret a end) st)) = db st.
Proof. destruct o; reflexivity. Qed.

Lemma is_int4_true (q : Z) : 0 < q < 2 ^ 31 -> is_int4 q = true.
Proof.
  intros H. unfold is_int4. apply andb_true_intro.
  split; [apply Z.leb_le | apply Z.ltb_lt]; lia.
Qed.

(** X13. A listing that [createResaleListing] accepts is on the market at
    once: for a reachable store, an unused identifier, a quantity between 1
    and [2^31 - 1] and a finite positive price, the call returns the listing
    as stored, active whatever [is_active] said, and the listing then
    appears among the active listings, among the listings of its contract
    and among all listings; no other listing changes. *)
Theorem created_listing_is_listed (generated_id : string) (now : Z)
    (listing : ResaleListing) (st : State) :
  reachable (db st) = true ->
  resale_listings (db st) !! generated_id = None ->
  0 < tokens_for_sale listing < 2 ^ 31 ->
  is_finite (price_per_token listing) = true ->
  gt (price_per_token listing) zero = true ->
  exists st' active ofContract all,
    createResaleListing generated_id now listing st
      = (Return (stored_as generated_id now listing), st') /\
    getActiveResaleListings st' = (Return active, st') /\
    getResaleListingsByContract (contract_id listing) st' = (Return ofContract, st') /\
    getResaleListings st' = (Return all, st') /\
    In (stored_as generated_id now listing) active /\
    In (stored_as generated_id now listing) ofContract /\
    In (stored_as generated_id now listing) all /\
    (forall other, other <> generated_id ->
        resale_listings (db st') !! other = resale_listings (db st) !! other) /\
    companies (db st') = companies (db st).
Proof.
  intros Hr Hfresh Hq Hfin Hpos.
  set (row := {| l_id := generated_id; l_company_id := contract_id listing;
                 l_seller_wallet := seller_wallet listing;
                 l_tokens_for_sale := tokens_for_sale listing;
                 l_price_per_token := price_per_token listing;
                 l_is_active := true; l_created_at := now |}).
  set (st' := {| trace := trace st; polls := polls st;
                 db := with_listings (db st)
                         (<[generated_id := row]> (resale_listings (db st))) |}).
  assert (Hrun : createResaleListing generated_id now listing st
                 = (Return (stored_as generated_id now listing), st')).
  { unfold createResaleListing, bind, query, insert_listing. cbv beta.
    fold row. cbn [l_tokens_for_sale l_price_per_token l_id row].
    rewrite Hr, (is_int4_true _ Hq), Hfin, Hpos, Hfresh.
    rewrite (proj2 (Z.ltb_lt _ _) (proj1 Hq)). reflexivity. }
  assert (Hr' : reachable (db st') = true) by exact Hr.
  assert (Hrow : resale_listings (db st') !! generated_id = Some row)
    by (cbn; apply lookup_insert_eq).
  exists st'. eexists _, _, _.
  split; [exact Hrun|].
  split; [exact (getActiveResaleListings_online st' Hr')|].
  split; [exact (getResaleListingsByContract_online _ st' Hr')|].
  split; [exact (getResaleListings_online st' Hr')|].
  split; [|split; [|split; [|split]]].
  - apply In_sorted_listings. exists generated_id, row. repeat split. exact Hrow.
  - apply In_sorted_listings. exists generated_id, row.
    split; [exact Hrow|]. split; [|reflexivity].
    cbn. rewrite String.eqb_refl. reflexivity.
  - apply In_sorted_listings. exists generated_id, row. repeat split. exact Hrow.
  - intros other Hne. cbn. apply lookup_insert_ne. congruence.
  - reflexivity.
Qed.

(** X14. Deactivating a listing takes exactly that listing off the
    market: in a reachable store whose rows are keyed by their [id], the
    active listings after [deactivateResaleListing id] are the active
    listings before it except the one with that [id]; deactivating again
    changes nothing, and an unknown [id] is accepted silently. *)
Theorem deactivated_listing_leaves_market (id0 : string) (st : State) :
  reachable (db st) = true ->
  constraints_hold (db st) ->
  exists st' before after,
    getActiveResaleListings st = (Return before, st) /\
    deactivateResaleListing id0 st = (Return tt, st') /\
    getActiveResaleListings st' = (Return after, st') /\
    (forall r, In r after <-> In r before /\ id r <> id0) /\
    deactivateResaleListing id0 st' = (Return tt, st') /\
    (resale_listings (db st) !! id0 = None -> st' = st).
Proof.
  intros Hr [Hkeys _].
  set (t := resale_listings (db st)).
  set (st' := {| trace := trace st; polls := polls st;
                 db := with_listings (db st) (alter (set_is_active false) id0 t) |}).
  assert (Hr' : reachable (db st') = true) by exact Hr.
  exists st'. eexists _, _.
  split; [exact (getActiveResaleListings_online st Hr)|].
  split.
  { unfold deactivateResaleListing, bind, query, update_is_active. cbv beta.
    rewrite Hr. reflexivity. }
  split; [exact (getActiveResaleListings_online st' Hr')|].
  split; [|split].
  - intros r. rewrite !In_sorted_listings. fold t. cbn [db st' with_listings resale_listings].
    split.
    + intros (k & row & Hk & Ha & ->).
      apply lookup_alter_Some in Hk.
      destruct Hk as [(_ & row0 & _ & ->)|[Hne Hk]]; [discriminate Ha|].
      split; [eauto|]. cbn. destruct (Hkeys _ _ Hk) as [-> _]. congruence.
    + intros [(k & row & Hk & Ha & ->) Hne]. exists k, row.
      split; [|split; [exact Ha|reflexivity]].
      rewrite lookup_alter_ne; [exact Hk|].
      cbn in Hne. destruct (Hkeys _ _ Hk) as [Hid _]. congruence.
  - unfold deactivateResaleListing, bind, query, update_is_active. cbv beta.
    rewrite Hr'. cbn. unfold st', with_listings. cbn.
    rewrite alter_alter_eq. reflexivity.
  - fold t. intros Hnone. unfold st'.
    assert (alter (set_is_active false) id0 t = t) as ->.
    { apply map_eq. intros k. destruct (decide (id0 = k)) as [<-|Hne].
      - rewrite lookup_alter_eq, Hnone. reflexivity.
      - apply lookup_alter_ne. exact Hne. }
    unfold t. destruct st as [tr n [r c l]]. reflexivity.
Qed.

Lemma handleBuyResale_db (w : World) (fuel : nat) (isConnected : bool)
    (walletAddress : option string) (selectedResale : option ResaleListing)
    (tokens : Z) (st : State) :
  db (snd (handleBuyResale w fuel isConnected walletAddress selectedResale tokens st))
    = db st
  \/ (exists id q,
        db (snd (handleBuyResale w fuel isConnected walletAddress selectedResale
                   tokens st)) = snd (update_tokens_for_sale (db st) id q))
  \/ (exists id,
        db (snd (handleBuyResale w fuel isConnected walletAddress selectedResale
                   tokens st)) = snd (update_is_active (db st) id false)).
Proof.
  set (res := handleBuyResale w fuel isConnected walletAddress selectedResale tokens st).
  assert (Hres : res = handleBuyResale w fuel isConnected walletAddress
                         selectedResale tokens st) by reflexivity.
  clearbody res. unfold handleBuyResale in Hres.
  destruct isConnected; [|left; rewrite Hres; reflexivity].
  destruct (connected walletAddress) as [wallet|]; [|left; rewrite Hres; reflexivity].
  destruct selectedResale as [selected|]; [|left; rewrite Hres; reflexivity].
  unfold try_catch, bind at 1 in Hres.
  destruct (transferTokensWithPayment_run w fuel wallet (seller_wallet selected)
              (contract_id selected) (Number tokens) (price_per_token selected)
              XLM_TOKEN_ADDRESS st) as (o & evs & n & Heq & _).
  rewrite Heq in Hres.
  destruct o as [[]|e|]; [|left; rewrite Hres; reflexivity..].
  destruct (0 <? tokens_for_sale selected - tokens).
  - right. left. exists (id selected), (tokens_for_sale selected - tokens).
    rewrite Hres.
    unfold updateResaleListingQuantity, bind, query. cbn [db advance].
    destruct (update_tokens_for_sale _ _ _) as [r d]. cbv beta.
    destruct (error r); reflexivity.
  - right. right. exists (id selected).
    rewrite Hres.
    unfold deactivateResaleListing, bind, query. cbn [db advance].
    destruct (update_is_active _ _ _) as [r d]. cbv beta.
    destruct (error r); reflexivity.
Qed.

(** X15. The constraints of the store's tables are kept by every write of
    the application: if rows are keyed by their [id] and every listing has
    a positive quantity and a positive price, the same holds after
    [saveCompanyMetadata], [createResaleListing],
    [updateResaleListingQuantity], [deactivateResaleListing] and after a
    resale purchase through [handleBuyResale], whether they succeed or
    fail. *)
Theorem store_constraints_preserved (st : State) :
  constraints_hold (db st) ->
  (forall generated_id now metadata,
      constraints_hold (db (snd (saveCompanyMetadata generated_id now metadata st))))
  /\
  (forall generated_id now listing,
      constraints_hold (db (snd (createResaleListing generated_id now listing st))))
  /\
  (forall id newQuantity,
      constraints_hold (db (snd (updateResaleListingQuantity id newQuantity st))))
  /\
  (forall id, constraints_hold (db (snd (deactivateResaleListing id st))))
  /\
  (forall w fuel isConnected walletAddress selectedResale tokens,
      constraints_hold
        (db (snd (handleBuyResale w fuel isConnected walletAddress selectedResale
                    tokens st)))).
Proof.
  intros H. split; [|split; [|split; [|split]]].
  - intros. unfold saveCompanyMetadata.
    rewrite bind_query_db by (intros; apply throw_or_ret_db).
    apply constraints_insert_company, H.
  - intros. unfold createResaleListing.
    rewrite bind_query_db
      by (intros r st'; destruct (error r), (data r); reflexivity).
    apply constraints_insert_listing, H.
  - intros. unfold updateResaleListingQuantity.
    rewrite bind_query_db by (intros; apply throw_or_ret_db).
    apply constraints_update_tokens, H.
  - intros. unfold deactivateResaleListing.
    rewrite bind_query_db by (intros; apply throw_or_ret_db).
    apply constraints_update_active, H.
  - intros w fuel isConnected walletAddress selectedResale n.
    destruct (handleBuyResale_db w fuel isConnected walletAddress selectedResale
                n st) as [->|[(id0 & q & ->)|(id0 & ->)]].
    + exact H.
    + apply constraints_update_tokens, H.
    + apply constraints_update_active, H.
Qed.

Lemma single_of_two {A} (l : list A) :
  (2 <= length l)%nat -> single l = failed not_single.
Proof. destruct l as [|a [|b l]]; cbn; try lia. reflexivity. Qed.

Lemma filter_unique {A} (P : A -> bool) (t : gmap string A) (k : string) (x : A) :
  t !! k = Some x -> P x = true ->
  (forall k' y, t !! k' = Some y -> P y = true -> k' = k) ->
  List.filter P (rows t) = [x].
Proof.
  intros Hk HP Huniq. apply Permutation_singleton_r.
  rewrite <- (insert_delete_id t k x Hk).
  rewrite (filter_Permutation_bool P _ _
             (rows_insert (delete k t) k x (lookup_delete_eq t k))).
  cbn. rewrite HP.
  assert (List.filter P (rows (delete k t)) = []) as ->; [|reflexivity].
  destruct (List.filter P (rows (delete k t))) as [|y l] eqn:Hf; [reflexivity|].
  assert (Hin : In y (List.filter P (rows (delete k t)))) by (rewrite Hf; left; reflexivity).
  apply filter_In in Hin. destruct Hin as [Hin Hy].
  apply In_rows in Hin. destruct Hin as (k' & Hk').
  apply lookup_delete_Some in Hk'. destruct Hk' as [Hne Hk'].
  destruct Hne. symmetry. exact (Huniq k' y Hk' Hy).
Qed.

Lemma saveCompanyMetadata_online (generated_id : string) (now : Z)
    (metadata : CompanyMetadata) (st : State) :
  reachable (db st) = true ->
  companies (db st) !! generated_id = None ->
  is_finite (m_target_amount metadata) = true ->
  is_finite (m_token_price metadata) = true ->
  saveCompanyMetadata generated_id now metadata st
  = (Return tt,
     {| trace := trace st; polls := polls st;
        db := with_companies (db st)
                (<[generated_id :=
                     {| c_id := generated_id;
                        c_name := m_name metadata;
                        c_description := m_description metadata;
                        c_logo_url := str_or (logo_url metadata) EmptyString;
                        c_equity_percentage := 10;
                        c_target_amount := m_target_amount metadata;
                        c_token_price := m_token_price metadata;
                        c_total_tokens := 0;
                        c_tokens_sold := 0;
                        c_wallet_address := owner_wallet metadata;
                        c_contract_id := Some (contractId metadata);
                        c_created_at := now |}]> (companies (db st))) |}).
Proof.
  intros Hr Hfresh Ht Hp.
  unfold saveCompanyMetadata, bind, query, insert_company. cbv beta.
  cbn [c_target_amount c_token_price c_id].
  rewrite Hr, Ht, Hp, Hfresh. reflexivity.
Qed.

Lemma getCompanyMetadata_single (x : string) (st : State) (row : CompanyRow) :
  reachable (db st) = true ->
  List.filter (company_matches x) (rows (companies (db st))) = [row] ->
  getCompanyMetadata x st = (Return (Some (company_of_row row)), st).
Proof.
  intros Hr Hf. unfold getCompanyMetadata, bind, read, query, select_company_single.
  cbv beta. rewrite Hr, Hf. destruct st; reflexivity.
Qed.

Lemma getCompanyMetadata_ambiguous (x : string) (st : State) :
  reachable (db st) = true ->
  (2 <= length (List.filter (company_matches x) (rows (companies (db st)))))%nat ->
  getCompanyMetadata x st = (Return None, st).
Proof.
  intros Hr Hf. unfold getCompanyMetadata, bind, read, query, select_company_single.
  cbv beta. rewrite Hr, (single_of_two _ Hf). destruct st; reflexivity.
Qed.

Lemma str_or_empty (s : string) : str_or s EmptyString = s.
Proof. unfold str_or. destruct (String.eqb_spec s EmptyString); congruence. Qed.

(** X16. A company saved under a contract address that no stored company
    uses, neither as its contract nor as its owner's wallet, is found again
    under that address, with the fields it was saved with.  There is no
    uniqueness constraint on the address: when a second company is saved
    under the same contract address, the lookup under that address returns
    null from then on. *)
Theorem company_registration_round_trip (generated_id : string) (now : Z)
    (metadata : CompanyMetadata) (st : State) :
  reachable (db st) = true ->
  companies (db st) !! generated_id = None ->
  is_finite (m_target_amount metadata) = true ->
  is_finite (m_token_price metadata) = true ->
  contractId metadata <> EmptyString ->
  (forall k c, companies (db st) !! k = Some c ->
               company_matches (contractId metadata) c = false) ->
  exists st1,
    saveCompanyMetadata generated_id now metadata st = (Return tt, st1) /\
    getCompanyMetadata (contractId metadata) st1
      = (Return (Some (saved_as now metadata)), st1) /\
    (forall second_id later again st2,
        second_id <> generated_id ->
        companies (db st) !! second_id = None ->
        is_finite (m_target_amount again) = true ->
        is_finite (m_token_price again) = true ->
        contractId again = contractId metadata ->
        saveCompanyMetadata second_id later again st1 = (Return tt, st2) ->
        getCompanyMetadata (contractId metadata) st2 = (Return None, st2)).
Proof.
  intros Hr Hfresh Ht Hp Hcid Hnone.
  rewrite (saveCompanyMetadata_online _ _ _ _ Hr Hfresh Ht Hp).
  eexists. split; [reflexivity|].
  match goal with |- context [<[generated_id := ?r]> _] => set (row := r) end.
  match goal with |- context [getCompanyMetadata _ ?s = (Return (Some _), _)] =>
    set (st1 := s) end.
  assert (Hr1 : reachable (db st1) = true) by exact Hr.
  assert (Hmatch : company_matches (contractId metadata) row = true).
  { unfold company_matches. cbn. rewrite String.eqb_refl. reflexivity. }
  split.
  - rewrite (getCompanyMetadata_single (contractId metadata) st1 row Hr1).
    + f_equal. f_equal. unfold company_of_row, saved_as, row. cbn.
      rewrite str_or_empty. unfold str_or.
      destruct (String.eqb_spec (contractId metadata) EmptyString); [contradiction|].
      reflexivity.
    + cbn. apply (filter_unique _ _ generated_id).
      * apply lookup_insert_eq.
      * exact Hmatch.
      * intros k' y Hk' Hy. apply lookup_insert_Some in Hk'.
        destruct Hk' as [[-> _]|[_ Hk']]; [reflexivity|].
        rewrite (Hnone _ _ Hk') in Hy. discriminate.
  - intros second_id later again st2 Hne Hfresh2 Ht2 Hp2 Hsame Hsave.
    rewrite saveCompanyMetadata_online in Hsave; cbn; try assumption.
    2:{ rewrite lookup_insert_ne by congruence. exact Hfresh2. }
    injection Hsave as <-.
    apply getCompanyMetadata_ambiguous; [exact Hr|]. cbn.
    match goal with |- context [<[second_id := ?r]> _] => set (row2 := r) end.
    rewrite (filter_Permutation_bool _ _ _
               (rows_insert _ second_id row2
                  (eq_trans (lookup_insert_ne _ _ _ _ (not_eq_sym Hne)) Hfresh2))).
    rewrite (filter_Permutation_bool _ _ _
               (Permutation_cons eq_refl (rows_insert _ generated_id row Hfresh)))
      at 1.
    assert (Hmatch2 : company_matches (contractId metadata) row2 = true).
    { unfold company_matches, row2. cbn. rewrite Hsame, String.eqb_refl. reflexivity. }
    cbn [List.filter]. rewrite Hmatch, Hmatch2. cbn. lia.
Qed.

(** X17. Every company the store lists is found again under the
    [contractId] it is listed with, provided that address identifies it:
    when no other row has that address as its contract or as its owner's
    wallet, [getCompanyMetadata] returns exactly the listed entry. *)
Theorem listed_company_is_found (st : State) (k : string) (row : CompanyRow) :
  reachable (db st) = true ->
  companies (db st) !! k = Some row ->
  (forall k' row', companies (db st) !! k' = Some row' ->
                   company_matches (contractId (company_of_row row)) row' = true ->
                   k' = k) ->
  exists listed,
    getCompaniesMetadata st = (Return listed, st) /\
    In (company_of_row row) listed /\
    getCompanyMetadata (contractId (company_of_row row)) st
      = (Return (Some (company_of_row row)), st).
Proof.
  intros Hr Hk Huniq. eexists. split; [|split].
  - unfold getCompaniesMetadata, bind, read, query, select_companies. cbv beta.
    rewrite Hr. destruct st; reflexivity.
  - cbn. apply in_map. apply list_elem_of_In. rewrite merge_sort_Permutation.
    apply list_elem_of_In, In_rows. eauto.
  - apply (getCompanyMetadata_single _ _ row Hr).
    apply (filter_unique _ _ k); [exact Hk| |exact Huniq].
    unfold company_matches, company_of_row, str_or. cbn.
    destruct (c_contract_id row) as [cid|].
    + destruct (String.eqb_spec cid EmptyString).
      * rewrite String.eqb_refl. apply orb_true_r.
      * rewrite String.eqb_refl. reflexivity.
    + apply String.eqb_refl.
Qed.

End StoreWrites.

Lemma market_constraints : constraints_hold market.
Proof.
  split.
  - unfold market. cbn [resale_listings].
    repeat (apply map_Forall_insert_2;
            [split; [reflexivity|split; vm_compute; reflexivity]|]).
    apply map_Forall_empty.
  - unfold market. cbn [companies]. apply map_Forall_singleton. reflexivity.
Qed.

Lemma listing_queries_agree_witness :
  exists ofContract active,
    getResaleListingsByContract token (initial market)
      = (Return ofContract, initial market) /\
    getActiveResaleListings (initial market) = (Return active, initial market) /\
    (In (listing_of_row first_listing) active ->
     In (listing_of_row first_listing) ofContract).
Proof.
  destruct (listing_queries_agree token (initial market))
    as (ofContract & active & all & H1 & H2 & _ & _ & _ & H3 & _).
  exists ofContract, active. split; [exact H1|]. split; [exact H2|].
  intros Hin. apply H3. split; [exact Hin | reflexivity].
Defined.


Lemma created_listing_is_listed_witness :
  exists st' active,
    createResaleListing "listing-9" 2100
      {| id := EmptyString; contract_id := token; seller_wallet := buyer;
         tokens_for_sale := 7; price_per_token := literal 3 4;
         is_active := false; created_at := 0 |} (initial market)
    = (Return {| id := "listing-9"; contract_id := token; seller_wallet := buyer;
                 tokens_for_sale := 7; price_per_token := literal 3 4;
                 is_active := true; created_at := 2100 |}, st') /\
    getActiveResaleListings st' = (Return active, st') /\
    In {| id := "listing-9"; contract_id := token; seller_wallet := buyer;
          tokens_for_sale := 7; price_per_token := literal 3 4;
          is_active := true; created_at := 2100 |} active.
Proof.
  destruct (created_listing_is_listed "listing-9" 2100
              {| id := EmptyString; contract_id := token; seller_wallet := buyer;
                 tokens_for_sale := 7; price_per_token := literal 3 4;
                 is_active := false; created_at := 0 |} (initial market))
    as (st' & active & ofContract & all & H1 & H2 & _ & _ & H3 & _);
    try (vm_compute; reflexivity).
  - vm_compute. split; reflexivity.
  - exists st', active. split; [exact H1|]. split; [exact H2 | exact H3].
Defined.

Lemma deactivated_listing_leaves_market_witness :
  exists st' after,
    deactivateResaleListing "listing-1" (initial market) = (Return tt, st') /\
    getActiveResaleListings st' = (Return after, st') /\
    ~ In (listing_of_row first_listing) after /\
    In (listing_of_row second_listing) after.
Proof.
  destruct (deactivated_listing_leaves_market "listing-1" (initial market)
              eq_refl market_constraints)
    as (st' & before & after & H0 & H1 & H2 & H3 & _).
  exists st', after. split; [exact H1|]. split; [exact H2|].
  assert (Hb : before = [listing_of_row second_listing; listing_of_row first_listing]).
  { assert (He : Return before
                 = Return [listing_of_row second_listing; listing_of_row first_listing])
      by (rewrite <- active_listings_of_market, H0; reflexivity).
    injection He as ->. reflexivity. }
  split.
  - intros Hin. apply H3 in Hin. destruct Hin as [_ Hne]. apply Hne. reflexivity.
  - apply H3. split; [rewrite Hb; left; reflexivity|]. discriminate.
Defined.

Lemma store_constraints_preserved_witness :
  constraints_hold
    (db (snd (handleBuyResale (settles_after 0 (SUCCESS None)) 0 true (Some buyer)
                (Some (listing_of_row first_listing)) 40 (initial market)))).
Proof.
  exact (proj2 (proj2 (proj2 (proj2
           (store_constraints_preserved (initial market) market_constraints))))
           (settles_after 0 (SUCCESS None)) 0%nat true (Some buyer)
           (Some (listing_of_row first_listing)) 40).
Defined.

Lemma company_registration_round_trip_witness :
  exists st1,
    saveCompanyMetadata "company-2" 2100 (company_of_row acme) (initial vacant)
      = (Return tt, st1) /\
    getCompanyMetadata token st1
      = (Return (Some (saved_as 2100 (company_of_row acme))), st1) /\
    (forall st2,
        saveCompanyMetadata "company-3" 2200 (company_of_row acme) st1
          = (Return tt, st2) ->
        getCompanyMetadata token st2 = (Return None, st2)).
Proof.
  destruct (company_registration_round_trip "company-2" 2100 (company_of_row acme)
              (initial vacant)) as (st1 & H1 & H2 & H3);
    try (vm_compute; reflexivity).
  - discriminate.
  - intros k c Hk. cbn in Hk. rewrite lookup_empty in Hk. discriminate.
  - exists st1. split; [exact H1|]. split; [exact H2|].
    intros st2 Hsave.
    apply (H3 "company-3" 2200 (company_of_row acme) st2); try reflexivity.
    + discriminate.
    + exact Hsave.
Defined.

Lemma listed_company_is_found_witness :
  exists listed,
    getCompaniesMetadata (initial market) = (Return listed, initial market) /\
    In (company_of_row acme) listed /\
    getCompanyMetadata token (initial market)
      = (Return (Some (company_of_row acme)), initial market).
Proof.
  apply (listed_company_is_found (initial market) "company-1" acme).
  - reflexivity.
  - reflexivity.
  - intros k' row' Hk' _. cbn in Hk'.
    apply lookup_singleton_Some in Hk'. destruct Hk' as [<- _]. reflexivity.
Defined.

(* ===================================================================== *)
(** * More on the purchase modal *)
(* ===================================================================== *)

Section ModalMore.

Lemma submitted_bound (p : Props) (evs : list UiEvent) : forall s : ModalState,
  (length (submitted p s evs)
   <= (if isProcessing s then 0 else 1) + length (List.filter is_settled evs))%nat.
Proof.
  induction evs as [|ev evs IH]; intros s; cbn [submitted].
  { destruct (isProcessing s); cbn; lia. }
  destruct ev as [value| |]; cbn [step List.filter is_settled].
  - specialize (IH (handleTokenChange p value s)).
    assert (isProcessing (handleTokenChange p value s) = isProcessing s) as <-; [|exact IH].
    unfold handleTokenChange. destruct (String.eqb value EmptyString); [reflexivity|].
    destruct (parseInt value); reflexivity.
  - unfold confirm_disabled, handleInvest.
    destruct (isProcessing s) eqn:Hp; cbn [orb].
    + specialize (IH s). rewrite Hp in IH. exact IH.
    + destruct (tokens s <? 1) eqn:Hlt; cbn [orb].
      * specialize (IH s). rewrite Hp in IH. exact IH.
      * destruct (availableTokens p <? tokens s).
        -- specialize (IH s). rewrite Hp in IH. exact IH.
        -- specialize (IH (setIsProcessing true s)). cbn in IH. cbn. lia.
  - specialize (IH (setIsProcessing false s)). cbn in IH. cbn [length].
    destruct (isProcessing s); lia.
Qed.

(** X18. The modal never has two purchases in flight: during a session
    the number of quantities handed to [onInvest] is at most one more than
    the number of purchases that have settled, so a second click on the
    confirm button does nothing until the first purchase has finished. *)
Theorem one_purchase_in_flight (p : Props) (evs : list UiEvent) :
  (length (submitted p opened evs) <= 1 + length (List.filter is_settled evs))%nat.
Proof. exact (submitted_bound p evs opened). Qed.

Lemma handleTokenChange_range (p : Props) (value : string) (s : ModalState) :
  0 <= tokens s <= Z.max 1 (availableTokens p) ->
  0 <= tokens (handleTokenChange p value s) <= Z.max 1 (availableTokens p).
Proof.
  intros H. unfold handleTokenChange.
  destruct (String.eqb value EmptyString); [cbn; lia|].
  destruct (parseInt value); [cbn; lia|exact H].
Qed.

(** X19. The quantity of the modal stays in range: whatever is typed and
    clicked, it is never negative and never above the available tokens
    (or above the initial 1 when fewer than one token is available). *)
Theorem modal_quantity_in_range (p : Props) (evs : list UiEvent) :
  0 <= tokens (after p opened evs) <= Z.max 1 (availableTokens p).
Proof.
  unfold after.
  assert (H : 0 <= tokens opened <= Z.max 1 (availableTokens p)) by (cbn; lia).
  revert H. generalize opened as s. induction evs as [|ev evs IH]; intros s H.
  { exact H. }
  cbn [fold_left]. apply IH. destruct ev as [value| |]; cbn [step snd].
  - apply handleTokenChange_range, H.
  - destruct (confirm_disabled p s); [exact H|].
    unfold handleInvest. destruct (tokens s <? 1); exact H.
  - exact H.
Qed.

Lemma digit_of_pretty_N_char (x : N) :
  (x < 10)%N -> digit_of 10 (pretty_N_char x) = Some (Z.of_N x).
Proof.
  intros H.
  assert (x = 0 \/ x = 1 \/ x = 2 \/ x = 3 \/ x = 4 \/ x = 5 \/ x = 6 \/ x = 7
          \/ x = 8 \/ x = 9)%N as Hx by lia.
  repeat (destruct Hx as [->|Hx]; [reflexivity|]). subst x. reflexivity.
Qed.

Lemma read_digits_pretty_N_go (x : N) : forall (s : string) (acc : option Z),
  (0 < x)%N ->
  exists k,
    0 <= k /\
    read_digits 10 (pretty_N_go x s) acc
    = read_digits 10 s (Some (default 0 acc * 10 ^ k + Z.of_N x)).
Proof.
  induction (N.lt_wf_0 x) as [x _ IH]. intros s acc Hx.
  rewrite pretty_N_go_step by exact Hx.
  assert (Hmod : (x mod 10 < 10)%N) by (apply N.mod_lt; discriminate).
  pose proof (N.div_mod x 10 ltac:(discriminate)) as Hdm.
  destruct (N.eq_dec (x / 10)%N 0%N) as [Hz|Hnz].
  - rewrite Hz, pretty_N_go_0. cbn [read_digits].
    rewrite (digit_of_pretty_N_char _ Hmod).
    exists 1. split; [lia|]. f_equal. f_equal. lia.
  - destruct (IH (x / 10)%N) with (s := String (pretty_N_char (x mod 10)) s) (acc := acc)
      as (k & Hk & ->).
    + apply N.div_lt; [exact Hx|reflexivity].
    + lia.
    + cbn [read_digits]. rewrite (digit_of_pretty_N_char _ Hmod). cbn [default].
      exists (k + 1). split; [lia|]. f_equal. f_equal.
      assert (Hx' : Z.of_N x = 10 * Z.of_N (x / 10)%N + Z.of_N (x mod 10)%N) by lia.
      rewrite Hx', Z.pow_add_r by lia. change (10 ^ 1) with 10.
      unfold Datatypes.id. ring.
Qed.

(** The numeral of a positive number starts with a digit from 1 to 9. *)
Lemma pretty_N_go_leading (x : N) : forall s : string,
  (0 < x)%N ->
  exists d rest,
    pretty_N_go x s = String (pretty_N_char d) rest /\ (0 < d < 10)%N.
Proof.
  induction (N.lt_wf_0 x) as [x _ IH]. intros s Hx.
  rewrite pretty_N_go_step by exact Hx.
  destruct (N.eq_dec (x / 10)%N 0%N) as [Hz|Hnz].
  - rewrite Hz, pretty_N_go_0. exists (x mod 10)%N, s. split; [reflexivity|].
    pose proof (N.div_mod x 10 ltac:(discriminate)) as Hdm.
    pose proof (N.mod_lt x 10 ltac:(discriminate)) as Hlt.
    rewrite Hz in Hdm. generalize dependent (x mod 10)%N. intros r. lia.
  - apply IH; [apply N.div_lt; [exact Hx|reflexivity] | apply N.neq_0_lt_0; exact Hnz].
Qed.

Lemma parseInt_leading (d : N) (rest : string) :
  (0 < d < 10)%N ->
  parseInt (String (pretty_N_char d) rest)
  = read_digits 10 (String (pretty_N_char d) rest) None
  /\ read_unsigned (String (pretty_N_char d) rest)
     = read_digits 10 (String (pretty_N_char d) rest) None.
Proof.
  intros H.
  assert (d = 1 \/ d = 2 \/ d = 3 \/ d = 4 \/ d = 5 \/ d = 6 \/ d = 7
          \/ d = 8 \/ d = 9)%N as Hd by lia.
  repeat (destruct Hd as [->|Hd]; [split; reflexivity|]). subst d. split; reflexivity.
Qed.

Lemma read_digits_nil_tail (x : N) :
  (0 < x)%N -> read_digits 10 (pretty_N_go x EmptyString) None = Some (Z.of_N x).
Proof.
  intros Hx. destruct (read_digits_pretty_N_go x EmptyString None Hx) as (k & _ & ->).
  cbn. f_equal.
Qed.

Lemma parseInt_pretty (n : Z) : parseInt (pretty n) = Some n.
Proof.
  destruct n as [|q|q]; [reflexivity|..].
  - unfold pretty, pretty_Z, pretty, pretty_positive, pretty, pretty_N.
    destruct (decide (N.pos q = 0%N)) as [H|_]; [discriminate H|].
    destruct (pretty_N_go_leading (N.pos q) EmptyString eq_refl) as (d & rest & Heq & Hd).
    rewrite Heq, (proj1 (parseInt_leading d rest Hd)), <- Heq.
    apply (read_digits_nil_tail (N.pos q)). reflexivity.
  - unfold pretty, pretty_Z, pretty, pretty_positive, pretty, pretty_N.
    destruct (decide (N.pos q = 0%N)) as [H|_]; [discriminate H|].
    destruct (pretty_N_go_leading (N.pos q) EmptyString eq_refl) as (d & rest & Heq & Hd).
    change (parseInt ("-" +:+ pretty_N_go (N.pos q) EmptyString))
      with (Z.opp <$> read_unsigned (pretty_N_go (N.pos q) EmptyString)).
    rewrite Heq, (proj2 (parseInt_leading d rest Hd)), <- Heq.
    rewrite (read_digits_nil_tail (N.pos q)) by reflexivity. reflexivity.
Qed.

Lemma pretty_not_empty (n : Z) : pretty n <> EmptyString.
Proof.
  intros H. pose proof (parseInt_pretty n) as Hp. rewrite H in Hp. discriminate Hp.
Qed.

(** X20. The quantity field reads decimal numerals.  With at most [2^53]
    tokens available every quantity the modal can hold is a whole number
    that binary64 represents exactly, and then: typing the numeral of an
    integer [n] sets the quantity to [n] clamped into
    [0 .. availableTokens] (a numeral above the available tokens gives
    the available tokens, also when [n] itself is beyond [2^53]), and
    typing back what the field shows changes nothing as long as the
    quantity is within the available tokens. *)
Theorem quantity_field_round_trip (p : Props) (s : ModalState) :
  0 <= availableTokens p <= 2 ^ 53 ->
  (forall n : Z,
      handleTokenChange p (pretty n) s
      = setTokens (Z.max 0 (Z.min (availableTokens p) n)) s)
  /\
  (0 <= tokens s <= availableTokens p ->
   exists shown,
     displayed s = Some shown /\
     handleTokenChange p shown s = s).
Proof.
  intros Hbound. split.
  - intros n. unfold handleTokenChange.
    destruct (String.eqb_spec (pretty n) EmptyString) as [H|_].
    { destruct (pretty_not_empty n H). }
    rewrite parseInt_pretty. reflexivity.
  - intros H. unfold displayed. destruct (Z.eqb_spec (tokens s) 0) as [Hz|Hnz].
    + exists EmptyString. split; [reflexivity|].
      unfold handleTokenChange. cbn. rewrite <- Hz. destruct s; reflexivity.
    + assert (Hlt : Z.abs (tokens s) < 10 ^ 21).
      { assert (2 ^ 53 < 10 ^ 21) by reflexivity. lia. }
      apply Z.ltb_lt in Hlt. rewrite Hlt.
      exists (pretty (tokens s)). split; [reflexivity|].
      unfold handleTokenChange.
      destruct (String.eqb_spec (pretty (tokens s)) EmptyString) as [H0|_].
      { destruct (pretty_not_empty _ H0). }
      rewrite parseInt_pretty.
      replace (Z.max 0 (Z.min (availableTokens p) (tokens s))) with (tokens s) by lia.
      destruct s; reflexivity.
Qed.

End ModalMore.

Lemma quantity_field_round_trip_witness :
  exists shown,
    displayed {| tokens := 40; isProcessing := false |} = Some shown /\
    handleTokenChange (resale_props "Acme" (listing_of_row first_listing)) shown
      {| tokens := 40; isProcessing := false |}
    = {| tokens := 40; isProcessing := false |}.
Proof.
  apply (proj2 (quantity_field_round_trip
                  (resale_props "Acme" (listing_of_row first_listing))
                  {| tokens := 40; isProcessing := false |}
                  ltac:(vm_compute; split; discriminate))).
  vm_compute. split; discriminate.
Defined.

(* ===================================================================== *)
(** * The forms that create listings *)
(* ===================================================================== *)

Section FormHandlers.
Variable w : World.
Variable parseFloat : string -> number.
Variable toString : number -> string.

Lemma lt_zero_Number (z : Z) : 0 < z -> lt zero (Number z) = true.
Proof.
  intros Hz. destruct z as [|p|p]; try lia.
  destruct (Number_pos p) as [(m & e & ->)| ->]; reflexivity.
Qed.

(** An insert through the forms either throws and changes nothing, or
    stores an active row with a quantity between 1 and [2^31 - 1]. *)
Lemma createListingFor_cases (generated_id : string) (now : Z)
    (contractId seller : string) (tokens price : number) (st : State) :
  (exists e,
      createListingFor generated_id now contractId seller tokens price st
        = (Throw e, st))
  \/
  (exists q r,
      BigInt tokens = Some q /\ 0 < q < 2 ^ 31 /\
      createListingFor generated_id now contractId seller tokens price st
        = (Return r,
           {| trace := trace st; polls := polls st;
              db := with_listings (db st)
                      (<[generated_id :=
                           listing_row generated_id now contractId seller q price]>
                         (resale_listings (db st))) |})).
Proof.
  unfold createListingFor. destruct (BigInt tokens) as [q|].
  - unfold createResaleListing, bind, query, insert_listing, throw, ret. cbv beta.
    cbn [l_tokens_for_sale l_price_per_token l_id contract_id seller_wallet
           tokens_for_sale price_per_token].
    destruct st as [tr n d]. cbn [db trace polls].
    destruct (reachable d); cbn; [|left; eauto].
    destruct (is_int4 q) eqn:Hint; cbn; [|left; eauto].
    destruct (is_finite price); cbn; [|left; eauto].
    destruct (0 <? q) eqn:Hq; cbn; [|left; eauto].
    destruct (gt price zero); cbn; [|left; eauto].
    destruct (resale_listings d !! generated_id); cbn; [left; eauto|].
    right. eexists q, _. split; [reflexivity|]. split; [|reflexivity].
    unfold is_int4 in Hint. apply andb_prop in Hint. destruct Hint as [_ Hhi].
    apply Z.ltb_lt in Hq, Hhi. lia.
  - left. unfold bind, query, insert_null_quantity, throw. cbv beta.
    destruct st as [tr n d]. cbn [db trace polls].
    destruct (reachable d); cbn; eauto.
Qed.

Lemma sell_form_cases (generated_id : string) (now : Z)
    (walletAddress : option string)
    (selectedHolding : option MyInvestmentsPage.Holding)
    (sellTokens sellPrice : string) (st : State) :
  exists st',
    MyInvestmentsPage.handleCreateResaleListing parseFloat generated_id now
      walletAddress selectedHolding sellTokens sellPrice st = (Return tt, st') /\
    (db st' = db st \/
     exists holding wallet z,
       selectedHolding = Some holding /\
       connected walletAddress = Some wallet /\
       parseInt sellTokens = Some z /\
       0 < z < 2 ^ 31 /\
       gt (Number z) (MyInvestmentsPage.tokenBalance holding) = false /\
       (forall B, MyInvestmentsPage.tokenBalance holding = Number B ->
                  0 <= B < 2 ^ 53 -> z <= B) /\
       db st' = with_listings (db st)
                  (<[generated_id :=
                       listing_row generated_id now
                         (contractId (MyInvestmentsPage.company holding)) wallet z
                         (parseFloat sellPrice)]> (resale_listings (db st)))).
Proof.
  unfold MyInvestmentsPage.handleCreateResaleListing.
  destruct selectedHolding as [holding|]; [|eexists; split; [reflexivity|left; reflexivity]].
  destruct (connected walletAddress) as [wallet|];
    [|eexists; split; [reflexivity|left; reflexivity]].
  destruct (parseInt sellTokens) as [z|];
    [|eexists; split; [reflexivity|left; reflexivity]].
  destruct (is_nan (parseFloat sellPrice));
    [eexists; split; [reflexivity|left; reflexivity]|].
  destruct (gt (Number z) (MyInvestmentsPage.tokenBalance holding)) eqn:Hgt;
    [eexists; split; [reflexivity|left; reflexivity]|].
  destruct (le (Number z) zero) eqn:Hle;
    [eexists; split; [reflexivity|left; reflexivity]|].
  rewrite le_Number_zero in Hle. apply Z.leb_gt in Hle.
  unfold try_catch, bind.
  destruct (createListingFor_cases generated_id now
              (contractId (MyInvestmentsPage.company holding)) wallet (Number z)
              (parseFloat sellPrice) st)
    as [(e & ->)|(q & r & Hq & Hrange & ->)].
  - eexists; split; [reflexivity|left; reflexivity].
  - eexists; split; [reflexivity|]. right.
    assert (q = z) as ->.
    { apply BigInt_Number_small; [lia|exact Hq|].
      assert (2 ^ 31 < 2 ^ prec) by (apply Z.pow_lt_mono_r; unfold prec; lia). lia. }
    exists holding, wallet, z. repeat split; try lia; try assumption.
    intros B HB Hrng. rewrite HB, gt_Number in Hgt.
    + apply Z.ltb_ge in Hgt. exact Hgt.
    + assert (2 ^ 31 < 2 ^ prec) by (apply Z.pow_lt_mono_r; unfold prec; lia).
      unfold prec in *. lia.
    + exact Hrng.
Qed.

(** X21. The investments page never throws, and it lists tokens for
    resale only within the holding: whenever its form handler changes the
    store, a holding was selected and a wallet connected, the quantity
    typed is an integer between 1 and [2^31 - 1] that does not exceed the
    holding's balance, and the only change is one new active listing for
    that quantity, that contract and that seller. *)
Theorem holding_guards_resale_listing (generated_id : string) (now : Z)
    (walletAddress : option string)
    (selectedHolding : option MyInvestmentsPage.Holding)
    (sellTokens sellPrice : string) (st : State) :
  ascii_text sellTokens = true ->
  exists st',
    MyInvestmentsPage.handleCreateResaleListing parseFloat generated_id now
      walletAddress selectedHolding sellTokens sellPrice st = (Return tt, st') /\
    (db st' = db st \/
     exists holding wallet z,
       selectedHolding = Some holding /\
       connected walletAddress = Some wallet /\
       parseInt sellTokens = Some z /\
       0 < z < 2 ^ 31 /\
       gt (Number z) (MyInvestmentsPage.tokenBalance holding) = false /\
       (forall B, MyInvestmentsPage.tokenBalance holding = Number B ->
                  0 <= B < 2 ^ 53 -> z <= B) /\
       db st' = with_listings (db st)
                  (<[generated_id :=
                       listing_row generated_id now
                         (contractId (MyInvestmentsPage.company holding)) wallet z
                         (parseFloat sellPrice)]> (resale_listings (db st)))).
Proof. intros _. apply sell_form_cases. Qed.

(** X22. The listing page never throws, and it lists tokens for resale
    only against an on-chain balance: whenever its resale form changes the
    store, the balance read for the connected wallet returned at least the
    quantity typed, an integer between 1 and [2^31 - 1], and the only
    change is one new active listing for it.  In particular nothing is
    listed when the balance cannot be read, since a failed read counts as a
    balance of 0. *)
Theorem resale_listing_needs_onchain_balance (generated_id : string) (now : Z)
    (isConnected : bool) (walletAddress : option string)
    (resaleForm : CreateListingPage.ResaleForm) (st : State) :
  ascii_text (CreateListingPage.r_tokensToSell resaleForm) = true ->
  exists st',
    CreateListingPage.handleCreateResaleListing w parseFloat toString
      generated_id now isConnected walletAddress resaleForm st = (Return tt, st') /\
    (db st' = db st \/
     exists wallet z balance st1,
       isConnected = true /\
       connected walletAddress = Some wallet /\
       parseInt (CreateListingPage.r_tokensToSell resaleForm) = Some z /\
       0 < z < 2 ^ 31 /\
       getTokenBalance w (CreateListingPage.r_contractId resaleForm) wallet st
         = (Return balance, st1) /\
       lt balance (Number z) = false /\
       balance <> zero /\
       db st' = with_listings (db st)
                  (<[generated_id :=
                       listing_row generated_id now
                         (CreateListingPage.r_contractId resaleForm) wallet z
                         (parseFloat (CreateListingPage.r_pricePerToken resaleForm))]>
                     (resale_listings (db st)))) /\
    (forall wallet st1,
        connected walletAddress = Some wallet ->
        balance_read_fails w (CreateListingPage.r_contractId resaleForm) wallet st st1 ->
        db st' = db st).
Proof.
  intros _.
  assert (Hsplit : forall st',
    (db st' = db st \/
     exists wallet z balance st1,
       isConnected = true /\
       connected walletAddress = Some wallet /\
       parseInt (CreateListingPage.r_tokensToSell resaleForm) = Some z /\
       0 < z < 2 ^ 31 /\
       getTokenBalance w (CreateListingPage.r_contractId resaleForm) wallet st
         = (Return balance, st1) /\
       lt balance (Number z) = false /\
       balance <> zero /\
       db st' = with_listings (db st)
                  (<[generated_id :=
                       listing_row generated_id now
                         (CreateListingPage.r_contractId resaleForm) wallet z
                         (parseFloat (CreateListingPage.r_pricePerToken resaleForm))]>
                     (resale_listings (db st)))) ->
    (db st' = db st \/
     exists wallet z balance st1,
       isConnected = true /\
       connected walletAddress = Some wallet /\
       parseInt (CreateListingPage.r_tokensToSell resaleForm) = Some z /\
       0 < z < 2 ^ 31 /\
       getTokenBalance w (CreateListingPage.r_contractId resaleForm) wallet st
         = (Return balance, st1) /\
       lt balance (Number z) = false /\
       balance <> zero /\
       db st' = with_listings (db st)
                  (<[generated_id :=
                       listing_row generated_id now
                         (CreateListingPage.r_contractId resaleForm) wallet z
                         (parseFloat (CreateListingPage.r_pricePerToken resaleForm))]>
                     (resale_listings (db st)))) /\
    (forall wallet st1,
        connected walletAddress = Some wallet ->
        balance_read_fails w (CreateListingPage.r_contractId resaleForm) wallet st st1 ->
        db st' = db st)).
  { intros st' H. split; [exact H|].
    intros wallet st1 Hw Hfail. destruct H as [H|H]; [exact H|].
    destruct H as (wallet' & z & balance & st2 & _ & Hw' & _ & Hz & Hbal & Hlt & Hnz & _).
    rewrite Hw in Hw'. injection Hw' as <-.
    rewrite (getTokenBalance_failed w _ _ _ _ Hfail) in Hbal.
    injection Hbal as <- _. destruct Hnz. reflexivity. }
  unfold CreateListingPage.handleCreateResaleListing.
  destruct isConnected;
    [|eexists; split; [reflexivity|apply Hsplit; left; reflexivity]].
  destruct (connected walletAddress) as [wallet|];
    [|eexists; split; [reflexivity|apply Hsplit; left; reflexivity]].
  destruct (parseInt (CreateListingPage.r_tokensToSell resaleForm)) as [z|];
    [|eexists; split; [reflexivity|apply Hsplit; left; reflexivity]].
  destruct (is_nan (parseFloat _));
    [eexists; split; [reflexivity|apply Hsplit; left; reflexivity]|].
  unfold try_catch, bind at 1.
  destruct (getTokenBalance_outcome w (CreateListingPage.r_contractId resaleForm)
              wallet st) as (balance & evs & Hbal & _).
  rewrite Hbal.
  destruct (lt balance (Number z)) eqn:Hlt.
  { eexists; split; [reflexivity|apply Hsplit; left; reflexivity]. }
  unfold bind.
  destruct (createListingFor_cases generated_id now
              (CreateListingPage.r_contractId resaleForm) wallet (Number z)
              (parseFloat (CreateListingPage.r_pricePerToken resaleForm))
              (advance st evs 0))
    as [(e & ->)|(q & r & Hq & Hrange & ->)].
  - eexists; split; [reflexivity|apply Hsplit; left; reflexivity].
  - eexists; split; [reflexivity|]. apply Hsplit. right.
    assert (Hz : 0 < z) by (apply (BigInt_Number_sign z q Hq); lia).
    assert (q = z) as ->.
    { apply BigInt_Number_small; [lia|exact Hq|].
      assert (2 ^ 31 < 2 ^ prec) by (apply Z.pow_lt_mono_r; unfold prec; lia). lia. }
    exists wallet, z, balance, (advance st evs 0).
    repeat split; try lia; try assumption.
    intros ->. rewrite (lt_zero_Number z Hz) in Hlt. discriminate Hlt.
Qed.

Lemma initializeCompany_fractional (fuel : nat) (walletAddress contractId : string)
    (name symbol : string) (totalSupply equityPercent : number)
    (description : string) (tokenPrice targetAmount : number) (st : State) :
  not_integral equityPercent ->
  exists e,
    initializeCompany w fuel walletAddress contractId name symbol totalSupply
      equityPercent description tokenPrice targetAmount st = (Throw e, st).
Proof.
  intros Hfrac. unfold initializeCompany.
  destruct (numberToScVal totalSupply) as [e|p2];
    [rewrite bind_lift_inl; eauto|rewrite bind_lift_inr].
  destruct (addressToScVal w walletAddress) as [e|p3];
    [rewrite bind_lift_inl; eauto|rewrite bind_lift_inr].
  rewrite (numberToScVal_not_integral equityPercent Hfrac), bind_lift_inl. eauto.
Qed.

(** X23. An equity percentage with a fractional part cannot be
    registered: whatever else the company form holds, when the equity
    field parses to a number that is not an integer the handler shows one
    message and does nothing else; no call leaves the page and the store is
    not written. *)
Theorem fractional_equity_is_refused (fuel : nat) (generated_id : string) (now : Z)
    (isConnected : bool) (walletAddress : option string)
    (companyForm : CreateListingPage.CompanyForm) (st : State) :
  not_integral (parseFloat (CreateListingPage.f_equityPercentage companyForm)) ->
  exists message,
    CreateListingPage.handleCreateCompanyListing w parseFloat fuel generated_id now
      isConnected walletAddress companyForm st
    = (Return tt, log (EvAlert message) st).
Proof.
  intros Hfrac. unfold CreateListingPage.handleCreateCompanyListing.
  destruct isConnected; [|eexists; reflexivity].
  destruct (connected walletAddress) as [wallet|]; [|eexists; reflexivity].
  destruct (parseInt _) as [z|]; [|eexists; reflexivity].
  destruct (_ || _); [eexists; reflexivity|].
  unfold try_catch.
  destruct (String.eqb _ EmptyString); [eexists; reflexivity|].
  destruct (negb _); [eexists; reflexivity|].
  unfold bind at 1.
  match goal with
  | |- context [initializeCompany w fuel ?a ?c ?n ?s ?t ?q ?d ?p ?g st] =>
      destruct (initializeCompany_fractional fuel a c n s t q d p g st Hfrac)
        as (e & ->)
  end.
  eexists. reflexivity.
Qed.

(** X24. The company form never throws, and it indexes a company only
    after its on-chain initialisation was confirmed: whenever the handler
    changes the store, a wallet was connected, the contract identifier
    (trimmed) starts with C, [initializeCompany] returned for the values
    of the form, and the only change is one new company row holding the
    form's name, description, price and target under that contract and the
    connected wallet as owner. *)
Theorem company_is_indexed_after_initialisation (fuel : nat) (generated_id : string)
    (now : Z) (isConnected : bool) (walletAddress : option string)
    (companyForm : CreateListingPage.CompanyForm) (st : State) :
  ascii_text (CreateListingPage.f_contractId companyForm) = true ->
  ascii_text (CreateListingPage.f_totalTokens companyForm) = true ->
  exists o st',
    CreateListingPage.handleCreateCompanyListing w parseFloat fuel generated_id now
      isConnected walletAddress companyForm st = (o, st') /\
    (forall e, o <> Throw e) /\
    (db st' = db st \/
     exists wallet z st1,
       isConnected = true /\
       connected walletAddress = Some wallet /\
       parseInt (CreateListingPage.f_totalTokens companyForm) = Some z /\
       startsWith (trim (CreateListingPage.f_contractId companyForm)) "C" = true /\
       initializeCompany w fuel wallet
         (trim (CreateListingPage.f_contractId companyForm))
         (CreateListingPage.f_name companyForm)
         (CreateListingPage.f_symbol companyForm)
         (Number z)
         (parseFloat (CreateListingPage.f_equityPercentage companyForm))
         (CreateListingPage.f_description companyForm)
         (parseFloat (CreateListingPage.f_tokenPrice companyForm))
         (mul (Number z) (parseFloat (CreateListingPage.f_tokenPrice companyForm)))
         st = (Return tt, st1) /\
       db st' = with_companies (db st)
                  (<[generated_id :=
                       company_row generated_id now
                         {| contractId := trim (CreateListingPage.f_contractId companyForm);
                            m_name := CreateListingPage.f_name companyForm;
                            m_description := CreateListingPage.f_description companyForm;
                            logo_url := EmptyString;
                            owner_wallet := wallet;
                            m_token_price :=
                              parseFloat (CreateListingPage.f_tokenPrice companyForm);
                            m_target_amount :=
                              mul (Number z)
                                (parseFloat (CreateListingPage.f_tokenPrice companyForm));
                            m_created_at := now |}]> (companies (db st)))).
Proof.
  intros _ _.
  unfold CreateListingPage.handleCreateCompanyListing.
  destruct isConnected;
    [|eexists _, _; split; [reflexivity|split; [discriminate|left; reflexivity]]].
  destruct (connected walletAddress) as [wallet|];
    [|eexists _, _; split; [reflexivity|split; [discriminate|left; reflexivity]]].
  destruct (parseInt _) as [z|] eqn:Hz;
    [|eexists _, _; split; [reflexivity|split; [discriminate|left; reflexivity]]].
  destruct (_ || _);
    [eexists _, _; split; [reflexivity|split; [discriminate|left; reflexivity]]|].
  unfold try_catch.
  destruct (String.eqb _ EmptyString);
    [eexists _, _; split; [reflexivity|split; [discriminate|left; reflexivity]]|].
  destruct (negb _) eqn:Hc;
    [eexists _, _; split; [reflexivity|split; [discriminate|left; reflexivity]]|].
  apply negb_false_iff in Hc.
  unfold bind at 1.
  match goal with
  | |- context [initializeCompany w fuel ?a ?c ?n ?s ?t ?q ?d ?p ?g st] =>
      destruct (initializeCompany_run w fuel a c n s t q d p g st)
        as (o & evs & k & Hinit & _)
  end.
  rewrite Hinit.
  destruct o as [[]|e|];
    [|eexists _, _; split; [reflexivity|split; [discriminate|left; reflexivity]]..].
  unfold bind, saveCompanyMetadata, bind, query, insert_company, throw, ret, alert.
  cbv beta. cbn [db advance c_target_amount c_token_price c_id
                    m_target_amount m_token_price].
  destruct (reachable (db st));
    [|eexists _, _; split; [reflexivity|split; [discriminate|left; reflexivity]]].
  destruct (is_finite _ && is_finite _);
    [|eexists _, _; split; [reflexivity|split; [discriminate|left; reflexivity]]].
  destruct (companies (db st) !! generated_id);
    [eexists _, _; split; [reflexivity|split; [discriminate|left; reflexivity]]|].
  eexists _, _; split; [reflexivity|]. split; [discriminate|]. right.
  exists wallet, z, (advance st evs k).
  split; [reflexivity|]. split; [reflexivity|]. split; [reflexivity|].
  split; [exact Hc|]. split; [exact Hinit|]. reflexivity.
Qed.

(** X26. The holdings of the investments page carry the on-chain
    balance: when the ledger reports a balance [B] below [2^53] for the
    wallet, the company is a holding exactly when [B] is positive, with a
    token balance of exactly [B]; and from such a holding the sell form
    stores a listing only for a whole quantity between 1 and [B]. *)
Theorem holding_carries_onchain_balance (wallet : string) (company : CompanyMetadata)
    (account : Account) (B fee : Z) (auth0 : list string) (st : State) :
  strkey_valid w (contractId company) = true ->
  strkey_valid w wallet = true ->
  rpc_getAccount w DUMMY_ACCOUNT = inr account ->
  rpc_simulateTransaction w
    (built account (contractId company) "balance_of" [scvAddress wallet])
    = inr (SimulationSuccess (Some {| auth := auth0; retval := scvI128 B |}) fee) ->
  0 <= B < 2 ^ 53 ->
  exists st1,
    MyInvestmentsPage.loadHolding w wallet company st
    = (Return (if 0 <? B
               then Some {| MyInvestmentsPage.company := company;
                            MyInvestmentsPage.tokenBalance := Number B;
                            MyInvestmentsPage.currentValue :=
                              mul (Number B) (m_token_price company) |}
               else None), st1) /\
    db st1 = db st /\
    (forall holding generated_id now sellTokens sellPrice st2 st3,
        fst (MyInvestmentsPage.loadHolding w wallet company st) = Return (Some holding) ->
        ascii_text sellTokens = true ->
        MyInvestmentsPage.handleCreateResaleListing parseFloat generated_id now
          (Some wallet) (Some holding) sellTokens sellPrice st2 = (Return tt, st3) ->
        db st3 <> db st2 ->
        exists z, parseInt sellTokens = Some z /\ 1 <= z <= B).
Proof.
  intros Hc Hw Ha Hsim HB.
  assert (Hload : MyInvestmentsPage.loadHolding w wallet company st
    = (Return (if 0 <? B
               then Some {| MyInvestmentsPage.company := company;
                            MyInvestmentsPage.tokenBalance := Number B;
                            MyInvestmentsPage.currentValue :=
                              mul (Number B) (m_token_price company) |}
               else None),
       advance st [EvGetAccount DUMMY_ACCOUNT;
                   EvSimulate (built account (contractId company) "balance_of"
                                 [scvAddress wallet])] 0)).
  { unfold MyInvestmentsPage.loadHolding, try_catch, bind at 1.
    unfold getTokenBalance, try_catch, bind, lift.
    rewrite (addressToScVal_valid w _ Hw). cbn [of_sum].
    rewrite (readContract_answer w _ _ _ _ _ _ _ _ Hc Ha Hsim).
    unfold ret. cbn [scValToNative bigIntToNumber].
    change zero with (Number 0).
    rewrite gt_Number by (unfold prec; lia).
    destruct (0 <? B); reflexivity. }
  eexists. split; [exact Hload|]. split; [reflexivity|].
  intros holding generated_id now sellTokens sellPrice st2 st3 Hh _ Hrun Hchanged.
  rewrite Hload in Hh. cbn [fst] in Hh.
  destruct (0 <? B); [|discriminate Hh]. injection Hh as <-.
  destruct (sell_form_cases generated_id now (Some wallet)
              (Some {| MyInvestmentsPage.company := company;
                       MyInvestmentsPage.tokenBalance := Number B;
                       MyInvestmentsPage.currentValue :=
                         mul (Number B) (m_token_price company) |})
              sellTokens sellPrice st2)
    as (st' & Hrun' & [Hsame|(holding & wallet' & z & Hsel & _ & Hz & Hrange & _ & Hle & _)]).
  - rewrite Hrun in Hrun'. injection Hrun' as ->. contradiction.
  - injection Hsel as <-. exists z. split; [exact Hz|].
    specialize (Hle B eq_refl HB). lia.
Qed.

End FormHandlers.

Lemma holding_guards_resale_listing_witness :
  exists st',
    MyInvestmentsPage.handleCreateResaleListing sample_parseFloat "listing-9" 2100
      (Some buyer)
      (Some {| MyInvestmentsPage.company := company_of_row acme;
               MyInvestmentsPage.tokenBalance := Number 50;
               MyInvestmentsPage.currentValue := Number 25 |})
      "60" "0.5" (initial market) = (Return tt, st') /\
    db st' = market.
Proof.
  destruct (holding_guards_resale_listing sample_parseFloat "listing-9" 2100
              (Some buyer)
              (Some {| MyInvestmentsPage.company := company_of_row acme;
                       MyInvestmentsPage.tokenBalance := Number 50;
                       MyInvestmentsPage.currentValue := Number 25 |})
              "60" "0.5" (initial market) eq_refl)
    as (st' & Hrun & [Hsame|(holding & wallet & z & Hh & _ & Hz & _ & _ & HB & _)]).
  - exists st'. split; [exact Hrun | exact Hsame].
  - exfalso. injection Hh as <-. injection Hz as <-.
    specialize (HB 50 eq_refl). cbn in HB.
    assert (H : 0 <= 50 < 2 ^ 53) by (vm_compute; split; [discriminate|reflexivity]).
    specialize (HB H). vm_compute in HB. apply HB. reflexivity.
Defined.

Lemma resale_listing_needs_onchain_balance_witness :
  exists st',
    CreateListingPage.handleCreateResaleListing balance_unavailable
      sample_parseFloat sample_toString "listing-9" 2100 true (Some buyer)
      {| CreateListingPage.r_contractId := token;
         CreateListingPage.r_tokensToSell := "10";
         CreateListingPage.r_pricePerToken := "0.5" |} (initial market)
    = (Return tt, st') /\
    db st' = market.
Proof.
  destruct (resale_listing_needs_onchain_balance balance_unavailable
              sample_parseFloat sample_toString "listing-9" 2100 true (Some buyer)
              {| CreateListingPage.r_contractId := token;
                 CreateListingPage.r_tokensToSell := "10";
                 CreateListingPage.r_pricePerToken := "0.5" |} (initial market)
              eq_refl)
    as (st' & Hrun & _ & Hfail).
  exists st'. split; [exact Hrun|].
  eapply (Hfail buyer); [reflexivity|].
  right. eexists _, _. split; vm_compute; reflexivity.
Defined.

Lemma fractional_equity_is_refused_witness :
  exists message,
    CreateListingPage.handleCreateCompanyListing (settles_after 0 (SUCCESS None))
      sample_parseFloat 0 "company-2" 2100 true (Some seller)
      {| CreateListingPage.f_contractId := token;
         CreateListingPage.f_name := "Acme";
         CreateListingPage.f_description := "Rockets";
         CreateListingPage.f_symbol := "ACM";
         CreateListingPage.f_equityPercentage := "12.5";
         CreateListingPage.f_tokenPrice := "0.5";
         CreateListingPage.f_totalTokens := "1000" |} (initial vacant)
    = (Return tt, log (EvAlert message) (initial vacant)).
Proof.
  apply fractional_equity_is_refused. vm_compute. reflexivity.
Defined.

Lemma company_is_indexed_after_initialisation_witness :
  exists o st',
    CreateListingPage.handleCreateCompanyListing (settles_after 0 (SUCCESS None))
      sample_parseFloat 0 "company-2" 2100 true (Some seller)
      {| CreateListingPage.f_contractId := " CTOKEN ";
         CreateListingPage.f_name := "Acme";
         CreateListingPage.f_description := "Rockets";
         CreateListingPage.f_symbol := "ACM";
         CreateListingPage.f_equityPercentage := "10";
         CreateListingPage.f_tokenPrice := "0.5";
         CreateListingPage.f_totalTokens := "1000" |} (initial vacant) = (o, st') /\
    (forall e, o <> Throw e).
Proof.
  destruct (company_is_indexed_after_initialisation (settles_after 0 (SUCCESS None))
              sample_parseFloat 0 "company-2" 2100 true (Some seller)
              {| CreateListingPage.f_contractId := " CTOKEN ";
                 CreateListingPage.f_name := "Acme";
                 CreateListingPage.f_description := "Rockets";
                 CreateListingPage.f_symbol := "ACM";
                 CreateListingPage.f_equityPercentage := "10";
                 CreateListingPage.f_tokenPrice := "0.5";
                 CreateListingPage.f_totalTokens := "1000" |} (initial vacant)
              eq_refl eq_refl) as (o & st' & Hrun & Hno & _).
  exists o, st'. split; [exact Hrun | exact Hno].
Defined.

(** The company form with a whole equity percentage: the company is
    initialised on-chain and then found in the store. *)
Lemma company_form_happy_path :
  exists st',
    CreateListingPage.handleCreateCompanyListing (settles_after 0 (SUCCESS None))
      sample_parseFloat 0 "company-2" 2100 true (Some seller)
      {| CreateListingPage.f_contractId := " CTOKEN ";
         CreateListingPage.f_name := "Acme";
         CreateListingPage.f_description := "Rockets";
         CreateListingPage.f_symbol := "ACM";
         CreateListingPage.f_equityPercentage := "10";
         CreateListingPage.f_tokenPrice := "0.5";
         CreateListingPage.f_totalTokens := "1000" |} (initial vacant)
    = (Return tt, st') /\
    fst (getCompanyMetadata token st')
      = Return (Some {| contractId := token; m_name := "Acme";
                        m_description := "Rockets"; logo_url := EmptyString;
                        owner_wallet := seller; m_token_price := literal 1 2;
                        m_target_amount := Number 500; m_created_at := 2100 |}).
Proof. eexists. split; vm_compute; reflexivity. Qed.

Lemma holding_carries_onchain_balance_witness :
  exists st1,
    MyInvestmentsPage.loadHolding (holding 50) buyer (company_of_row acme)
      (initial market)
    = (Return (Some {| MyInvestmentsPage.company := company_of_row acme;
                       MyInvestmentsPage.tokenBalance := Number 50;
                       MyInvestmentsPage.currentValue :=
                         mul (Number 50) (literal 1 2) |}), st1) /\
    db st1 = market.
Proof.
  destruct (holding_carries_onchain_balance (holding 50) sample_parseFloat buyer
              (company_of_row acme) (account_of DUMMY_ACCOUNT) 50 0 []
              (initial market)) as (st1 & Hload & Hdb & _); try reflexivity.
  - vm_compute. split; [discriminate|reflexivity].
  - exists st1. split; [exact Hload | exact Hdb].
Defined.

(* ===================================================================== *)
(** * Contract deployment: service, client and form *)
(* ===================================================================== *)

Section DeploymentFacts.
Import Deployment.

Lemma trim_end_cons (c : ascii) (rest : string) :
  trim_end (String c rest)
  = match trim_end rest with
    | EmptyString => if is_space c then EmptyString else String c EmptyString
    | r => String c r
    end.
Proof. reflexivity. Qed.

Lemma trim_end_idempotent (s : string) : trim_end (trim_end s) = trim_end s.
Proof.
  induction s as [|c rest IH]; [reflexivity|]. rewrite (trim_end_cons c rest).
  destruct (trim_end rest) as [|c' r] eqn:Hr.
  - destruct (is_space c) eqn:Hc; [reflexivity|].
    rewrite trim_end_cons. cbn [trim_end]. rewrite Hc. reflexivity.
  - rewrite (trim_end_cons c (String c' r)), IH. reflexivity.
Qed.

Lemma trim_end_head (c : ascii) (rest : string) :
  is_space c = false ->
  exists r, trim_end (String c rest) = String c r.
Proof.
  intros Hc. rewrite trim_end_cons. destruct (trim_end rest); [rewrite Hc|]; eauto.
Qed.

Lemma skip_spaces_head (s : string) :
  skip_spaces s = EmptyString \/
  exists c rest, skip_spaces s = String c rest /\ is_space c = false.
Proof.
  induction s as [|c rest IH]; [left; reflexivity|]. cbn [skip_spaces].
  destruct (is_space c) eqn:Hc; [exact IH|]. right. eauto.
Qed.

Lemma trim_idempotent (s : string) : trim (trim s) = trim s.
Proof.
  unfold trim. destruct (skip_spaces_head s) as [->|(c & rest & -> & Hc)]; [reflexivity|].
  destruct (trim_end_head c rest Hc) as (r & Hr).
  assert (Hskip : skip_spaces (trim_end (String c rest)) = trim_end (String c rest)).
  { rewrite Hr. cbn [skip_spaces]. rewrite Hc. reflexivity. }
  rewrite Hskip. apply trim_end_idempotent.
Qed.

Lemma deploy_contract_success (c : Commands) :
  success (body (deploy_contract c)) = true ->
  exists built out,
    run_build c = inr built /\ run_deploy c = inr out /\
    valid_contract_id (extract_contract_id (stdout out)) = true /\
    deploy_contract c
    = {| status := 200;
         body :=
           {| success := true;
              d_contractId := Some (extract_contract_id (stdout out));
              d_message := Some "Contract deployed successfully";
              explorerUrl :=
                Some ("https://stellar.expert/explorer/testnet/contract/"
                        +:+ extract_contract_id (stdout out));
              d_error := None;
              details := None |} |}.
Proof.
  unfold deploy_contract.
  destruct (run_build c) as [e|built]; [discriminate|].
  destruct (run_deploy c) as [e|out]; [discriminate|].
  destruct (valid_contract_id (extract_contract_id (stdout out))) eqn:Hv;
    cbn [negb]; [|discriminate].
  intros _. exists built, out.
  split; [reflexivity|]. split; [reflexivity|]. split; [exact Hv|reflexivity].
Qed.

(** X25. The deployment service answers with status 200 only with a
    usable identifier, and the form takes over nothing else: the status is
    200 exactly when [success] is set and 500 otherwise; when the deploy
    button changes the form, build and deploy both ran, the new contract
    field is the last line of the deploy output without surrounding white
    space, it starts with C and has at least 50 characters, every other
    field is kept, and the field passes the checks of the company form as
    it is. *)
Theorem deployed_identifier_passes_the_form (c : Commands)
    (companyForm : CreateListingPage.CompanyForm) (st : State) :
  (forall out, run_deploy c = inr out -> ascii_text (stdout out) = true) ->
  (status (deploy_contract c)
   = if success (body (deploy_contract c)) then 200 else 500)
  /\
  exists form' message,
    handleDeployContract false (inr (deploy_contract c)) companyForm st
      = (Return form', log (EvAlert message) st) /\
    (form' = companyForm \/
     exists built out,
       run_build c = inr built /\ run_deploy c = inr out /\
       CreateListingPage.f_contractId form' = extract_contract_id (stdout out) /\
       startsWith (CreateListingPage.f_contractId form') "C" = true /\
       (50 <= String.length (CreateListingPage.f_contractId form'))%nat /\
       trim (CreateListingPage.f_contractId form')
         = CreateListingPage.f_contractId form' /\
       CreateListingPage.f_name form' = CreateListingPage.f_name companyForm /\
       CreateListingPage.f_description form'
         = CreateListingPage.f_description companyForm /\
       CreateListingPage.f_symbol form' = CreateListingPage.f_symbol companyForm /\
       CreateListingPage.f_equityPercentage form'
         = CreateListingPage.f_equityPercentage companyForm /\
       CreateListingPage.f_tokenPrice form'
         = CreateListingPage.f_tokenPrice companyForm /\
       CreateListingPage.f_totalTokens form'
         = CreateListingPage.f_totalTokens companyForm).
Proof.
  intros _. split.
  { unfold deploy_contract.
    destruct (run_build c); [reflexivity|].
    destruct (run_deploy c); [reflexivity|].
    destruct (negb _); reflexivity. }
  unfold handleDeployContract, deployNewContract.
  destruct (success (body (deploy_contract c))) eqn:Hs.
  - destruct (deploy_contract_success c Hs) as (built & out & Hb & Hd & Hv & ->).
    cbn [response_ok status body negb andb Z.leb Z.compare Pos.compare
           Pos.compare_cont success d_contractId member_or].
    unfold valid_contract_id in Hv.
    apply andb_prop in Hv. destruct Hv as [Hv Hlen].
    apply andb_prop in Hv. destruct Hv as [Hne Hc].
    apply negb_true_iff in Hne. rewrite !str_or_empty, Hne. cbn [negb].
    eexists _, _. split; [reflexivity|]. right. exists built, out.
    split; [exact Hb|]. split; [exact Hd|]. cbn.
    split; [reflexivity|]. split; [exact Hc|].
    split; [apply negb_true_iff, Nat.ltb_ge in Hlen; exact Hlen|].
    split; [apply trim_idempotent|]. repeat split.
  - assert (Hfail : exists e d, deploy_contract c = failure e d).
    { unfold deploy_contract in *.
      destruct (run_build c); [eauto|].
      destruct (run_deploy c); [eauto|].
      destruct (negb _); [eauto|discriminate Hs]. }
    destruct Hfail as (e & d & ->).
    eexists _, _. split; [reflexivity|]. left. reflexivity.
Qed.

End DeploymentFacts.

Lemma deployed_identifier_passes_the_form_witness :
  exists form' message,
    Deployment.handleDeployContract false
      (inr (Deployment.deploy_contract
              {| Deployment.run_build :=
                   inr {| Deployment.stdout := EmptyString;
                          Deployment.stderr := "Finished release" |};
                 Deployment.run_deploy :=
                   inr {| Deployment.stdout :=
                            "Deploying" +:+ String Deployment.newline
                              (" " +:+ XLM_TOKEN_ADDRESS +:+ " "
                                 +:+ String Deployment.newline EmptyString);
                          Deployment.stderr := EmptyString |} |}))
      {| CreateListingPage.f_contractId := EmptyString;
         CreateListingPage.f_name := "Acme";
         CreateListingPage.f_description := "Rockets";
         CreateListingPage.f_symbol := "ACM";
         CreateListingPage.f_equityPercentage := "10";
         CreateListingPage.f_tokenPrice := "0.5";
         CreateListingPage.f_totalTokens := "1000" |} (initial vacant)
    = (Return form', log (EvAlert message) (initial vacant)) /\
    CreateListingPage.f_contractId form' = XLM_TOKEN_ADDRESS.
Proof.
  destruct (deployed_identifier_passes_the_form
              {| Deployment.run_build :=
                   inr {| Deployment.stdout := EmptyString;
                          Deployment.stderr := "Finished release" |};
                 Deployment.run_deploy :=
                   inr {| Deployment.stdout :=
                            "Deploying" +:+ String Deployment.newline
                              (" " +:+ XLM_TOKEN_ADDRESS +:+ " "
                                 +:+ String Deployment.newline EmptyString);
                          Deployment.stderr := EmptyString |} |}
              {| CreateListingPage.f_contractId := EmptyString;
                 CreateListingPage.f_name := "Acme";
                 CreateListingPage.f_description := "Rockets";
                 CreateListingPage.f_symbol := "ACM";
                 CreateListingPage.f_equityPercentage := "10";
                 CreateListingPage.f_tokenPrice := "0.5";
                 CreateListingPage.f_totalTokens := "1000" |} (initial vacant))
    as (_ & form' & message & Hrun & Hform).
  - intros out Hout. injection Hout as <-. vm_compute. reflexivity.
  - exists form', message. split; [exact Hrun|].
    assert (Hc : fst (Deployment.handleDeployContract false
                        (inr (Deployment.deploy_contract _)) _ (initial vacant))
                 = Return form') by (rewrite Hrun; reflexivity).
    vm_compute in Hc. injection Hc as <-. reflexivity.
Defined.
